(** * Message relay and autonomous-reply engine of the Jarvis assistant

    A shallow embedding of the WhatsApp relay core:
    - [friday/integrations/whatsapp_models.py]   (records and enums),
    - [friday/integrations/whatsapp_service.py]  (Selenium connector: change
      detector, message reader, dispatcher),
    - [friday/integrations/whatsapp_webjs_service.py] (HTTP bridge connector),
    - [friday/main.py]                           (context store, decision
      engine, pending-reply slot).

    Conventions of the embedding.
    - A Python [str] is a Rocq [string], one [ascii] per character: the
      alphabet is the code points 0 to 255.
    - A [dict] keyed by strings is a [gmap string _]; a Python list is a list.
    - Instance attributes live in a record; a method is a computation in the
      monad [M] below, which threads the record, collects the observable
      effects of the call as a list of [Event]s in program order, and
      carries Python exceptions as [Raise].  Attribute writes made before an
      exception is raised are kept, as in Python.
    - What the program obtains from outside (the DOM seen by Selenium, the
      answers of the HTTP bridge, of the completion service, of the regex
      engine, the clock) is an explicit argument.
    - [logger.info] and [logger.debug] lines are not recorded; [logger.error]
      and [logger.warning] lines are. *)

From Stdlib Require Import ZArith QArith Lqa String Ascii List Bool Lia.
From stdpp Require Import gmap strings list fin_maps pretty.

Local Open Scope string_scope.
Local Open Scope list_scope.

(** ** Python string operations *)

Module PyStr.

(** [str.isspace] on one character. *)
Definition isspace (c : ascii) : bool :=
  let n := nat_of_ascii c in
  ((9 <=? n)%nat && (n <=? 13)%nat) || ((28 <=? n)%nat && (n <=? 32)%nat)
  || (n =? 133)%nat || (n =? 160)%nat.

Fixpoint lstrip_with (p : ascii -> bool) (s : string) : string :=
  match s with
  | EmptyString => EmptyString
  | String c t => if p c then lstrip_with p t else s
  end.

Fixpoint rstrip_with (p : ascii -> bool) (s : string) : string :=
  match s with
  | EmptyString => EmptyString
  | String c t =>
      match rstrip_with p t with
      | EmptyString => if p c then EmptyString else String c EmptyString
      | t' => String c t'
      end
  end.

Definition strip_with (p : ascii -> bool) (s : string) : string :=
  rstrip_with p (lstrip_with p s).

(** [s.strip()] *)
Definition strip (s : string) : string := strip_with isspace s.

(** [s.strip(ch)] for a one-character argument. *)
Definition strip_char (ch : ascii) (s : string) : string :=
  strip_with (Ascii.eqb ch) s.

(** [c.lower()] for one character: the letters A-Z and the upper-case
    letters of the upper half of the alphabet (192-214 and 216-222) move up
    by 32; every other character is its own lower case. *)
Definition lower_char (c : ascii) : ascii :=
  let n := nat_of_ascii c in
  if ((65 <=? n)%nat && (n <=? 90)%nat)
     || ((192 <=? n)%nat && (n <=? 214)%nat)
     || ((216 <=? n)%nat && (n <=? 222)%nat)
  then ascii_of_nat (n + 32) else c.

(** [c.upper()] for one character.  The letters a-z and 224-246, 248-254
    move down by 32.  Three characters have an upper case that is not one
    character of the alphabet: the sharp s (223) becomes the two letters
    SS, the micro sign (181) and the y with diaeresis (255) become the code
    points 924 and 376, for which [None] stands. *)
Definition upper_char (c : ascii) : option string :=
  let n := nat_of_ascii c in
  if ((97 <=? n)%nat && (n <=? 122)%nat)
     || ((224 <=? n)%nat && (n <=? 246)%nat)
     || ((248 <=? n)%nat && (n <=? 254)%nat)
  then Some (String (ascii_of_nat (n - 32)) EmptyString)
  else if (n =? 223)%nat then Some "SS"
  else if (n =? 181)%nat || (n =? 255)%nat then None
  else Some (String c EmptyString).

Fixpoint map_chars (f : ascii -> ascii) (s : string) : string :=
  match s with
  | EmptyString => EmptyString
  | String c t => String (f c) (map_chars f t)
  end.

(** [s.upper()]; [None] when the result has a character outside the
    alphabet. *)
Fixpoint upper (s : string) : option string :=
  match s with
  | EmptyString => Some EmptyString
  | String c t =>
      match upper_char c, upper t with
      | Some u, Some r => Some (u +:+ r)
      | _, _ => None
      end
  end.

(** [s.upper() == t] for a [t] of the alphabet. *)
Definition upper_is (t s : string) : bool :=
  match upper s with
  | Some u => String.eqb u t
  | None => false
  end.

(** [s.lower()] *)
Definition lower (s : string) : string := map_chars lower_char s.

(** [s.split(sep)] for a one-character separator: never the empty list. *)
Fixpoint split (sep : ascii) (s : string) : list string :=
  match s with
  | EmptyString => [EmptyString]
  | String c t =>
      if Ascii.eqb c sep then EmptyString :: split sep t
      else match split sep t with
           | h :: r => String c h :: r
           | [] => [String c EmptyString]
           end
  end.

(** [sep in s] *)
Fixpoint contains_char (sep : ascii) (s : string) : bool :=
  match s with
  | EmptyString => false
  | String c t => Ascii.eqb c sep || contains_char sep t
  end.

(** [s.split(sep, 1)[1]], used only under [sep in s]: what follows the
    first separator. *)
Fixpoint after_first (sep : ascii) (s : string) : string :=
  match s with
  | EmptyString => EmptyString
  | String c t => if Ascii.eqb c sep then t else after_first sep t
  end.

(** [s.rsplit(sep, 1)[0]], used only under [sep in s]: what precedes the
    last separator. *)
Fixpoint before_last (sep : ascii) (s : string) : string :=
  match s with
  | EmptyString => EmptyString
  | String c t =>
      if contains_char sep t then String c (before_last sep t)
      else EmptyString
  end.

Definition startswith (p s : string) : bool := String.prefix p s.

Definition endswith (p s : string) : bool :=
  (String.length p <=? String.length s)%nat
  && String.eqb (substring (String.length s - String.length p) (String.length p) s) p.

(** [sep.join(l)] *)
Definition join (sep : string) (l : list string) : string := String.concat sep l.

(** [s[:n]] *)
Definition slice_to (n : nat) (s : string) : string := substring 0 n s.

(** [s[i:]] for [i >= 0] *)
Definition slice_from (i : nat) (s : string) : string :=
  substring i (String.length s - i) s.

Definition newline : ascii := ascii_of_nat 10.
Definition nl : string := String newline EmptyString.

End PyStr.

(** [l[-n:]] on a Python list: the last [n] elements, the whole list when it
    is shorter, and also the whole list for [n = 0] (since [-0 = 0]). *)
Definition slice_last {A : Type} (n : nat) (l : list A) : list A :=
  match n with
  | O => l
  | _ => drop (length l - n) l
  end.

(** ** whatsapp_models.py *)

Inductive MessageType :=
| TEXT | IMAGE | VIDEO | AUDIO | DOCUMENT | STICKER | LOCATION | CONTACT | UNKNOWN.

Inductive MessageDirection := INCOMING | OUTGOING.

Record WhatsAppMessage := {
  id : string;
  chat_name : string;
  sender_name : string;
  content : string;
  timestamp : Z;
  direction : MessageDirection;
  message_type : MessageType;
  media_path : option string;
  is_read : bool;
  is_from_me : bool
}.

Record WhatsAppNotification := {
  n_chat_name : string;
  n_sender_name : string;
  message_preview : string;
  n_timestamp : Z;
  unread_count : nat
}.

(** ** Observable effects and the method monad *)

(** One entry per effect a method has on its collaborators, in program
    order. *)
Inductive Event :=
| EvLogError (msg : string)                  (* logger.error / logger.warning *)
| EvGui (text : string)                      (* conversation_view.add_message("assistant", text) *)
| EvStatus (status : string)                 (* window.add_event("status_update", ...) *)
| EvError (message : string)                 (* window.add_event("error", ...) *)
| EvSpeak (text : string)                    (* tts.speak(text, play_audio=True) *)
| EvCompletion (messages : list (string * string)) (* openai_client.chat_completion *)
| EvSend (contact message : string)          (* whatsapp.send_message(contact, message) *)
| EvSpawnDecision (n : WhatsAppNotification) (* Thread(target=_process_whatsapp_with_ai) *)
| EvSpawnSend (contact message : string)     (* Thread(target=_send_whatsapp_message) *)
| EvPreviewWrite (chat preview : string)     (* last_message_previews[chat] = preview *)
| EvClick (chat : string)                    (* chat.click() *)
| EvDbSave (m : WhatsAppMessage)             (* db.save_message(m) *)
| EvQueuePut (m : WhatsAppMessage)           (* message_queue.put(m) *)
| EvNotification (n : WhatsAppNotification)  (* callback(notification) *)
| EvBrowser (action : string)                (* a Selenium step of the send path *)
| EvRefresh                                  (* driver.refresh() *)
| EvHttpGet (path : string)
| EvHttpPost (path : string) (body : list (string * string)).

Inductive Result (A : Type) :=
| Ok (a : A)
| Raise (exn : string).
Arguments Ok {A} a.
Arguments Raise {A} exn.

Definition M (S A : Type) : Type := S -> Result A * S * list Event.

Definition ret {S A : Type} (a : A) : M S A := fun s => (Ok a, s, []).

Definition bind {S A B : Type} (m : M S A) (k : A -> M S B) : M S B :=
  fun s =>
    match m s with
    | (Ok a, s1, t1) => let '(r, s2, t2) := k a s1 in (r, s2, t1 ++ t2)
    | (Raise e, s1, t1) => (Raise e, s1, t1)
    end.

Definition raise {S A : Type} (e : string) : M S A := fun s => (Raise e, s, []).
Definition emit {S : Type} (e : Event) : M S unit := fun s => (Ok tt, s, [e]).
Definition gets {S A : Type} (f : S -> A) : M S A := fun s => (Ok (f s), s, []).
Definition modify {S : Type} (f : S -> S) : M S unit := fun s => (Ok tt, f s, []).

(** A fallible call into a collaborator whose outcome is given. *)
Definition call {S A : Type} (r : Result A) : M S A := fun s => (r, s, []).

(** [try: body  except Exception as e: handler e] *)
Definition try_except {S A : Type} (body : M S A) (handler : string -> M S A) : M S A :=
  fun s =>
    match body s with
    | (Ok a, s1, t1) => (Ok a, s1, t1)
    | (Raise e, s1, t1) => let '(r, s2, t2) := handler e s1 in (r, s2, t1 ++ t2)
    end.

(** [try: body  finally: fin] *)
Definition try_finally {S A : Type} (body : M S A) (fin : M S unit) : M S A :=
  fun s =>
    let '(r, s1, t1) := body s in
    match fin s1 with
    | (Ok _, s2, t2) => (r, s2, t1 ++ t2)
    | (Raise e, s2, t2) => (Raise e, s2, t1 ++ t2)
    end.

Declare Scope py_scope.
Delimit Scope py_scope with py.
Notation "'let*' x ':=' m 'in' k" := (bind m (fun x => k))
  (at level 10, x name, m at level 100, k at level 200) : py_scope.
Notation "m ';;' k" := (bind m (fun _ => k))
  (at level 100, k at level 200, right associativity) : py_scope.

Definition result_of {S A : Type} (x : Result A * S * list Event) : Result A := fst (fst x).
Definition state_of {S A : Type} (x : Result A * S * list Event) : S := snd (fst x).
Definition trace_of {S A : Type} (x : Result A * S * list Event) : list Event := snd x.

(** ** main.py: the application object *)

(** The dict stored in [pending_whatsapp_message]. *)
Record PendingMessage := {
  contact : string;
  sender : string;
  original_message : string
}.

(** One dict of [user_context]. *)
Record UserContext := {
  text : string;
  uc_timestamp : Q
}.

Record FridayApp := {
  whatsapp_enabled : bool;
  last_whatsapp_contact : option string;
  waiting_for_whatsapp_reply : bool;
  pending_whatsapp_message : option PendingMessage;
  whatsapp_conversations : gmap string (list string);
  user_context : list UserContext;
  is_processing : bool
}.

Definition max_history_per_contact : nat := 50.
Definition max_user_context : nat := 30.

(** The attributes as [__init__] leaves them. *)
Definition init_app : FridayApp := {|
  whatsapp_enabled := false;
  last_whatsapp_contact := None;
  waiting_for_whatsapp_reply := false;
  pending_whatsapp_message := None;
  whatsapp_conversations := ∅;
  user_context := [];
  is_processing := false
|}.

Definition set_whatsapp_conversations (v : gmap string (list string)) (a : FridayApp) : FridayApp :=
  {| whatsapp_enabled := whatsapp_enabled a;
     last_whatsapp_contact := last_whatsapp_contact a;
     waiting_for_whatsapp_reply := waiting_for_whatsapp_reply a;
     pending_whatsapp_message := pending_whatsapp_message a;
     whatsapp_conversations := v;
     user_context := user_context a;
     is_processing := is_processing a |}.

Definition set_user_context (v : list UserContext) (a : FridayApp) : FridayApp :=
  {| whatsapp_enabled := whatsapp_enabled a;
     last_whatsapp_contact := last_whatsapp_contact a;
     waiting_for_whatsapp_reply := waiting_for_whatsapp_reply a;
     pending_whatsapp_message := pending_whatsapp_message a;
     whatsapp_conversations := whatsapp_conversations a;
     user_context := v;
     is_processing := is_processing a |}.

Definition set_waiting_for_whatsapp_reply (v : bool) (a : FridayApp) : FridayApp :=
  {| whatsapp_enabled := whatsapp_enabled a;
     last_whatsapp_contact := last_whatsapp_contact a;
     waiting_for_whatsapp_reply := v;
     pending_whatsapp_message := pending_whatsapp_message a;
     whatsapp_conversations := whatsapp_conversations a;
     user_context := user_context a;
     is_processing := is_processing a |}.

Definition set_pending_whatsapp_message (v : option PendingMessage) (a : FridayApp) : FridayApp :=
  {| whatsapp_enabled := whatsapp_enabled a;
     last_whatsapp_contact := last_whatsapp_contact a;
     waiting_for_whatsapp_reply := waiting_for_whatsapp_reply a;
     pending_whatsapp_message := v;
     whatsapp_conversations := whatsapp_conversations a;
     user_context := user_context a;
     is_processing := is_processing a |}.

Definition set_last_whatsapp_contact (v : option string) (a : FridayApp) : FridayApp :=
  {| whatsapp_enabled := whatsapp_enabled a;
     last_whatsapp_contact := v;
     waiting_for_whatsapp_reply := waiting_for_whatsapp_reply a;
     pending_whatsapp_message := pending_whatsapp_message a;
     whatsapp_conversations := whatsapp_conversations a;
     user_context := user_context a;
     is_processing := is_processing a |}.

Definition set_is_processing (v : bool) (a : FridayApp) : FridayApp :=
  {| whatsapp_enabled := whatsapp_enabled a;
     last_whatsapp_contact := last_whatsapp_contact a;
     waiting_for_whatsapp_reply := waiting_for_whatsapp_reply a;
     pending_whatsapp_message := pending_whatsapp_message a;
     whatsapp_conversations := whatsapp_conversations a;
     user_context := user_context a;
     is_processing := v |}.

(** *** Conversation context window *)

(** The line [_add_to_conversation_history] appends. *)
Definition history_line (message : string) (is_from_user : bool) : string :=
  let direction := if negb is_from_user then "THEM" else "YOU" in
  "[" +:+ direction +:+ "] " +:+ message.

Definition add_history (contact_name message : string) (is_from_user : bool)
    (convs : gmap string (list string)) : gmap string (list string) :=
  let convs1 :=
    match convs !! contact_name with
    | None => <[contact_name := []]> convs
    | Some _ => convs
    end in
  let convs2 :=
    <[contact_name := (convs1 !!! contact_name) ++ [history_line message is_from_user]]> convs1 in
  if (max_history_per_contact <? length (convs2 !!! contact_name))%nat
  then <[contact_name := slice_last max_history_per_contact (convs2 !!! contact_name)]> convs2
  else convs2.

Definition _add_to_conversation_history (contact_name message : string)
    (is_from_user : bool) : M FridayApp unit :=
  modify (fun a =>
    set_whatsapp_conversations
      (add_history contact_name message is_from_user (whatsapp_conversations a)) a).

Definition _get_conversation_history_text (contact_name : string)
    (a : FridayApp) : string :=
  match whatsapp_conversations a !! contact_name with
  | None | Some [] => "No previous conversation history with this contact."
  | Some lines => "RECENT CONVERSATION HISTORY:" +:+ PyStr.nl +:+ PyStr.join PyStr.nl lines
  end.

(** *** User utterance pool *)

Definition Qltb (x y : Q) : bool := negb (Qle_bool y x).

(** [now] is the reading of [time.time()]. *)
Definition add_user_context (now : Q) (txt : string)
    (pool : list UserContext) : list UserContext :=
  let pool1 := pool ++ [{| text := txt; uc_timestamp := now |}] in
  if (max_user_context <? length pool1)%nat
  then slice_last max_user_context pool1
  else pool1.

Definition _add_user_context (now : Q) (txt : string) : M FridayApp unit :=
  modify (fun a => set_user_context (add_user_context now txt (user_context a)) a).

(** The list comprehension of [_get_user_context_text]: [time.time()] is
    read once per entry; [clock i] is the reading made for the entry at
    index [i]. *)
Fixpoint recent_contexts (clock : nat -> Q) (i : nat)
    (pool : list UserContext) : list UserContext :=
  match pool with
  | [] => []
  | ctx :: rest =>
      if Qltb (clock i - uc_timestamp ctx) 300
      then ctx :: recent_contexts clock (S i) rest
      else recent_contexts clock (S i) rest
  end.

Definition no_recent_user_context : string := "No recent user context.".

Definition format_user_context (recent : list UserContext) : string :=
  "WHAT USER TOLD FRIDAY RECENTLY:" +:+ PyStr.nl
  +:+ PyStr.join PyStr.nl (map (fun line => "- " +:+ line) (map text recent)).

Definition _get_user_context_text (clock : nat -> Q) (a : FridayApp) : string :=
  match user_context a with
  | [] => no_recent_user_context
  | _ =>
      match recent_contexts clock 0 (user_context a) with
      | [] => no_recent_user_context
      | recent => format_user_context recent
      end
  end.

(** ** whatsapp_service.py: the Selenium connector *)

Module WhatsAppService.

Local Open Scope py_scope.

(** What Selenium reports for one [div[data-testid="msg-container"]]. *)
Record MsgElem := {
  me_class : Result string;      (* get_attribute('class'); Raise: stale element *)
  me_text : option string;       (* span.selectable-text, None: not found *)
  me_sender : option string;     (* span[dir="auto"][role="button"], None: not found *)
  me_uuid : string;              (* uuid.uuid4() *)
  me_now : Z                     (* datetime.now() *)
}.

(** What Selenium reports for one entry of the chat list. *)
Record ChatElem := {
  ce_unread_badge : bool;              (* an unread badge was found *)
  ce_font_weight : option Z;           (* font-weight of the title, None: no usable value *)
  ce_title : option string;            (* title attribute by either selector, None: none found *)
  ce_preview_ltr : option string;      (* text of span[dir="ltr"], None: not found *)
  ce_span_texts : option (list string);(* texts of all spans, None: lookup raised *)
  ce_click : Result unit;              (* chat.click() *)
  ce_messages : Result (list MsgElem)  (* the message panel once the chat is open *)
}.

Record t := {
  last_seen_messages : gmap string string;
  last_message_previews : gmap string string;
  db : gmap string WhatsAppMessage;        (* table messages, PRIMARY KEY id *)
  message_queue : list WhatsAppMessage
}.

Definition init : t := {|
  last_seen_messages := ∅;
  last_message_previews := ∅;
  db := ∅;
  message_queue := []
|}.

Definition set_last_seen_messages (v : gmap string string) (s : t) : t :=
  {| last_seen_messages := v;
     last_message_previews := last_message_previews s;
     db := db s;
     message_queue := message_queue s |}.

Definition set_last_message_previews (v : gmap string string) (s : t) : t :=
  {| last_seen_messages := last_seen_messages s;
     last_message_previews := v;
     db := db s;
     message_queue := message_queue s |}.

Definition set_db (v : gmap string WhatsAppMessage) (s : t) : t :=
  {| last_seen_messages := last_seen_messages s;
     last_message_previews := last_message_previews s;
     db := v;
     message_queue := message_queue s |}.

Definition set_message_queue (v : list WhatsAppMessage) (s : t) : t :=
  {| last_seen_messages := last_seen_messages s;
     last_message_previews := last_message_previews s;
     db := db s;
     message_queue := v |}.

(** [sub in s] *)
Definition contains (sub s : string) : bool :=
  match String.index 0 sub s with
  | Some _ => true
  | None => false
  end.

(** [WhatsAppDatabase.save_message]: INSERT OR REPLACE keyed by id. *)
Definition save_message (m : WhatsAppMessage) : M t unit :=
  emit (EvDbSave m) ;;
  modify (fun s => set_db (<[id m := m]> (db s)) s).

(** Body of the [for ... in enumerate(recent_messages, 1)] loop of
    [_read_current_chat_messages]: the messages it appends. *)
Definition read_message (chat_name : string) (e : MsgElem) : M t (list WhatsAppMessage) :=
  try_except
    (let* cls := call (me_class e) in
     let is_from_me := contains "message-out" cls in
     let message_text :=
       match me_text e with
       | Some txt => txt
       | None => "[Media or unsupported message]"
       end in
     let sender_name :=
       if negb is_from_me
       then match me_sender e with Some n => n | None => chat_name end
       else "Me" in
     let message_id := me_uuid e in
     let* seen := gets (fun s => last_seen_messages s !! chat_name) in
     if decide (seen = Some message_text) then ret []
     else
       let appended :=
         if negb is_from_me
         then [ {| id := message_id;
                   chat_name := chat_name;
                   sender_name := sender_name;
                   content := message_text;
                   timestamp := me_now e;
                   direction := INCOMING;
                   message_type := TEXT;
                   media_path := None;
                   is_read := false;
                   is_from_me := false |} ]
         else [] in
       modify (fun s =>
         set_last_seen_messages (<[chat_name := message_text]> (last_seen_messages s)) s) ;;
       ret appended)
    (fun _ => ret []).

Fixpoint read_messages (chat_name : string) (es : list MsgElem) : M t (list WhatsAppMessage) :=
  match es with
  | [] => ret []
  | e :: rest =>
      let* ms := read_message chat_name e in
      let* ms' := read_messages chat_name rest in
      ret (ms ++ ms')
  end.

Definition _read_current_chat_messages (chat_name : string)
    (panel : Result (list MsgElem)) : M t (list WhatsAppMessage) :=
  let limit := 10%nat in
  try_except
    (let* message_elements := call panel in
     let recent_messages := slice_last limit message_elements in
     read_messages chat_name recent_messages)
    (fun e =>
       emit (EvLogError ("    Error reading chat messages: " +:+ e)) ;;
       ret []).

Definition has_unread (chat : ChatElem) : bool :=
  ce_unread_badge chat
  || match ce_font_weight chat with
     | Some w => (600 <=? w)%Z
     | None => false
     end.

(** The text taken as the chat's preview. *)
Definition message_preview_of (chat : ChatElem) : string :=
  match ce_preview_ltr chat with
  | Some txt => PyStr.strip txt
  | None =>
      match ce_span_texts chat with
      | Some spans =>
          match filter (fun txt => 5 < String.length txt)%nat (map PyStr.strip spans) with
          | txt :: _ => txt
          | [] => EmptyString
          end
      | None => EmptyString
      end
  end.

(** Body of the [for idx, chat in enumerate(all_chats[:20], 1)] loop of
    [_check_for_new_messages]: the messages it adds to [new_messages]. *)
Definition check_chat (chat : ChatElem) : M t (list WhatsAppMessage) :=
  try_except
    (if negb (has_unread chat) then ret []
     else
       match ce_title chat with
       | None => ret []
       | Some chat_name =>
           if (String.length chat_name =? 0)%nat
              || (String.length (PyStr.strip chat_name) =? 0)%nat
           then ret []
           else
             let message_preview := message_preview_of chat in
             if (String.length message_preview =? 0)%nat then ret []
             else
               let* stored := gets (fun s => last_message_previews s !! chat_name) in
               match stored with
               | Some last_preview =>
                   if String.eqb last_preview message_preview then ret []
                   else
                     emit (EvPreviewWrite chat_name message_preview) ;;
                     modify (fun s =>
                       set_last_message_previews
                         (<[chat_name := message_preview]> (last_message_previews s)) s) ;;
                     emit (EvClick chat_name) ;;
                     call (ce_click chat) ;;
                     _read_current_chat_messages chat_name (ce_messages chat)
               | None =>
                   emit (EvPreviewWrite chat_name message_preview) ;;
                   modify (fun s =>
                     set_last_message_previews
                       (<[chat_name := message_preview]> (last_message_previews s)) s) ;;
                   ret []
               end
       end)
    (fun _ => ret []).

Fixpoint check_chats (chats : list ChatElem) : M t (list WhatsAppMessage) :=
  match chats with
  | [] => ret []
  | chat :: rest =>
      let* ms := check_chat chat in
      let* ms' := check_chats rest in
      ret (ms ++ ms')
  end.

(** [page] is the chat list the driver finds; [Raise] when the driver call
    fails. *)
Definition _check_for_new_messages (page : Result (list ChatElem)) : M t (list WhatsAppMessage) :=
  try_except
    (let* all_chats := call page in
     if (0 <? length all_chats)%nat
     then check_chats (take 20 all_chats)
     else
       emit (EvLogError "Could not find any chat elements on page") ;;
       ret [])
    (fun e =>
       emit (EvLogError ("Error checking for new messages: " +:+ e)) ;;
       ret []).

Definition make_notification (message : WhatsAppMessage) : WhatsAppNotification :=
  {| n_chat_name := chat_name message;
     n_sender_name := sender_name message;
     message_preview := PyStr.slice_to 100 (content message);
     n_timestamp := timestamp message;
     unread_count := 1 |}.

(** Each registered callback receives the notification; an exception of a
    callback is logged and swallowed. *)
Definition _trigger_notification (message : WhatsAppMessage) : M t unit :=
  emit (EvNotification (make_notification message)).

(** The [for message in new_messages] loop of [_monitor_messages]. *)
Fixpoint surface (new_messages : list WhatsAppMessage) : M t unit :=
  match new_messages with
  | [] => ret tt
  | message :: rest =>
      save_message message ;;
      emit (EvQueuePut message) ;;
      modify (fun s => set_message_queue (message_queue s ++ [message]) s) ;;
      _trigger_notification message ;;
      surface rest
  end.

(** One iteration of the [while] loop of [_monitor_messages] on a
    connected service; the messages it surfaced are returned for
    reference. *)
Definition monitor_cycle (page : Result (list ChatElem)) : M t (list WhatsAppMessage) :=
  try_except
    (let* new_messages := _check_for_new_messages page in
     surface new_messages ;;
     ret new_messages)
    (fun e =>
       emit (EvLogError ("Error in message monitor: " +:+ e)) ;;
       ret []).

(** *** Dispatcher *)

Inductive ContactLookup :=
| ContactFound
| ContactTimeout                 (* TimeoutException *)
| ContactError (exn : string).   (* any other exception *)

(** [contact_elem.click()], which sits in the same inner [try] as the
    lookup. *)
Inductive ContactClick :=
| Clicked
| ClickTimeout                   (* TimeoutException *)
| ClickError (exn : string).     (* any other exception *)

(** What the browser does during one attempt of [send_message]. *)
Record SendAttempt := {
  sa_search_box : Result unit;   (* locate, click, clear, type the name *)
  sa_contact : ContactLookup;    (* locate the contact among the results *)
  sa_contact_click : ContactClick;
  sa_message_box : Result unit;  (* locate and click the input box *)
  sa_type_and_enter : Result unit; (* type the lines and press ENTER *)
  sa_sent_uuid : string;         (* uuid.uuid4() *)
  sa_now : Z;                    (* datetime.now() *)
  sa_refresh : Result unit       (* driver.refresh() of the recovery *)
}.

Definition sent_message (contact_name message : string) (a : SendAttempt) : WhatsAppMessage :=
  {| id := sa_sent_uuid a;
     chat_name := contact_name;
     sender_name := "Me";
     content := message;
     timestamp := sa_now a;
     direction := OUTGOING;
     message_type := TEXT;
     media_path := None;
     is_read := true;
     is_from_me := true |}.

(** The [try] block of one attempt: [Ok b] when it executes [return b],
    [Raise] when it raises. *)
Definition attempt_body (contact_name message : string) (a : SendAttempt) : M t bool :=
  emit (EvBrowser "search") ;;
  call (sa_search_box a) ;;
  match sa_contact a with
  | ContactTimeout =>
      emit (EvLogError ("Contact '" +:+ contact_name +:+ "' not found")) ;;
      ret false
  | ContactError e => raise e
  | ContactFound =>
      match sa_contact_click a with
      | ClickTimeout =>
          emit (EvLogError ("Contact '" +:+ contact_name +:+ "' not found")) ;;
          ret false
      | ClickError e => raise e
      | Clicked =>
          emit (EvBrowser "message box") ;;
          call (sa_message_box a) ;;
          emit (EvBrowser "type and send") ;;
          call (sa_type_and_enter a) ;;
          save_message (sent_message contact_name message a) ;;
          ret true
      end
  end.

(** The [except] clause of one attempt: log, and unless this was the last
    attempt try to recover by refreshing the page. *)
Definition recover (retries attempt : nat) (a : SendAttempt) (e : string) : M t unit :=
  emit (EvLogError ("Attempt " +:+ pretty (attempt + 1)%nat +:+ " failed: " +:+ e)) ;;
  if (attempt <? retries - 1)%nat
  then emit EvRefresh ;; try_except (call (sa_refresh a)) (fun _ => ret tt)
  else ret tt.

(** One iteration of the loop: [Some b] when it executes [return b],
    [None] when the loop goes on. *)
Definition attempt_once (contact_name message : string) (retries attempt : nat)
    (a : SendAttempt) : M t (option bool) :=
  try_except
    (let* b := attempt_body contact_name message a in ret (Some b))
    (fun e => recover retries attempt a e ;; ret None).

(** The [for attempt in range(retries)] loop, [attempt] counting up and
    [attempts] holding what the browser does in the attempts still to
    come (one entry per remaining attempt). *)
Fixpoint send_loop (contact_name message : string) (retries attempt : nat)
    (attempts : list SendAttempt) : M t bool :=
  match attempts with
  | [] =>
      emit (EvLogError ("Failed to send message after " +:+ pretty retries +:+ " attempts")) ;;
      ret false
  | a :: rest =>
      let* r := attempt_once contact_name message retries attempt a in
      match r with
      | Some b => ret b
      | None => send_loop contact_name message retries (S attempt) rest
      end
  end.

(** [send_message(contact_name, message, retries)]; [browser i] is what
    the browser does in attempt [i]. *)
Definition send_message (browser : nat -> SendAttempt) (contact_name message : string)
    (retries : nat) : M t bool :=
  send_loop contact_name message retries 0 (map browser (seq 0 retries)).

End WhatsAppService.

(** ** whatsapp_webjs_service.py: the HTTP bridge connector *)

Module WhatsAppWebJSService.

Local Open Scope py_scope.

(** One element of the [messages] array of [GET /messages/new]. *)
Record MsgData := {
  md_id : string;
  md_chatName : string;
  md_senderName : string;
  md_body : string;
  md_timestamp : option Z;   (* None: datetime.fromtimestamp raised *)
  md_isFromMe : bool;
  md_from : string
}.

(** The service keeps no message store: its only attribute written by the
    modelled methods is [_last_chat_from]. *)
Record t := {
  _last_chat_from : option string
}.

Definition init : t := {| _last_chat_from := None |}.

Definition make_notification (message : WhatsAppMessage) : WhatsAppNotification :=
  {| n_chat_name := chat_name message;
     n_sender_name := sender_name message;
     message_preview := PyStr.slice_to 100 (content message);
     n_timestamp := timestamp message;
     unread_count := 1 |}.

(** [from_id] is the attribute the monitor attaches to the message. *)
Definition _trigger_notification (message : WhatsAppMessage) (from_id : option string) : M t unit :=
  modify (fun _ => {| _last_chat_from := from_id |}) ;;
  emit (EvNotification (make_notification message)).

Definition to_message (now : Z) (msg_data : MsgData) : WhatsAppMessage :=
  {| id := md_id msg_data;
     chat_name := md_chatName msg_data;
     sender_name := md_senderName msg_data;
     content := md_body msg_data;
     timestamp := match md_timestamp msg_data with Some ts => ts | None => now end;
     direction := INCOMING;
     message_type := TEXT;
     media_path := None;
     is_read := true;
     is_from_me := md_isFromMe msg_data |}.

(** The [for msg_data in messages] loop of [_monitor_messages]; the
    messages handed to [_trigger_notification] are returned. *)
Fixpoint surface (now : Z) (messages : list MsgData) : M t (list WhatsAppMessage) :=
  match messages with
  | [] => ret []
  | msg_data :: rest =>
      let message := to_message now msg_data in
      _trigger_notification message (Some (md_from msg_data)) ;;
      let* ms := surface now rest in
      ret (message :: ms)
  end.

(** One iteration of the [while] loop of [_monitor_messages]; [response]
    is the bridge's answer: status code and decoded [messages] array. *)
Definition monitor_cycle (now : Z) (response : Result (nat * list MsgData)) : M t (list WhatsAppMessage) :=
  try_except
    (emit (EvHttpGet "/messages/new") ;;
     let* r := call response in
     if (fst r =? 200)%nat then surface now (snd r) else ret [])
    (fun e =>
       emit (EvLogError ("Error in message monitor: " +:+ e)) ;;
       ret []).

(** [search] answers [POST /contacts/search] with a status code and the
    [(id, name)] pairs of [results]; [send] answers [POST /messages/send]
    with a status code and the [error] text of its body. *)
Definition send_message (search : Result (nat * list (string * string)))
    (send : Result (nat * string)) (contact_name message : string) : M t bool :=
  try_except
    (emit (EvHttpPost "/contacts/search" [("query", contact_name)]) ;;
     let* search_response := call search in
     if negb (fst search_response =? 200)%nat then
       emit (EvLogError ("Failed to search for contact: " +:+ contact_name)) ;;
       ret false
     else
       match snd search_response with
       | [] =>
           emit (EvLogError ("Contact not found: " +:+ contact_name)) ;;
           ret false
       | (chat_id, chat_name) :: _ =>
           emit (EvHttpPost "/messages/send" [("chatId", chat_id); ("message", message)]) ;;
           let* send_response := call send in
           if (fst send_response =? 200)%nat then ret true
           else
             emit (EvLogError ("Failed to send message: " +:+ snd send_response)) ;;
             ret false
       end)
    (fun e =>
       emit (EvLogError ("Error sending message: " +:+ e)) ;;
       ret false).

End WhatsAppWebJSService.

(** ** main.py: decision engine and pending-reply slot *)

(** The pictograms of the user-facing texts, byte for byte as the source
    file stores them. *)
Definition icon_phone : string := "ðŸ“±".
Definition icon_cross : string := "âŒ".
Definition icon_tick : string := "âœ“".
Definition icon_ballot : string := "âœ—".
Definition icon_ok : string := "âœ…".

Definition dquote : string := String (ascii_of_nat 34) EmptyString.
Definition squote_char : ascii := ascii_of_nat 39.
Definition dquote_char : ascii := ascii_of_nat 34.

(** What the application obtains from its collaborators. *)
Record Env := {
  prompt_txt : option string;                 (* prompt.txt, None: no such file *)
  time_context : string;                      (* f"Current time: ..." of datetime.now() *)
  clock : nat -> Q;                           (* successive time.time() readings *)
  chat_completion : list (string * string) -> Result string;  (* openai_client *)
  send_message : string -> string -> bool;    (* whatsapp.send_message: WhatsAppWebJSService
                                                 catches every exception and returns a bool *)
  speak : string -> Result unit;              (* tts.speak *)
  re_search_tell : string -> option (string * string);
                                              (* re.search(tell_pattern, s): groups 1 and 2 *)
  general_processing : string -> M FridayApp unit
                                              (* rest of _process_user_message: built-in
                                                 intents, quick reply, general conversation *)
}.

Local Open Scope py_scope.

Definition tts_speak (env : Env) (txt : string) : M FridayApp unit :=
  emit (EvSpeak txt) ;; call (speak env txt).

Definition whatsapp_send (env : Env) (contact_name message : string) : M FridayApp bool :=
  emit (EvSend contact_name message) ;; ret (send_message env contact_name message).

Definition _on_whatsapp_notification (notification : WhatsAppNotification) : M FridayApp unit :=
  _add_to_conversation_history (n_chat_name notification)
    (n_sender_name notification +:+ ": " +:+ message_preview notification) false ;;
  emit (EvSpawnDecision notification).

(** The [user_message] of the decision request, in three parts: what
    precedes the "Message:" line, that line, and the instructions that
    follow it. *)
Definition decision_header (time_ctx conversation_history user_ctx : string)
    (notification : WhatsAppNotification) : string :=
  time_ctx +:+ PyStr.nl +:+ PyStr.nl
  +:+ conversation_history +:+ PyStr.nl +:+ PyStr.nl
  +:+ user_ctx +:+ PyStr.nl +:+ PyStr.nl
  +:+ "--- NEW MESSAGE ---" +:+ PyStr.nl
  +:+ "From: " +:+ n_sender_name notification +:+ PyStr.nl
  +:+ "Chat: " +:+ n_chat_name notification +:+ PyStr.nl.

Definition decision_instructions : string :=
  PyStr.nl +:+ PyStr.nl
  +:+ "Based on your stored meeting memory, conversation history, and what the user told Jarvis above, decide whether to auto-reply or notify the user. "
  +:+ "IMPORTANT: Check your meeting memory for conflicts! If user has a meeting at the requested time, decline politely. "
  +:+ "Use the user's recent statements to Jarvis as valuable context (e.g., if user said they're busy, decline invitations). "
  +:+ "Remember commitments and important details from previous messages.".

Definition decision_user_message (time_ctx conversation_history user_ctx : string)
    (notification : WhatsAppNotification) : string :=
  decision_header time_ctx conversation_history user_ctx notification
  +:+ "Message: " +:+ message_preview notification
  +:+ decision_instructions.

Definition code_fence : string := "```".

(** From the completion's text to the list [lines]. *)
Definition parse_lines (response : string) : list string :=
  let cleaned0 := PyStr.strip response in
  let cleaned1 :=
    if PyStr.startswith code_fence cleaned0
    then (if PyStr.contains_char PyStr.newline cleaned0
          then PyStr.after_first PyStr.newline cleaned0 else cleaned0)
    else cleaned0 in
  let cleaned2 :=
    if PyStr.endswith code_fence cleaned1
    then (if PyStr.contains_char PyStr.newline cleaned1
          then PyStr.before_last PyStr.newline cleaned1 else cleaned1)
    else cleaned1 in
  map PyStr.strip
    (filter (fun line => negb (String.eqb (PyStr.strip line) EmptyString))
       (PyStr.split PyStr.newline (PyStr.strip cleaned2))).

(** [lines[i]] where the index is known to be in range. *)
Definition line_at (i : nat) (lines : list string) : string := nth i lines EmptyString.

Definition is_yes (line : string) : bool :=
  PyStr.upper_is "YES" (PyStr.strip line).

Definition pending_of (notification : WhatsAppNotification) : PendingMessage :=
  {| contact := n_chat_name notification;
     sender := n_sender_name notification;
     original_message := message_preview notification |}.

Definition _process_whatsapp_with_ai (env : Env) (notification : WhatsAppNotification)
    : M FridayApp unit :=
  try_except
    (match prompt_txt env with
     | None => emit (EvLogError "prompt.txt not found!")
     | Some system_prompt =>
         let* conversation_history :=
           gets (_get_conversation_history_text (n_chat_name notification)) in
         let* user_ctx := gets (_get_user_context_text (clock env)) in
         let user_message :=
           decision_user_message (time_context env) conversation_history user_ctx notification in
         let messages := [("system", system_prompt); ("user", user_message)] in
         emit (EvCompletion messages) ;;
         let* response := call (chat_completion env messages) in
         let lines := parse_lines response in
         if (length lines <? 3)%nat then
           emit (EvLogError ("Invalid GPT-4o response format. Expected at least 3 lines, got "
                             +:+ pretty (length lines)))
         else
           let speak_aloud := is_yes (line_at 0 lines) in
           let should_send := is_yes (line_at 1 lines) in
           if should_send then
             if (length lines <? 5)%nat then
               emit (EvLogError ("Invalid GPT-4o response for auto-reply. Expected 5 lines, got "
                                 +:+ pretty (length lines)))
             else
               let send_to := PyStr.strip (line_at 2 lines) in
               let message_text := PyStr.strip (line_at 3 lines) in
               let summary := PyStr.strip (line_at 4 lines) in
               let* success := whatsapp_send env send_to message_text in
               if success then
                 _add_to_conversation_history send_to
                   ("You (via Jarvis): " +:+ message_text) true ;;
                 emit (EvGui (icon_phone +:+ " Auto-replied to " +:+ send_to
                              +:+ PyStr.nl +:+ PyStr.nl
                              +:+ "Message: " +:+ dquote +:+ message_text +:+ dquote
                              +:+ PyStr.nl +:+ PyStr.nl
                              +:+ "Context: " +:+ summary)) ;;
                 (if speak_aloud then tts_speak env summary else ret tt)
               else
                 emit (EvLogError (icon_ballot +:+ " Failed to send auto-reply"))
           else
             let summary :=
               if (3 <=? length lines)%nat then PyStr.strip (line_at 2 lines)
               else message_preview notification in
             modify (set_waiting_for_whatsapp_reply true) ;;
             modify (set_pending_whatsapp_message (Some (pending_of notification))) ;;
             emit (EvGui (icon_phone +:+ " New WhatsApp message from "
                          +:+ n_sender_name notification
                          +:+ PyStr.nl +:+ PyStr.nl +:+ summary)) ;;
             modify (set_last_whatsapp_contact (Some (n_chat_name notification))) ;;
             (if speak_aloud then tts_speak env summary else ret tt)
     end)
    (fun e =>
       emit (EvLogError ("Error processing WhatsApp with AI: " +:+ e)) ;;
       emit (EvGui (icon_phone +:+ " Received message from " +:+ n_sender_name notification
                    +:+ PyStr.nl
                    +:+ icon_cross +:+ " Error processing with AI: " +:+ e))).

Definition rewrite_prompt (conversation_history user_text : string) (p : PendingMessage) : string :=
  "You are Jarvis, a personal AI assistant helping to rewrite the user's casual response into a proper WhatsApp message."
  +:+ PyStr.nl +:+ PyStr.nl
  +:+ conversation_history +:+ PyStr.nl +:+ PyStr.nl
  +:+ "--- LATEST MESSAGE FROM " +:+ sender p +:+ " ---" +:+ PyStr.nl
  +:+ original_message p +:+ PyStr.nl +:+ PyStr.nl
  +:+ "--- USER'S CASUAL RESPONSE ---" +:+ PyStr.nl
  +:+ dquote +:+ user_text +:+ dquote +:+ PyStr.nl +:+ PyStr.nl
  +:+ "TASK: Rewrite the user's casual response into a natural, friendly WhatsApp message. Keep it SHORT and conversational."
  +:+ PyStr.nl
  +:+ "Output ONLY the rewritten message, nothing else. No explanations, no quotes, just the message text.".

(** The name [smart_detected] read on the success branch is bound nowhere in
    the program: evaluating it raises this [NameError], so the GUI update
    and the spoken confirmation that follow it in the source are never
    reached and control passes to the [except] clause. *)
Definition smart_detected_NameError : string := "name 'smart_detected' is not defined".

Definition _rewrite_and_send_whatsapp_reply (env : Env) (user_text : string) : M FridayApp unit :=
  try_except
    (let* pending := gets pending_whatsapp_message in
     match pending with
     | None => emit (EvLogError "No WhatsApp context available for rewriting")
     | Some p =>
         let* conversation_history := gets (_get_conversation_history_text (contact p)) in
         let messages := [("user", rewrite_prompt conversation_history user_text p)] in
         emit (EvCompletion messages) ;;
         let* answer := call (chat_completion env messages) in
         let rewritten_message :=
           PyStr.strip_char squote_char (PyStr.strip_char dquote_char (PyStr.strip answer)) in
         let* success := whatsapp_send env (contact p) rewritten_message in
         (if success then
            _add_to_conversation_history (contact p)
              ("You (via Jarvis): " +:+ rewritten_message) true ;;
            raise smart_detected_NameError
          else
            emit (EvLogError (icon_ballot +:+ " Failed to send rewritten message")) ;;
            emit (EvGui (icon_cross +:+ " Failed to send message to " +:+ sender p))) ;;
         modify (set_waiting_for_whatsapp_reply false) ;;
         modify (set_pending_whatsapp_message None)
     end)
    (fun e =>
       emit (EvLogError ("Error rewriting WhatsApp reply: " +:+ e)) ;;
       emit (EvGui (icon_cross +:+ " Error rewriting message: " +:+ e)) ;;
       modify (set_waiting_for_whatsapp_reply false) ;;
       modify (set_pending_whatsapp_message None)).

Definition _send_whatsapp_message (env : Env) (contact_name message : string) : M FridayApp unit :=
  try_except
    (let* success := whatsapp_send env contact_name message in
     if success
     then emit (EvGui (icon_ok +:+ " WhatsApp message sent to " +:+ contact_name))
     else emit (EvGui (icon_cross +:+ " Failed to send WhatsApp message to " +:+ contact_name)))
    (fun e =>
       emit (EvLogError ("Error sending WhatsApp message: " +:+ e)) ;;
       emit (EvGui (icon_cross +:+ " Error sending message: " +:+ e))).

(** [data] carries the keys [contact] and [message]. *)
Definition _handle_whatsapp_send (contact_name message : string) : M FridayApp unit :=
  if (String.length contact_name =? 0)%nat || (String.length message =? 0)%nat
  then emit (EvLogError "WhatsApp send: missing contact or message")
  else emit (EvSpawnSend contact_name message).

Definition excluded_tell_words : list string :=
  ["me"; "us"; "everyone"; "somebody"; "someone"; "about"; "what"; "how"; "why"; "when"; "where"].

(** [s.find(sub)] *)
Definition find (sub s : string) : Z :=
  match String.index 0 sub s with
  | Some i => Z.of_nat i
  | None => (-1)%Z
  end.

(** [s[i:]] for any integer [i]. *)
Definition slice_from_Z (i : Z) (s : string) : string :=
  if (i <? 0)%Z
  then PyStr.slice_from (String.length s - Z.to_nat (- i)) s
  else PyStr.slice_from (Z.to_nat i) s.

(** The "Tell [name] ..." block of [_process_user_message]: [true] when it
    handled the utterance and the method returns. *)
Definition tell_directive (env : Env) (txt : string) : M FridayApp bool :=
  let tell_match := re_search_tell env (PyStr.lower txt) in
  let* enabled := gets whatsapp_enabled in
  match tell_match with
  | Some (group1, group2) =>
      if enabled then
        let potential_contact := PyStr.strip group1 in
        if negb (existsb (String.eqb potential_contact) excluded_tell_words) then
          let message_text :=
            PyStr.strip (slice_from_Z (find group2 (PyStr.lower txt)) txt) in
          modify (set_pending_whatsapp_message
                    (Some {| contact := potential_contact;
                             sender := potential_contact;
                             original_message := "(Direct message via 'Tell' command)" |})) ;;
          _rewrite_and_send_whatsapp_reply env message_text ;;
          modify (set_is_processing false) ;;
          emit (EvStatus "Idle") ;;
          ret true
        else ret false
      else ret false
  | None => ret false
  end.

(** The pending-reply check of [_process_user_message]; what follows it in
    the source (built-in intents, quick reply, general conversation) is
    [general_processing env]. *)
Definition pending_reply_check (env : Env) (txt : string) : M FridayApp unit :=
  let* waiting := gets waiting_for_whatsapp_reply in
  let* pending := gets pending_whatsapp_message in
  if waiting && bool_decide (is_Some pending) then
    _rewrite_and_send_whatsapp_reply env txt ;;
    modify (set_is_processing false) ;;
    emit (EvStatus "Idle")
  else general_processing env txt.

(** The two blocks in the order of the source: the pending-reply check is
    reached only when the "Tell" block did not return. *)
Definition route_utterance (env : Env) (txt : string) : M FridayApp unit :=
  let* routed := tell_directive env txt in
  if (routed : bool) then ret tt else pending_reply_check env txt.

Definition _process_user_message (env : Env) (txt : string) : M FridayApp unit :=
  try_finally
    (try_except
       (emit (EvStatus "Processing") ;;
        modify (set_is_processing true) ;;
        route_utterance env txt)
       (fun e =>
          emit (EvLogError ("Error processing message: " +:+ e)) ;;
          emit (EvError ("Processing error: " +:+ e)) ;;
          emit (EvStatus "Idle")))
    (modify (set_is_processing false)).

(** ** Executions the statements range over *)

(** Append one element and keep the last [n]: the shape shared by the
    conversation window and the utterance pool. *)
Definition push {A : Type} (n : nat) (l : list A) (x : A) : list A :=
  let l1 := l ++ [x] in
  if (n <? length l1)%nat then slice_last n l1 else l1.

(** A sequence of [_add_to_conversation_history] calls, each given by its
    arguments [(contact_name, message, is_from_user)]. *)
Definition run_history (calls : list (string * string * bool)) (a : FridayApp) : FridayApp :=
  foldl (fun a call =>
           state_of (_add_to_conversation_history call.1.1 call.1.2 call.2 a))
        a calls.

(** The Conversation Context Window of a contact. *)
Definition window (a : FridayApp) (contact_name : string) : list string :=
  default [] (whatsapp_conversations a !! contact_name).

(** The lines appended for one contact, in call order. *)
Definition lines_for (contact_name : string) (calls : list (string * string * bool)) : list string :=
  map (fun call => history_line call.1.2 call.2)
      (filter (fun call => call.1.1 = contact_name) calls).

(** A sequence of [_add_user_context] calls, each given by the clock
    reading at the call and the text. *)
Definition run_user_context (calls : list (Q * string)) (a : FridayApp) : FridayApp :=
  foldl (fun a call => state_of (_add_user_context call.1 call.2 a)) a calls.

Definition entry_of (call : Q * string) : UserContext :=
  {| text := call.2; uc_timestamp := call.1 |}.

(** The read side of the pool in the words of the specification, written
    without the program's formatter: the entries strictly newer than five
    minutes before [now], one bullet line each under a heading, or the
    sentinel when there is none. *)
Definition strictly_newerb (now : Q) (ctx : UserContext) : bool :=
  Qltb (now - 300) (uc_timestamp ctx).

Fixpoint bullet_lines (texts : list string) : string :=
  match texts with
  | [] => EmptyString
  | [txt] => "- " +:+ txt
  | txt :: rest => "- " +:+ txt +:+ PyStr.nl +:+ bullet_lines rest
  end.

Definition getRecentUserContext_spec (now : Q) (pool : list UserContext) : string :=
  match List.filter (strictly_newerb now) pool with
  | [] => "No recent user context."
  | recent => "WHAT USER TOLD FRIDAY RECENTLY:" +:+ PyStr.nl +:+ bullet_lines (map text recent)
  end.

(** The messages a poll cycle hands on. *)
Definition surfaced {S : Type} (r : Result (list WhatsAppMessage) * S * list Event)
    : list WhatsAppMessage :=
  match result_of r with
  | Ok ms => ms
  | Raise _ => []
  end.

Definition incoming_not_self (m : WhatsAppMessage) : Prop :=
  direction m = INCOMING /\ is_from_me m = false.

(** The conversation an effect on a conversation touches: opening it,
    storing, queueing or announcing one of its messages.  Writing the
    fingerprint is not one of them. *)
Definition event_chat (e : Event) : option string :=
  match e with
  | EvClick c => Some c
  | EvDbSave m => Some (chat_name m)
  | EvQueuePut m => Some (chat_name m)
  | EvNotification n => Some (n_chat_name n)
  | _ => None
  end.

Definition silent_for (c : string) (tr : list Event) : Prop :=
  Forall (fun e => event_chat e <> Some c) tr.

(** Every entry of the chat list titled [c] shows the preview [p]. *)
Definition shows (c p : string) (chats : list WhatsAppService.ChatElem) : Prop :=
  Forall (fun chat => WhatsAppService.ce_title chat = Some c ->
                      WhatsAppService.message_preview_of chat = p) chats.

Definition is_db_save (e : Event) : bool :=
  match e with EvDbSave _ => true | _ => false end.

Definition is_preview_write (e : Event) : bool :=
  match e with EvPreviewWrite _ _ => true | _ => false end.

Definition saves_for (c : string) (tr : list Event) : bool :=
  existsb (fun e => match e with
                    | EvDbSave m => String.eqb (chat_name m) c
                    | _ => false
                    end) tr.

(** Store-then-fingerprint, as the specification words it: once the
    fingerprint of a conversation is written, no message of that
    conversation is still to be stored in the cycle. *)
Fixpoint store_then_fingerprint (tr : list Event) : bool :=
  match tr with
  | [] => true
  | EvPreviewWrite c _ :: rest => negb (saves_for c rest) && store_then_fingerprint rest
  | _ :: rest => store_then_fingerprint rest
  end.

(** What the scan does with a changed conversation once its fingerprint is
    written: [chat.click()], then the read of the opened panel. *)
Definition open_and_read (chat : WhatsAppService.ChatElem) (c : string)
    : M WhatsAppService.t (list WhatsAppMessage) :=
  bind (call (WhatsAppService.ce_click chat))
       (fun _ => WhatsAppService._read_current_chat_messages c
                   (WhatsAppService.ce_messages chat)).

(** The service once the fingerprint of [c] is [p]. *)
Definition with_fingerprint (c p : string) (s : WhatsAppService.t) : WhatsAppService.t :=
  WhatsAppService.set_last_message_previews
    (<[c := p]> (WhatsAppService.last_message_previews s)) s.

(** The entry [chat] shows a change of the conversation [c] against the
    service [s]: it carries the unread mark, a usable title and preview,
    and the stored fingerprint [q] of [c] differs from the preview. *)
Definition preview_changed (chat : WhatsAppService.ChatElem) (c q : string)
    (s : WhatsAppService.t) : Prop :=
  WhatsAppService.has_unread chat = true
  /\ WhatsAppService.ce_title chat = Some c
  /\ PyStr.strip c <> EmptyString
  /\ WhatsAppService.message_preview_of chat <> EmptyString
  /\ WhatsAppService.last_message_previews s !! c = Some q
  /\ q <> WhatsAppService.message_preview_of chat.

(** Reading messages leaves fingerprints, store and queue alone. *)
Definition read_frame (s s' : WhatsAppService.t) : Prop :=
  WhatsAppService.last_message_previews s' = WhatsAppService.last_message_previews s
  /\ WhatsAppService.db s' = WhatsAppService.db s
  /\ WhatsAppService.message_queue s' = WhatsAppService.message_queue s.

Definition read_ok (c : string) (ms : list WhatsAppMessage) : Prop :=
  Forall (fun m => chat_name m = c /\ incoming_not_self m) ms.

Definition only_log_errors (tr : list Event) : Prop :=
  Forall (fun e => exists msg, e = EvLogError msg) tr.

(** What the monitor loop does with the messages of one scan. *)
Definition deliver_events (ms : list WhatsAppMessage) : list Event :=
  flat_map (fun m => [EvDbSave m; EvQueuePut m;
                      EvNotification (WhatsAppService.make_notification m)]) ms.

Definition from_chat (c : string) (m : WhatsAppMessage) : Prop := chat_name m = c.

Definition no_chats_warning : list Event :=
  [EvLogError "Could not find any chat elements on page"].

Definition is_completion (e : Event) : bool :=
  match e with EvCompletion _ => true | _ => false end.

Definition is_send (e : Event) : bool :=
  match e with EvSend _ _ => true | _ => false end.

(** What reaches the user: a line in the conversation view, an error
    event of the window, or speech. *)
Definition is_user_visible (e : Event) : bool :=
  match e with EvGui _ | EvError _ | EvSpeak _ => true | _ => false end.

Fixpoint count_events (f : Event -> bool) (tr : list Event) : nat :=
  match tr with
  | [] => 0
  | e :: rest => (if f e then 1 else 0) + count_events f rest
  end.

(** The conversations the dispatcher was asked to send to. *)
Fixpoint send_targets (tr : list Event) : list string :=
  match tr with
  | [] => []
  | EvSend c _ :: rest => c :: send_targets rest
  | _ :: rest => send_targets rest
  end.

(** A line of a decision response that reads as YES or as NO. *)
Definition is_no (line : string) : bool :=
  PyStr.upper_is "NO" (PyStr.strip line).

Definition parses_yes_no (line : string) : bool := is_yes line || is_no line.

(** The hard failure of a decision: no partial action and no Pending Reply
    Slot (the application state is as it was), no send, and the completion
    service asked once and not again. *)
Definition hard_failure (a : FridayApp) (r : Result unit * FridayApp * list Event) : Prop :=
  state_of r = a
  /\ count_events is_send (trace_of r) = 0%nat
  /\ count_events is_completion (trace_of r) = 1%nat.

(** The message is unread.  A message is an immutable record and the
    decision engine holds no reference to it, so the flag after a decision
    is the flag the connector gave it. *)
Definition unread (m : WhatsAppMessage) : Prop := is_read m = false.


(** ** Concrete inputs *)

(** Fifty-five appends to one contact, both directions. *)
Definition fifty_five_calls : list (string * string * bool) :=
  map (fun i => ("Chen", "message " +:+ pretty i, Nat.even i)) (seq 0 55).

(** A pool holding two utterances made more than five minutes before the
    instant 1000. *)
Definition stale_pool_app : FridayApp :=
  run_user_context [(100%Q, "I am busy at 3pm"); ((1399 # 2)%Q, "back at five")] init_app.

(** A chat-list entry of the conversation Chen with an unread badge, showing
    [preview]; opening it shows one incoming message. *)
Definition elem_hey : WhatsAppService.MsgElem := {|
  WhatsAppService.me_class := Ok "message-in focusable-list-item";
  WhatsAppService.me_text := Some "Hey there";
  WhatsAppService.me_sender := None;
  WhatsAppService.me_uuid := "0b0e7a9c-5d1f-4e57-9a43-2f6c1d0e8b11";
  WhatsAppService.me_now := 1762164000
|}.

Definition chat_chen (preview : string) : WhatsAppService.ChatElem := {|
  WhatsAppService.ce_unread_badge := true;
  WhatsAppService.ce_font_weight := None;
  WhatsAppService.ce_title := Some "Chen";
  WhatsAppService.ce_preview_ltr := Some preview;
  WhatsAppService.ce_span_texts := None;
  WhatsAppService.ce_click := Ok tt;
  WhatsAppService.ce_messages := Ok [elem_hey]
|}.

(** The service once a first poll has recorded Chen's preview "see you". *)
Definition service_after_baseline : WhatsAppService.t :=
  state_of (WhatsAppService.monitor_cycle (Ok [chat_chen "see you"]) WhatsAppService.init).

(** Collaborators that answer every completion request with [response] and
    every send with [sent]. *)
Definition env_with (response : string) (sent : bool) : Env := {|
  prompt_txt := Some "You are Jarvis.";
  time_context := "Current time: 03:00 PM, Tuesday, November 03, 2026";
  clock := fun _ => 1000%Q;
  chat_completion := fun _ => Ok response;
  send_message := fun _ _ => sent;
  speak := fun _ => Ok tt;
  re_search_tell := fun _ => None;
  general_processing := fun _ => ret tt
|}.

Definition lines3 (l1 l2 l3 : string) : string :=
  l1 +:+ PyStr.nl +:+ l2 +:+ PyStr.nl +:+ l3.

Definition lines5 (l1 l2 l3 l4 l5 : string) : string :=
  l1 +:+ PyStr.nl +:+ l2 +:+ PyStr.nl +:+ l3 +:+ PyStr.nl +:+ l4 +:+ PyStr.nl +:+ l5.

Definition notification_chen : WhatsAppNotification := {|
  n_chat_name := "Chen";
  n_sender_name := "Chen";
  message_preview := "Can we meet at 3pm?";
  n_timestamp := 1762164000;
  unread_count := 1
|}.

(** The application once the decision engine has answered
    [NO / NO / summary] to Chen's message: the slot is awaiting. *)
Definition app_awaiting_chen : FridayApp :=
  state_of (_process_whatsapp_with_ai
              (env_with (lines3 "NO" "NO" "Chen wants to meet at 3pm") true)
              notification_chen init_app).

(** A message of 120 characters as the bridge reports it. *)
Definition long_message : WhatsAppMessage := {|
  id := "3EB0C767D26A1D8F4F2E";
  chat_name := "Chen";
  sender_name := "Chen";
  content := PyStr.join EmptyString (replicate 12 "0123456789");
  timestamp := 1762164000;
  direction := INCOMING;
  message_type := TEXT;
  media_path := None;
  is_read := true;
  is_from_me := false
|}.

(** A message of the user's own, as [GET /messages/new] may report it. *)
Definition own_message_data : WhatsAppWebJSService.MsgData := {|
  WhatsAppWebJSService.md_id := "true_4915112345678@c.us_3EB0C767D26A1D8F4F2E";
  WhatsAppWebJSService.md_chatName := "Chen";
  WhatsAppWebJSService.md_senderName := "Me";
  WhatsAppWebJSService.md_body := "On my way";
  WhatsAppWebJSService.md_timestamp := Some 1762164000%Z;
  WhatsAppWebJSService.md_isFromMe := true;
  WhatsAppWebJSService.md_from := "4915112345678@c.us"
|}.

(** A message of Chen as [GET /messages/new] reports it. *)
Definition chen_message_data : WhatsAppWebJSService.MsgData := {|
  WhatsAppWebJSService.md_id := "false_4915112345678@c.us_3EB0C767D26A1D8F4F2F";
  WhatsAppWebJSService.md_chatName := "Chen";
  WhatsAppWebJSService.md_senderName := "Chen";
  WhatsAppWebJSService.md_body := "Can we meet at 3pm?";
  WhatsAppWebJSService.md_timestamp := Some 1762164000%Z;
  WhatsAppWebJSService.md_isFromMe := false;
  WhatsAppWebJSService.md_from := "4915112345678@c.us"
|}.

(** A decision response of two non-empty lines. *)
Definition two_line_response : string := "NO" +:+ PyStr.nl +:+ "NO" +:+ PyStr.nl.

(** * Further code of the connectors and the application *)

(** ** whatsapp_service.py: queue and health *)

Module WhatsAppServiceQueries.

(** The [while not self.message_queue.empty()] loop of
    [get_unread_messages]: [queue] is what is still queued, [messages] what
    has been taken out. *)
Fixpoint drain (queue messages : list WhatsAppMessage) : list WhatsAppMessage :=
  match queue with
  | [] => messages
  | m :: rest => drain rest (messages ++ [m])
  end.

Definition get_unread_messages : M WhatsAppService.t (list WhatsAppMessage) :=
  let* queue := gets WhatsAppService.message_queue in
  modify (WhatsAppService.set_message_queue []) ;;
  ret (drain queue []).

(** The dict [check_health] returns. *)
Record Health := {
  browser_running : bool;
  logged_in : bool;
  phone_connected : bool
}.

(** [check_health]: [current_url] is the outcome of reading
    [driver.current_url], [chat_list] of locating the chat list and
    [banner] of locating the text "Phone not connected". *)
Definition check_health (current_url : Result string) (chat_list banner : Result unit)
    : M WhatsAppService.t Health :=
  let health0 := {| browser_running := false; logged_in := false; phone_connected := false |} in
  match current_url with
  | Raise e =>
      emit (EvLogError ("Health check error: " +:+ e)) ;;
      ret health0
  | Ok _ =>
      let health1 :=
        {| browser_running := true; logged_in := false; phone_connected := false |} in
      let health2 :=
        {| browser_running := browser_running health1;
           logged_in := match chat_list with Ok _ => true | Raise _ => false end;
           phone_connected := phone_connected health1 |} in
      let health3 :=
        {| browser_running := browser_running health2;
           logged_in := logged_in health2;
           phone_connected := match banner with Ok _ => false | Raise _ => true end |} in
      ret health3
  end.

End WhatsAppServiceQueries.

(** The text [_read_current_chat_messages] takes for a message element. *)
Definition elem_text (e : WhatsAppService.MsgElem) : string :=
  match WhatsAppService.me_text e with
  | Some txt => txt
  | None => "[Media or unsupported message]"
  end.

(** The element can be read and is not one of the user's own. *)
Definition elem_incoming (e : WhatsAppService.MsgElem) : Prop :=
  exists cls, WhatsAppService.me_class e = Ok cls
              /\ WhatsAppService.contains "message-out" cls = false.

(** The element can be read and shows [txt]. *)
Definition elem_shows (txt : string) (e : WhatsAppService.MsgElem) : Prop :=
  (exists cls, WhatsAppService.me_class e = Ok cls) /\ elem_text e = txt.

(** Each text differs from the one before it, starting after [prev]. *)
Fixpoint chain_distinct (prev : option string) (texts : list string) : Prop :=
  match texts with
  | [] => True
  | txt :: rest => prev <> Some txt /\ chain_distinct (Some txt) rest
  end.

Definition is_refresh (e : Event) : bool :=
  match e with EvRefresh => true | _ => false end.

(** A browser whose first attempt fails at the search box and whose later
    attempts go through. *)
Definition attempt_ok : WhatsAppService.SendAttempt := {|
  WhatsAppService.sa_search_box := Ok tt;
  WhatsAppService.sa_contact := WhatsAppService.ContactFound;
  WhatsAppService.sa_contact_click := WhatsAppService.Clicked;
  WhatsAppService.sa_message_box := Ok tt;
  WhatsAppService.sa_type_and_enter := Ok tt;
  WhatsAppService.sa_sent_uuid := "7c1f2f0e-88a4-4d0b-9d53-0f6f5a1c2e90";
  WhatsAppService.sa_now := 1762164000;
  WhatsAppService.sa_refresh := Ok tt
|}.

Definition attempt_stale : WhatsAppService.SendAttempt := {|
  WhatsAppService.sa_search_box := Raise "stale element reference";
  WhatsAppService.sa_contact := WhatsAppService.ContactFound;
  WhatsAppService.sa_contact_click := WhatsAppService.Clicked;
  WhatsAppService.sa_message_box := Ok tt;
  WhatsAppService.sa_type_and_enter := Ok tt;
  WhatsAppService.sa_sent_uuid := "00000000-0000-4000-8000-000000000000";
  WhatsAppService.sa_now := 1762164000;
  WhatsAppService.sa_refresh := Ok tt
|}.

Definition attempt_unknown : WhatsAppService.SendAttempt := {|
  WhatsAppService.sa_search_box := Ok tt;
  WhatsAppService.sa_contact := WhatsAppService.ContactTimeout;
  WhatsAppService.sa_contact_click := WhatsAppService.Clicked;
  WhatsAppService.sa_message_box := Ok tt;
  WhatsAppService.sa_type_and_enter := Ok tt;
  WhatsAppService.sa_sent_uuid := "00000000-0000-4000-8000-000000000001";
  WhatsAppService.sa_now := 1762164000;
  WhatsAppService.sa_refresh := Ok tt
|}.

(** An attempt in which clicking the contact raises an exception that is
    not a timeout, and one in which the message box is not found. *)
Definition attempt_click_fails : WhatsAppService.SendAttempt := {|
  WhatsAppService.sa_search_box := Ok tt;
  WhatsAppService.sa_contact := WhatsAppService.ContactFound;
  WhatsAppService.sa_contact_click := WhatsAppService.ClickError "element click intercepted";
  WhatsAppService.sa_message_box := Ok tt;
  WhatsAppService.sa_type_and_enter := Ok tt;
  WhatsAppService.sa_sent_uuid := "00000000-0000-4000-8000-000000000002";
  WhatsAppService.sa_now := 1762164000;
  WhatsAppService.sa_refresh := Raise "session deleted"
|}.

Definition attempt_box_fails : WhatsAppService.SendAttempt := {|
  WhatsAppService.sa_search_box := Ok tt;
  WhatsAppService.sa_contact := WhatsAppService.ContactFound;
  WhatsAppService.sa_contact_click := WhatsAppService.Clicked;
  WhatsAppService.sa_message_box := Raise "Message: timeout";
  WhatsAppService.sa_type_and_enter := Ok tt;
  WhatsAppService.sa_sent_uuid := "00000000-0000-4000-8000-000000000003";
  WhatsAppService.sa_now := 1762164000;
  WhatsAppService.sa_refresh := Ok tt
|}.

(** A browser that fails in a different place in each attempt. *)
Definition browser_failing (i : nat) : WhatsAppService.SendAttempt :=
  match i with
  | 0%nat => attempt_stale
  | 1%nat => attempt_click_fails
  | _ => attempt_box_fails
  end.

Definition browser_flaky (i : nat) : WhatsAppService.SendAttempt :=
  match i with
  | O => attempt_stale
  | _ => attempt_ok
  end.

(** A second incoming message element. *)
Definition elem_free : WhatsAppService.MsgElem := {|
  WhatsAppService.me_class := Ok "message-in focusable-list-item";
  WhatsAppService.me_text := Some "Are you free at 3pm?";
  WhatsAppService.me_sender := None;
  WhatsAppService.me_uuid := "5a2e3d1c-97b0-4c86-8f11-6e0d4b7a9c22";
  WhatsAppService.me_now := 1762164060
|}.

(** A chat-list entry of Chen whose click raises. *)
Definition chat_chen_unclickable (preview : string) : WhatsAppService.ChatElem := {|
  WhatsAppService.ce_unread_badge := true;
  WhatsAppService.ce_font_weight := None;
  WhatsAppService.ce_title := Some "Chen";
  WhatsAppService.ce_preview_ltr := Some preview;
  WhatsAppService.ce_span_texts := None;
  WhatsAppService.ce_click := Raise "element click intercepted";
  WhatsAppService.ce_messages := Ok [elem_hey]
|}.

(** ** main.py: the quick-reply block of [_handle_whatsapp_intent] *)

(** [len(s.split())]: the number of maximal runs of non-whitespace. *)
Fixpoint word_count_from (in_word : bool) (s : string) : nat :=
  match s with
  | EmptyString => 0
  | String c rest =>
      if PyStr.isspace c then word_count_from false rest
      else (if in_word then 0 else 1) + word_count_from true rest
  end.

Definition word_count (s : string) : nat := word_count_from false s.

Definition quick_reply_keywords : list string :=
  ["send"; "what did"; "show messages"; "search"; "check"].

(** [any(keyword in text_lower for keyword in [...])] *)
Definition has_command_keyword (txt : string) : bool :=
  existsb (fun keyword => WhatsAppService.contains keyword (PyStr.lower txt))
          quick_reply_keywords.

(** [_handle_whatsapp_intent(text)]; [patterns] is what follows the
    quick-reply block in the source: the regular-expression patterns for
    send and search commands. *)
Definition _handle_whatsapp_intent (patterns : string -> M FridayApp bool) (txt : string)
    : M FridayApp bool :=
  let* last_contact := gets last_whatsapp_contact in
  match last_contact with
  | Some c =>
      if negb (String.eqb c EmptyString) && (word_count txt <=? 15)%nat
         && negb (has_command_keyword txt)
      then
        _handle_whatsapp_send c ("I am the assistant Jarvis, " +:+ txt) ;;
        modify (set_last_whatsapp_contact None) ;;
        ret true
      else patterns txt
  | None => patterns txt
  end.

(** A "tell" directive as the regex engine matches it. *)
Definition env_tell (group1 group2 answer : string) (sent : bool) : Env := {|
  prompt_txt := Some "You are Jarvis.";
  time_context := "Current time: 03:00 PM, Tuesday, November 03, 2026";
  clock := fun _ => 1000%Q;
  chat_completion := fun _ => Ok answer;
  send_message := fun _ _ => sent;
  speak := fun _ => Ok tt;
  re_search_tell := fun _ => Some (group1, group2);
  general_processing := fun _ => ret tt
|}.

Definition app_awaiting_chen_enabled : FridayApp := {|
  whatsapp_enabled := true;
  last_whatsapp_contact := last_whatsapp_contact app_awaiting_chen;
  waiting_for_whatsapp_reply := waiting_for_whatsapp_reply app_awaiting_chen;
  pending_whatsapp_message := pending_whatsapp_message app_awaiting_chen;
  whatsapp_conversations := whatsapp_conversations app_awaiting_chen;
  user_context := user_context app_awaiting_chen;
  is_processing := is_processing app_awaiting_chen
|}.

Definition report_two_messages : list WhatsAppWebJSService.MsgData := [
  {| WhatsAppWebJSService.md_id := "false_4915112345678@c.us_3EB0A0";
     WhatsAppWebJSService.md_chatName := "Chen";
     WhatsAppWebJSService.md_senderName := "Chen";
     WhatsAppWebJSService.md_body := "Hey there";
     WhatsAppWebJSService.md_timestamp := Some 1762164000%Z;
     WhatsAppWebJSService.md_isFromMe := false;
     WhatsAppWebJSService.md_from := "4915112345678@c.us" |};
  {| WhatsAppWebJSService.md_id := "false_4915187654321@c.us_3EB0A1";
     WhatsAppWebJSService.md_chatName := "Dana";
     WhatsAppWebJSService.md_senderName := "Dana";
     WhatsAppWebJSService.md_body := "Lunch?";
     WhatsAppWebJSService.md_timestamp := None;
     WhatsAppWebJSService.md_isFromMe := false;
     WhatsAppWebJSService.md_from := "4915187654321@c.us" |}
].

(** Collaborators of an installation without prompt.txt. *)
Definition env_no_prompt : Env := {|
  prompt_txt := None;
  time_context := "Current time: 03:00 PM, Tuesday, November 03, 2026";
  clock := fun _ => 1000%Q;
  chat_completion := fun _ => Ok "NO";
  send_message := fun _ _ => true;
  speak := fun _ => Ok tt;
  re_search_tell := fun _ => None;
  general_processing := fun _ => ret tt
|}.

(** ** The interactive conversation (models/message.py, models/conversation.py)

    The general-processing branch of [_process_user_message] records the
    exchange with the assistant in a [Conversation].  Timestamps are the
    clock readings handed to the constructors. *)

Module Message.

Record t : Type := {
  role : string;
  content : string;
  timestamp : Z;
  image_data : option string
}.

(** The value under ["content"] of the dictionary sent to the API. *)
Inductive ApiContent : Type :=
| Text (text : string)
| Parts (text : string) (image_url : string).

Record ApiDict : Type := { d_role : string; d_content : ApiContent }.

(** [to_dict]: the test [if self.image_data:] is Python truthiness, so
    [None] and the empty string both take the text-only branch. *)
Definition to_dict (m : t) : ApiDict :=
  match image_data m with
  | Some (String c url) =>
      {| d_role := role m; d_content := Parts (content m) (String c url) |}
  | _ => {| d_role := role m; d_content := Text (content m) |}
  end.

End Message.

(** [l[-n:]] for a Python integer [n] of either sign: the last [n]
    elements for a positive [n], everything for zero, and [l[k:]] for
    [n = -k < 0]. *)
Definition slice_last_Z {A : Type} (n : Z) (l : list A) : list A :=
  if (0 <? n)%Z then slice_last (Z.to_nat n) l else drop (Z.to_nat (- n)) l.

Module Conversation.

Record t : Type := {
  messages : list Message.t;
  max_messages : Z
}.

Definition init (max_messages : Z) : t :=
  {| messages := []; max_messages := max_messages |}.

Definition set_messages (ms : list Message.t) (c : t) : t :=
  {| messages := ms; max_messages := max_messages c |}.

Definition _trim_history (c : t) : t :=
  if (max_messages c <? Z.of_nat (length (messages c)))%Z
  then set_messages (slice_last_Z (max_messages c) (messages c)) c
  else c.

Definition user_message (now : Z) (text : string) (image_data : option string) : Message.t :=
  {| Message.role := "user"; Message.content := text;
     Message.timestamp := now; Message.image_data := image_data |}.

Definition assistant_message (now : Z) (text : string) : Message.t :=
  {| Message.role := "assistant"; Message.content := text;
     Message.timestamp := now; Message.image_data := None |}.

Definition add_user_message (now : Z) (text : string) (image_data : option string)
    (c : t) : t :=
  _trim_history (set_messages (messages c ++ [user_message now text image_data]) c).

Definition add_assistant_message (now : Z) (text : string) (c : t) : t :=
  _trim_history (set_messages (messages c ++ [assistant_message now text]) c).

Definition get_messages_for_api (c : t) : list Message.ApiDict :=
  map Message.to_dict (messages c).

Definition clear (c : t) : t := set_messages [] c.

Definition get_message_count (c : t) : nat := length (messages c).

Definition get_last_message (c : t) : option Message.t := last (messages c).

(** One call of [add_user_message] or [add_assistant_message]. *)
Inductive Turn : Type :=
| UserTurn (now : Z) (text : string) (image_data : option string)
| AssistantTurn (now : Z) (text : string).

Definition message_of (turn : Turn) : Message.t :=
  match turn with
  | UserTurn now text image_data => user_message now text image_data
  | AssistantTurn now text => assistant_message now text
  end.

Definition add (c : t) (turn : Turn) : t :=
  match turn with
  | UserTurn now text image_data => add_user_message now text image_data c
  | AssistantTurn now text => add_assistant_message now text c
  end.

Definition run (turns : list Turn) (c : t) : t := foldl add c turns.

End Conversation.

(** A hundred and three turns of one session. *)
Definition long_session : list Conversation.Turn :=
  flat_map (fun i => [Conversation.UserTurn (Z.of_nat i) ("question " +:+ pretty i) None;
                      Conversation.AssistantTurn (Z.of_nat i) ("answer " +:+ pretty i)])
           (seq 0 51)
  ++ [Conversation.UserTurn 51 "one more" None].

(** ** History search (main.py, [_search_whatsapp_history])

    The application reaches its connector through [self.whatsapp] and looks
    the method up by name at the call.  A connector whose class defines no
    method of that name raises [AttributeError] there; the methods that
    exist answer from the message store, whose answer is given. *)

Record Connector : Type := {
  class_name : string;
  read_chat_history : option (string -> nat -> Result (list WhatsAppMessage));
  search_messages : option (string -> nat -> Result (list WhatsAppMessage))
}.

Definition AttributeError (class_name attr : string) : string :=
  "'" +:+ class_name +:+ "' object has no attribute '" +:+ attr +:+ "'".

Definition getattr {A : Type} (svc : Connector) (attr : string) (method : option A)
    : M FridayApp A :=
  match method with
  | Some f => ret f
  | None => raise (AttributeError (class_name svc) attr)
  end.

(** The connector [FridayApp.__init__] installs: [WhatsAppWebJSService]
    defines neither [read_chat_history] nor [search_messages]. *)
Definition webjs_connector : Connector := {|
  class_name := "WhatsAppWebJSService";
  read_chat_history := None;
  search_messages := None
|}.

(** [WhatsAppService] defines both, each a query of the message store. *)
Definition selenium_connector
    (get_messages_by_chat db_search_messages : string -> nat -> Result (list WhatsAppMessage))
    : Connector := {|
  class_name := "WhatsAppService";
  read_chat_history := Some get_messages_by_chat;
  search_messages := Some db_search_messages
|}.

(** [sub in s] *)
Definition str_in (sub s : string) : bool :=
  match String.index 0 sub s with
  | Some _ => true
  | None => false
  end.

Definition result_entry (strftime : Z -> string) (msg : WhatsAppMessage) : string :=
  "[" +:+ strftime (timestamp msg) +:+ "] " +:+ sender_name msg +:+ ": "
  +:+ PyStr.slice_to 100 (content msg) +:+ PyStr.nl +:+ PyStr.nl.

Definition result_text (strftime : Z -> string) (query : string)
    (results : list WhatsAppMessage) : string :=
  "Found " +:+ pretty (length results) +:+ " message(s) matching '" +:+ query +:+ "':"
  +:+ PyStr.nl +:+ PyStr.nl
  +:+ PyStr.join EmptyString (map (result_entry strftime) (take 5 results))
  +:+ (if (5 <? length results)%nat
       then "... and " +:+ pretty (length results - 5)%nat +:+ " more"
       else EmptyString).

Definition matches_query (query : string) (m : WhatsAppMessage) : bool :=
  str_in (PyStr.lower query) (PyStr.lower (content m)).

Definition _search_whatsapp_history (svc : Connector) (strftime : Z -> string)
    (query : string) (chat_name : option string) : M FridayApp unit :=
  try_except
    (let* results :=
       match chat_name with
       | Some (String c0 rest) =>
           let* method := getattr svc "read_chat_history" (read_chat_history svc) in
           let* messages := call (method (String c0 rest) 100%nat) in
           ret (List.filter (matches_query query) messages)
       | _ =>
           let* method := getattr svc "search_messages" (search_messages svc) in
           call (method query 20%nat)
       end in
     match results with
     | [] => emit (EvGui ("No messages found matching '" +:+ query +:+ "'"))
     | _ :: _ => emit (EvGui (result_text strftime query results))
     end)
    (fun e =>
       emit (EvLogError ("Error searching WhatsApp history: " +:+ e)) ;;
       emit (EvGui ("Error searching messages: " +:+ e))).

(** [sub] occurs in [s] as a contiguous piece. *)
Definition occurs_in (sub s : string) : Prop :=
  exists before after, s = before +:+ sub +:+ after.

(** A stored message of the conversation Chen that does not mention the
    name. *)
Definition stored_hey : WhatsAppMessage := {|
  id := "0b0e7a9c-5d1f-4e57-9a43-2f6c1d0e8b11";
  chat_name := "Chen";
  sender_name := "Chen";
  content := "Hey there";
  timestamp := 1762164000;
  direction := INCOMING;
  message_type := TEXT;
  media_path := None;
  is_read := false;
  is_from_me := false
|}.

(** * Properties *)

(** ** The method monad *)

Section MonadLaws.
Context {S A B : Type}.

Lemma bind_ok (m : M S A) (k : A -> M S B) (s : S) (a : A) (s1 : S) (t1 : list Event)
    (r : Result B) (s2 : S) (t2 : list Event) :
  m s = (Ok a, s1, t1) -> k a s1 = (r, s2, t2) -> bind m k s = (r, s2, t1 ++ t2).
Proof. intros Hm Hk. unfold bind. rewrite Hm, Hk. reflexivity. Qed.

Lemma bind_raise (m : M S A) (k : A -> M S B) (s : S) (e : string) (s1 : S)
    (t1 : list Event) :
  m s = (Raise e, s1, t1) -> bind m k s = (Raise e, s1, t1).
Proof. intros Hm. unfold bind. rewrite Hm. reflexivity. Qed.

Lemma try_except_ok (body : M S A) (handler : string -> M S A) (s : S) (a : A) (s1 : S)
    (t1 : list Event) :
  body s = (Ok a, s1, t1) -> try_except body handler s = (Ok a, s1, t1).
Proof. intros Hb. unfold try_except. rewrite Hb. reflexivity. Qed.

Lemma try_except_raise (body : M S A) (handler : string -> M S A) (s : S) (e : string)
    (s1 : S) (t1 : list Event) (r : Result A) (s2 : S) (t2 : list Event) :
  body s = (Raise e, s1, t1) -> handler e s1 = (r, s2, t2) ->
  try_except body handler s = (r, s2, t1 ++ t2).
Proof. intros Hb Hh. unfold try_except. rewrite Hb, Hh. reflexivity. Qed.

End MonadLaws.

(** ** Bounded append *)

Section BoundedAppend.
Context {A : Type}.

Lemma slice_last_length (n : nat) (l : list A) :
  (0 < n)%nat -> length (slice_last n l) = min n (length l).
Proof.
  intros Hn. destruct n as [|n]; [lia|].
  unfold slice_last. rewrite length_drop. lia.
Qed.

Lemma slice_last_short (n : nat) (l : list A) :
  (length l <= n)%nat -> slice_last n l = l.
Proof.
  intros Hl. destruct n as [|n]; [reflexivity|].
  unfold slice_last. replace (length l - S n)%nat with 0%nat by lia.
  reflexivity.
Qed.

Lemma push_slice_last (n : nat) (l : list A) (x : A) :
  push n l x = slice_last n (l ++ [x]).
Proof.
  unfold push. destruct (Nat.ltb_spec n (length (l ++ [x]))); [reflexivity|].
  symmetry. apply slice_last_short. assumption.
Qed.

Lemma slice_last_snoc (n : nat) (l : list A) (x : A) :
  (0 < n)%nat -> slice_last n (slice_last n l ++ [x]) = slice_last n (l ++ [x]).
Proof.
  intros Hn. destruct n as [|n]; [lia|].
  unfold slice_last. rewrite !length_app, length_drop. simpl.
  destruct (Nat.le_gt_cases (length l) (S n)) as [Hle|Hgt].
  - replace (length l - S n)%nat with 0%nat by lia. rewrite drop_0.
    f_equal. lia.
  - replace (length l - (length l - S n) + 1 - S n)%nat with 1%nat by lia.
    replace (length l + 1 - S n)%nat with ((length l - S n) + 1)%nat by lia.
    rewrite <- drop_drop.
    rewrite (drop_app_le l [x] (length l - S n)) by lia.
    reflexivity.
Qed.

Lemma foldl_push (n : nat) (xs l : list A) :
  (0 < n)%nat ->
  foldl (push n) (slice_last n l) xs = slice_last n (l ++ xs).
Proof.
  intros Hn. revert l. induction xs as [|x xs IH]; intros l.
  - rewrite app_nil_r. reflexivity.
  - simpl. rewrite push_slice_last, slice_last_snoc by assumption.
    rewrite IH. rewrite <- app_assoc. reflexivity.
Qed.

Lemma foldl_push_nil (n : nat) (xs : list A) :
  (0 < n)%nat -> foldl (push n) [] xs = slice_last n xs.
Proof.
  intros Hn. pose proof (foldl_push n xs [] Hn) as H.
  rewrite slice_last_short in H by (simpl; lia). exact H.
Qed.
End BoundedAppend.
(** ** C8: the conversation context window *)

Lemma add_history_lookup (c m : string) (d : bool) (convs : gmap string (list string)) (c' : string) :
  add_history c m d convs !! c' =
  if decide (c = c')
  then Some (push max_history_per_contact (default [] (convs !! c)) (history_line m d))
  else convs !! c'.
Proof.
  unfold add_history, push.
  destruct (convs !! c) as [l|] eqn:Hc.
  - rewrite (lookup_total_correct _ _ _ Hc), lookup_total_insert_eq. simpl.
    destruct (_ <? _)%nat; case_decide; subst;
      rewrite ?lookup_insert_eq, ?lookup_insert_ne by assumption; reflexivity.
  - rewrite !lookup_total_insert_eq. simpl.
    case_decide; subst;
      rewrite ?lookup_insert_eq, ?lookup_insert_ne by assumption;
      rewrite ?lookup_insert_ne by assumption; try reflexivity.
Qed.

Lemma window_add_history (a : FridayApp) (c m : string) (d : bool) (c' : string) :
  window (state_of (_add_to_conversation_history c m d a)) c' =
  if decide (c = c')
  then push max_history_per_contact (window a c) (history_line m d)
  else window a c'.
Proof.
  unfold window, _add_to_conversation_history, modify, state_of. simpl.
  rewrite add_history_lookup. case_decide; reflexivity.
Qed.

Lemma window_run_history (calls : list (string * string * bool)) (a : FridayApp) (c : string) :
  window (run_history calls a) c =
  foldl (push max_history_per_contact) (window a c) (lines_for c calls).
Proof.
  revert a. induction calls as [|[[c' m] d] calls IH]; intros a; [reflexivity|].
  unfold run_history in *. simpl. rewrite IH, window_add_history.
  unfold lines_for. rewrite filter_cons. simpl.
  repeat case_decide; subst; try congruence; reflexivity.
Qed.

(** C8. For every contact, after any sequence of
    [_add_to_conversation_history] calls on the freshly initialised
    application the contact's window holds at most 50 lines and is exactly
    the last 50 of the lines appended for that contact, in append order;
    when 55 lines were appended, exactly the first 5 are gone and the
    remaining 50 are kept in order. *)
Theorem context_window_fifo (calls : list (string * string * bool)) (c : string) :
  let w := window (run_history calls init_app) c in
  let appended := lines_for c calls in
  (length w <= 50)%nat
  /\ w = slice_last 50 appended
  /\ (length appended = (50 + 5)%nat -> w = drop 5 appended /\ length w = 50%nat).
Proof.
  intros w appended.
  assert (Hw : w = slice_last 50 appended).
  { unfold w. rewrite window_run_history.
    change (window init_app c) with (@nil string).
    apply foldl_push_nil. unfold max_history_per_contact. lia. }
  split; [|split].
  - rewrite Hw, slice_last_length by lia. lia.
  - exact Hw.
  - intros Hlen. rewrite Hw. unfold slice_last. rewrite Hlen. simpl Nat.sub.
    split; [reflexivity|]. rewrite length_drop. lia.
Qed.

Lemma context_window_fifo_witness :
  length (lines_for "Chen" fifty_five_calls) = (50 + 5)%nat
  /\ window (run_history fifty_five_calls init_app) "Chen"
     = drop 5 (lines_for "Chen" fifty_five_calls).
Proof.
  assert (H : length (lines_for "Chen" fifty_five_calls) = (50 + 5)%nat)
    by (vm_compute; reflexivity).
  split; [exact H|].
  exact (proj1 (proj2 (proj2 (context_window_fifo fifty_five_calls "Chen")) H)).
Defined.

(** ** C9: the user utterance pool *)

Lemma user_context_run (calls : list (Q * string)) (a : FridayApp) :
  user_context (run_user_context calls a) =
  foldl (push max_user_context) (user_context a) (map entry_of calls).
Proof.
  revert a. induction calls as [|[now txt] calls IH]; intros a; [reflexivity|].
  unfold run_user_context in *. simpl. rewrite IH. reflexivity.
Qed.

Lemma Qltb_lt (x y : Q) : Qltb x y = true <-> (x < y)%Q.
Proof.
  unfold Qltb. rewrite negb_true_iff.
  destruct (Qle_bool y x) eqn:E.
  - apply Qle_bool_iff in E. split; [discriminate|]. intros H. lra.
  - split; [|reflexivity]. intros _.
    destruct (Qlt_le_dec x y) as [H|H]; [exact H|].
    apply Qle_bool_iff in H. congruence.
Qed.

Lemma horizon_test (now ts : Q) : Qltb (now - ts) 300 = Qltb (now - 300) ts.
Proof.
  destruct (Qltb (now - ts) 300) eqn:E1, (Qltb (now - 300) ts) eqn:E2; try reflexivity.
  - apply Qltb_lt in E1. assert (H : (now - 300 < ts)%Q) by lra.
    apply Qltb_lt in H. congruence.
  - apply Qltb_lt in E2. assert (H : (now - ts < 300)%Q) by lra.
    apply Qltb_lt in H. congruence.
Qed.

Lemma recent_contexts_frozen (now : Q) (i : nat) (pool : list UserContext) :
  recent_contexts (fun _ => now) i pool = List.filter (strictly_newerb now) pool.
Proof.
  revert i. induction pool as [|ctx pool IH]; intros i; [reflexivity|].
  cbn [recent_contexts List.filter]. unfold strictly_newerb at 1.
  rewrite horizon_test, IH. reflexivity.
Qed.

Lemma join_bullets (texts : list string) :
  PyStr.join PyStr.nl (map (fun line => "- " +:+ line) texts) = bullet_lines texts.
Proof.
  induction texts as [|txt rest IH]; [reflexivity|].
  destruct rest as [|txt' rest]; [reflexivity|].
  change (PyStr.join PyStr.nl (map (fun line => "- " +:+ line) (txt :: txt' :: rest)))
    with (("- " +:+ txt) +:+ PyStr.nl
          +:+ PyStr.join PyStr.nl (map (fun line => "- " +:+ line) (txt' :: rest))).
  rewrite IH. cbn [bullet_lines].
  generalize (match rest with
              | [] => "- " +:+ txt'
              | _ :: _ => "- " +:+ txt' +:+ PyStr.nl +:+ bullet_lines rest
              end).
  intros tail. reflexivity.
Qed.

Lemma split_no_sep (sep : ascii) (s : string) :
  PyStr.contains_char sep s = false -> PyStr.split sep s = [s].
Proof.
  induction s as [|c s IH]; [reflexivity|].
  cbn [PyStr.contains_char PyStr.split]. intros H.
  apply orb_false_iff in H. destruct H as [Hc Hs].
  rewrite Hc, (IH Hs). reflexivity.
Qed.

Lemma split_app_sep (sep : ascii) (s rest : string) :
  PyStr.contains_char sep s = false ->
  PyStr.split sep (s +:+ String sep rest) = s :: PyStr.split sep rest.
Proof.
  induction s as [|c s IH]; intros H.
  - change (EmptyString +:+ String sep rest) with (String sep rest).
    cbn [PyStr.split]. rewrite Ascii.eqb_refl. reflexivity.
  - cbn [PyStr.contains_char] in H. apply orb_false_iff in H. destruct H as [Hc Hs].
    change (String c s +:+ String sep rest) with (String c (s +:+ String sep rest)).
    cbn [PyStr.split]. rewrite Hc, (IH Hs). reflexivity.
Qed.

Lemma contains_char_bullet (txt : string) :
  PyStr.contains_char PyStr.newline txt = false ->
  PyStr.contains_char PyStr.newline ("- " +:+ txt) = false.
Proof. intros H. cbn. exact H. Qed.

Lemma split_bullet_lines (texts : list string) :
  texts <> [] ->
  Forall (fun txt => PyStr.contains_char PyStr.newline txt = false) texts ->
  PyStr.split PyStr.newline (bullet_lines texts) = map (fun txt => "- " +:+ txt) texts.
Proof.
  induction texts as [|txt rest IH]; [contradiction|].
  intros _ Hall. inversion Hall as [|? ? Htxt Hrest]; subst.
  destruct rest as [|txt' rest].
  - cbn [bullet_lines map]. apply split_no_sep, contains_char_bullet, Htxt.
  - change (bullet_lines (txt :: txt' :: rest))
      with (("- " +:+ txt) +:+ String PyStr.newline (bullet_lines (txt' :: rest))).
    rewrite split_app_sep by (apply contains_char_bullet, Htxt).
    rewrite IH by (try discriminate; exact Hrest). reflexivity.
Qed.

(** C9. Eviction from the pool looks at capacity only: after any sequence of
    [_add_user_context] calls on the freshly initialised application the
    pool is exactly the newest 30 of the stored [(text, timestamp)] entries,
    whatever their timestamps.  A read at one instant [now] selects exactly
    the stored entries whose timestamp is strictly newer than [now - 300],
    in pool order, and its answer is the specification's: the fixed
    sentinel when no entry qualifies, and otherwise the heading followed by
    one bullet line per selected entry, so that (for texts without a line
    break) the lines of the answer are the heading and the selected
    entries' texts, each once and in order, and nothing else. *)
Theorem user_pool_capacity_and_horizon (calls : list (Q * string)) (now : Q) (a : FridayApp) :
  let pool := user_context a in
  let recent := List.filter (strictly_newerb now) pool in
  let result := _get_user_context_text (fun _ => now) a in
  user_context (run_user_context calls init_app) = slice_last 30 (map entry_of calls)
  /\ (length (user_context (run_user_context calls init_app)) <= 30)%nat
  /\ (forall ctx, In ctx recent <-> In ctx pool /\ (now - 300 < uc_timestamp ctx)%Q)
  /\ sublist recent pool
  /\ result = getRecentUserContext_spec now pool
  /\ (recent = [] -> result = "No recent user context.")
  /\ (recent <> [] ->
      Forall (fun ctx => PyStr.contains_char PyStr.newline (text ctx) = false) recent ->
      PyStr.split PyStr.newline result
      = "WHAT USER TOLD FRIDAY RECENTLY:" :: map (fun ctx => "- " +:+ text ctx) recent).
Proof.
  intros pool recent result.
  assert (Hpool : user_context (run_user_context calls init_app)
                  = slice_last 30 (map entry_of calls)).
  { rewrite user_context_run. apply foldl_push_nil. unfold max_user_context. lia. }
  assert (Hcode : result = match recent with
                           | [] => "No recent user context."
                           | _ :: _ => "WHAT USER TOLD FRIDAY RECENTLY:" +:+ PyStr.nl
                                       +:+ bullet_lines (map text recent)
                           end).
  { subst result recent pool. unfold _get_user_context_text.
    rewrite recent_contexts_frozen.
    destruct (user_context a) as [|ctx0 pool0]; [reflexivity|].
    destruct (List.filter (strictly_newerb now) (ctx0 :: pool0)) as [|r0 rs]; [reflexivity|].
    unfold format_user_context. rewrite join_bullets. reflexivity. }
  split; [exact Hpool|].
  split; [rewrite Hpool, slice_last_length by lia; lia|].
  split.
  { intros ctx. subst recent. rewrite List.filter_In. unfold strictly_newerb.
    rewrite Qltb_lt. reflexivity. }
  split.
  { subst recent. clear. induction pool as [|ctx pool IH]; [constructor|].
    cbn [List.filter]. destruct (strictly_newerb now ctx).
    - apply sublist_skip. exact IH.
    - apply sublist_cons. exact IH. }
  split.
  { rewrite Hcode. unfold getRecentUserContext_spec. fold pool. fold recent.
    destruct recent; reflexivity. }
  split.
  { intros Hnone. rewrite Hcode, Hnone. reflexivity. }
  intros Hsome Hclean. rewrite Hcode.
  destruct recent as [|r0 rs] eqn:Hrec; [contradiction|].
  change ("WHAT USER TOLD FRIDAY RECENTLY:" +:+ PyStr.nl +:+ bullet_lines (map text (r0 :: rs)))
    with ("WHAT USER TOLD FRIDAY RECENTLY:"
          +:+ String PyStr.newline (bullet_lines (map text (r0 :: rs)))).
  rewrite split_app_sep by reflexivity.
  rewrite split_bullet_lines.
  - rewrite map_map. reflexivity.
  - discriminate.
  - apply Forall_map. exact Hclean.
Qed.

Lemma user_pool_capacity_and_horizon_witness :
  _get_user_context_text (fun _ => 1000%Q) stale_pool_app = "No recent user context."
  /\ PyStr.split PyStr.newline (_get_user_context_text (fun _ => 999%Q) stale_pool_app)
     = ["WHAT USER TOLD FRIDAY RECENTLY:"; "- back at five"].
Proof.
  split.
  - apply (user_pool_capacity_and_horizon [] 1000%Q stale_pool_app).
    vm_compute. reflexivity.
  - pose proof (user_pool_capacity_and_horizon [] 999%Q stale_pool_app) as H.
    cbv zeta in H. destruct H as (_ & _ & _ & _ & _ & _ & H).
    rewrite H.
    + vm_compute. reflexivity.
    + vm_compute. discriminate.
    + vm_compute. repeat constructor.
Defined.

(** ** The Selenium change detector *)

Section ChangeDetector.
Import WhatsAppService.

Lemma read_message_spec (c : string) (e : MsgElem) (s : t) :
  exists ms s', read_message c e s = (Ok ms, s', [])
                /\ read_frame s s' /\ read_ok c ms.
Proof.
  unfold read_message, try_except, bind, call, gets, modify, ret, read_frame, read_ok.
  destruct (me_class e) as [cls|exn]; simpl.
  - case_decide; simpl.
    + eexists _, _. split; [reflexivity|]. split; [tauto|]. constructor.
    + destruct (contains "message-out" cls); simpl;
        eexists _, _; (split; [reflexivity|]); (split; [tauto|]);
        repeat constructor.
  - eexists _, _. split; [reflexivity|]. split; [tauto|]. constructor.
Qed.

Lemma read_messages_spec (c : string) (es : list MsgElem) (s : t) :
  exists ms s', read_messages c es s = (Ok ms, s', [])
                /\ read_frame s s' /\ read_ok c ms.
Proof.
  revert s. induction es as [|e es IH]; intros s.
  - exists [], s. split; [reflexivity|]. split; [unfold read_frame; tauto|constructor].
  - destruct (read_message_spec c e s) as (ms1 & s1 & E1 & F1 & R1).
    destruct (IH s1) as (ms2 & s2 & E2 & F2 & R2).
    exists (ms1 ++ ms2), s2. split.
    + simpl. unfold bind. rewrite E1, E2. reflexivity.
    + split.
      * unfold read_frame in *. intuition congruence.
      * apply Forall_app. split; assumption.
Qed.

Lemma _read_current_chat_messages_spec (c : string) (panel : Result (list MsgElem)) (s : t) :
  exists ms s' tr, _read_current_chat_messages c panel s = (Ok ms, s', tr)
                   /\ read_frame s s' /\ read_ok c ms /\ only_log_errors tr.
Proof.
  unfold _read_current_chat_messages, try_except, bind, call.
  destruct panel as [elements|exn].
  - destruct (read_messages_spec c (slice_last 10 elements) s) as (ms & s' & E & F & R).
    cbv beta iota zeta. rewrite E. exists ms, s', [].
    repeat split; try apply F; try assumption. constructor.
  - simpl. eexists [], s, _. split; [reflexivity|]. split; [unfold read_frame; tauto|].
    split; [constructor|]. repeat constructor. eexists. reflexivity.
Qed.

Lemma check_chat_cases (chat : ChatElem) (s : t) :
  let p := message_preview_of chat in
  check_chat chat s = (Ok [], s, [])
  \/ (exists c,
        ce_title chat = Some c /\ last_message_previews s !! c = None
        /\ check_chat chat s =
           (Ok [], set_last_message_previews (<[c := p]> (last_message_previews s)) s,
            [EvPreviewWrite c p]))
  \/ (exists c q ms s' tr,
        ce_title chat = Some c /\ last_message_previews s !! c = Some q /\ q <> p
        /\ check_chat chat s = (Ok ms, s', EvPreviewWrite c p :: EvClick c :: tr)
        /\ last_message_previews s' = <[c := p]> (last_message_previews s)
        /\ db s' = db s /\ message_queue s' = message_queue s
        /\ read_ok c ms /\ only_log_errors tr).
Proof.
  intros p. unfold check_chat.
  destruct (has_unread chat); [|left; reflexivity].
  destruct (ce_title chat) as [c|]; [|left; reflexivity].
  cbn [negb].
  destruct ((String.length c =? 0)%nat || (String.length (PyStr.strip c) =? 0)%nat);
    [left; reflexivity|].
  fold p. destruct (String.length p =? 0)%nat; [left; reflexivity|].
  unfold try_except, bind, gets, emit, modify, call, ret.
  destruct (last_message_previews s !! c) as [q|] eqn:Hq.
  - destruct (String.eqb_spec q p) as [->|Hne]; [left; reflexivity|].
    right; right. destruct (ce_click chat) as [[]|exn].
    + destruct (_read_current_chat_messages_spec c (ce_messages chat)
                  (set_last_message_previews (<[c := p]> (last_message_previews s)) s))
        as (ms & s' & tr & E & (F1 & F2 & F3) & R & L).
      rewrite E. exists c, q, ms, s', tr.
      repeat split; try assumption; try apply R; try reflexivity.
    + exists c, q, [], (set_last_message_previews (<[c := p]> (last_message_previews s)) s), [].
      repeat split; try assumption; try reflexivity; constructor.
  - right; left. exists c. repeat split; try assumption; reflexivity.
Qed.

Lemma check_chat_quiet (chat : ChatElem) (s : t) (c p : string) :
  (ce_title chat = Some c -> message_preview_of chat = p) ->
  exists ms s' tr,
    check_chat chat s = (Ok ms, s', tr)
    /\ (last_message_previews s' !! c = last_message_previews s !! c
        \/ last_message_previews s' !! c = Some p)
    /\ (last_message_previews s !! c = None \/ last_message_previews s !! c = Some p ->
        Forall (fun m => ~ from_chat c m) ms /\ silent_for c tr)
    /\ (Exists (from_chat c) ms -> last_message_previews s' !! c = Some p).
Proof.
  intros Hshow.
  destruct (check_chat_cases chat s) as
    [E | [(c' & Ht & Hfp & E) | (c' & q & ms & s' & tr & Ht & Hfp & Hne & E & Hfp' & _ & _ & R & L)]].
  - exists [], s, []. split; [exact E|]. split; [left; reflexivity|].
    split; [intros _; split; constructor|]. intros H; inversion H.
  - eexists [], _, _. split; [exact E|]. simpl.
    destruct (decide (c' = c)) as [->|Hc].
    + rewrite lookup_insert_eq, (Hshow Ht). split; [right; reflexivity|].
      split; [|intros H; inversion H].
      intros _. split; [constructor|]. repeat constructor. discriminate.
    + rewrite lookup_insert_ne by assumption. split; [left; reflexivity|].
      split; [|intros H; inversion H].
      intros _. split; [constructor|]. repeat constructor. discriminate.
  - exists ms, s', (EvPreviewWrite c' (message_preview_of chat) :: EvClick c' :: tr).
    split; [exact E|]. rewrite Hfp'.
    destruct (decide (c' = c)) as [->|Hc].
    + rewrite lookup_insert_eq, (Hshow Ht) in *. split; [right; reflexivity|].
      split; [|intros _; reflexivity].
      intros [Hn|Hs]; congruence.
    + rewrite lookup_insert_ne by assumption. split; [left; reflexivity|].
      assert (Hms : Forall (fun m => ~ from_chat c m) ms).
      { eapply Forall_impl; [exact R|]. intros m [Hm _]. unfold from_chat. congruence. }
      split.
      * intros _. split; [exact Hms|].
        constructor; [discriminate|]. constructor; [simpl; congruence|].
        eapply Forall_impl; [exact L|]. intros e [msg ->]. discriminate.
      * intros Hex. apply Exists_exists in Hex. destruct Hex as (m & Hin & Hm).
        rewrite Forall_forall in Hms. exfalso. apply (Hms m); assumption.
Qed.

Lemma check_chats_quiet (chats : list ChatElem) (s : t) (c p : string) :
  shows c p chats ->
  exists ms s' tr,
    check_chats chats s = (Ok ms, s', tr)
    /\ (last_message_previews s' !! c = last_message_previews s !! c
        \/ last_message_previews s' !! c = Some p)
    /\ (last_message_previews s !! c = None \/ last_message_previews s !! c = Some p ->
        Forall (fun m => ~ from_chat c m) ms /\ silent_for c tr)
    /\ (Exists (from_chat c) ms -> last_message_previews s' !! c = Some p).
Proof.
  intros Hshow. revert s. induction Hshow as [|chat chats Hchat _ IH]; intros s.
  - exists [], s, []. split; [reflexivity|]. split; [left; reflexivity|].
    split; [intros _; split; constructor|]. intros H; inversion H.
  - destruct (check_chat_quiet chat s c p Hchat) as (ms1 & s1 & tr1 & E1 & K1 & Q1 & X1).
    destruct (IH s1) as (ms2 & s2 & tr2 & E2 & K2 & Q2 & X2).
    exists (ms1 ++ ms2), s2, (tr1 ++ tr2 ++ []).
    split; [simpl; unfold bind, ret; rewrite E1, E2; reflexivity|].
    split; [destruct K1 as [K1|K1], K2 as [K2|K2]; rewrite ?K2, ?K1; auto|].
    split.
    + intros Hq. destruct (Q1 Hq) as [M1 S1].
      assert (Hq1 : last_message_previews s1 !! c = None
                    \/ last_message_previews s1 !! c = Some p)
        by (destruct K1 as [K1|K1]; rewrite K1; auto).
      destruct (Q2 Hq1) as [M2 S2].
      split; [apply Forall_app; split; assumption|].
      unfold silent_for in *. rewrite app_nil_r. apply Forall_app. split; assumption.
    + intros Hex. apply Exists_app in Hex. destruct Hex as [Hex|Hex].
      * specialize (X1 Hex). destruct K2 as [K2|K2]; rewrite K2; auto.
      * exact (X2 Hex).
Qed.

Lemma check_chats_spec (chats : list ChatElem) (s : t) :
  exists ms s' tr,
    check_chats chats s = (Ok ms, s', tr)
    /\ db s' = db s /\ message_queue s' = message_queue s
    /\ Forall incoming_not_self ms
    /\ Forall (fun e => is_db_save e = false) tr
    /\ Forall (fun m => exists p, In (EvPreviewWrite (chat_name m) p) tr) ms.
Proof.
  revert s. induction chats as [|chat chats IH]; intros s.
  - exists [], s, []. repeat split; constructor.
  - assert (H1 : exists ms1 s1 tr1,
               check_chat chat s = (Ok ms1, s1, tr1)
               /\ db s1 = db s /\ message_queue s1 = message_queue s
               /\ Forall incoming_not_self ms1
               /\ Forall (fun e => is_db_save e = false) tr1
               /\ Forall (fun m => exists p, In (EvPreviewWrite (chat_name m) p) tr1) ms1).
    { destruct (check_chat_cases chat s) as
        [E | [(c & _ & _ & E) | (c & q & ms & s' & tr & _ & _ & _ & E & _ & D & Qu & R & L)]].
      - exists [], s, []. repeat split; first [exact E | constructor].
      - eexists [], _, _. split; [exact E|]. repeat split; repeat constructor.
      - eexists ms, s', _. split; [exact E|]. repeat split; try assumption.
        + eapply Forall_impl; [exact R|]. intros m [_ Hm]; exact Hm.
        + constructor; [reflexivity|]. constructor; [reflexivity|].
          eapply Forall_impl; [exact L|]. intros e [msg ->]. reflexivity.
        + eapply Forall_impl; [exact R|]. intros m [Hm _].
          exists (message_preview_of chat). rewrite Hm. left. reflexivity. }
    destruct H1 as (ms1 & s1 & tr1 & E1 & D1 & Q1 & I1 & N1 & W1).
    destruct (IH s1) as (ms2 & s2 & tr2 & E2 & D2 & Q2 & I2 & N2 & W2).
    exists (ms1 ++ ms2), s2, (tr1 ++ tr2 ++ []).
    split; [simpl; unfold bind, ret; rewrite E1, E2; reflexivity|].
    rewrite app_nil_r.
    repeat split; try congruence.
    + apply Forall_app; split; assumption.
    + apply Forall_app; split; assumption.
    + apply Forall_app; split.
      * eapply Forall_impl; [exact W1|]. intros m [p Hp]. exists p.
        apply in_or_app. left; exact Hp.
      * eapply Forall_impl; [exact W2|]. intros m [p Hp]. exists p.
        apply in_or_app. right; exact Hp.
Qed.

Lemma surface_spec (ms : list WhatsAppMessage) (s : t) :
  exists s', surface ms s = (Ok tt, s', deliver_events ms)
             /\ last_message_previews s' = last_message_previews s.
Proof.
  revert s. induction ms as [|m ms IH]; intros s.
  - exists s. split; reflexivity.
  - simpl. unfold save_message, _trigger_notification, bind, emit, modify.
    cbn [fst snd].
    match goal with
    | |- context [surface ms ?s0] => destruct (IH s0) as (s' & E & F); rewrite E
    end.
    exists s'. split; [reflexivity|]. rewrite F. reflexivity.
Qed.

Lemma monitor_cycle_chats (chats : list ChatElem) (s : t) ms s1 tr :
  check_chats (take 20 chats) s = (Ok ms, s1, tr) ->
  exists s2 tr0,
    monitor_cycle (Ok chats) s = (Ok ms, s2, tr0 ++ deliver_events ms)
    /\ last_message_previews s2 = last_message_previews s1
    /\ (tr0 = tr \/ (chats = [] /\ tr = [] /\ tr0 = no_chats_warning)).
Proof.
  intros E. unfold monitor_cycle, _check_for_new_messages, try_except, bind, call, ret, emit.
  destruct chats as [|chat chats].
  - simpl in E. injection E as <- <- <-. simpl.
    exists s, no_chats_warning. repeat split; auto.
  - cbn [length Nat.ltb Nat.leb]. rewrite E.
    destruct (surface_spec ms s1) as (s2 & Es & F). rewrite Es.
    exists s2, tr. rewrite !app_nil_r. repeat split; auto.
Qed.

Lemma deliver_events_silent (c : string) (ms : list WhatsAppMessage) :
  Forall (fun m => ~ from_chat c m) ms -> silent_for c (deliver_events ms).
Proof.
  unfold silent_for, deliver_events, from_chat.
  induction 1 as [|m ms Hm _ IH]; simpl; [constructor|].
  repeat (constructor; [simpl; congruence|]). exact IH.
Qed.

Lemma monitor_cycle_quiet (chats : list ChatElem) (s : t) (c p : string) :
  shows c p chats ->
  exists ms s' tr,
    monitor_cycle (Ok chats) s = (Ok ms, s', tr)
    /\ (last_message_previews s' !! c = last_message_previews s !! c
        \/ last_message_previews s' !! c = Some p)
    /\ (last_message_previews s !! c = None \/ last_message_previews s !! c = Some p ->
        Forall (fun m => ~ from_chat c m) ms /\ silent_for c tr)
    /\ (Exists (from_chat c) ms -> last_message_previews s' !! c = Some p).
Proof.
  intros Hshow.
  assert (Hshow20 : shows c p (take 20 chats)) by (apply Forall_take; exact Hshow).
  destruct (check_chats_quiet (take 20 chats) s c p Hshow20)
    as (ms & s1 & tr & E & K & Q & X).
  destruct (monitor_cycle_chats chats s ms s1 tr E) as (s2 & tr0 & Em & F & Htr).
  exists ms, s2, (tr0 ++ deliver_events ms). split; [exact Em|]. rewrite !F.
  split; [exact K|]. split; [|exact X].
  intros Hq. destruct (Q Hq) as [Hms Hsil]. split; [exact Hms|].
  unfold silent_for. apply Forall_app. split.
  - destruct Htr as [->|(_ & _ & ->)]; [exact Hsil|].
    repeat constructor. discriminate.
  - apply deliver_events_silent. exact Hms.
Qed.

(** C7. Take a conversation [c] whose entries in the scanned chat list all
    show the preview [p].  If [c] has no stored fingerprint, the poll
    surfaces no message of [c] (it is not opened, nothing of it is stored,
    queued or announced) and at most records [p] as its fingerprint.  If
    the stored fingerprint is [p], the poll surfaces no message of [c] and
    the fingerprint stays [p].  Hence when a poll did surface a message of
    [c] under the preview [p], the next poll, seeing [p] again, surfaces
    none. *)
Theorem unchanged_preview_not_surfaced
    (chats next_chats : list ChatElem) (s : t) (c p : string) :
  shows c p chats ->
  let r := monitor_cycle (Ok chats) s in
  (last_message_previews s !! c = None ->
     Forall (fun m => ~ from_chat c m) (surfaced r) /\ silent_for c (trace_of r)
     /\ (last_message_previews (state_of r) !! c = None
         \/ last_message_previews (state_of r) !! c = Some p))
  /\ (last_message_previews s !! c = Some p ->
     Forall (fun m => ~ from_chat c m) (surfaced r) /\ silent_for c (trace_of r)
     /\ last_message_previews (state_of r) !! c = Some p)
  /\ (Exists (from_chat c) (surfaced r) -> shows c p next_chats ->
     let r2 := monitor_cycle (Ok next_chats) (state_of r) in
     Forall (fun m => ~ from_chat c m) (surfaced r2) /\ silent_for c (trace_of r2)).
Proof.
  intros Hshow r.
  destruct (monitor_cycle_quiet chats s c p Hshow) as (ms & s' & tr & E & K & Q & X).
  subst r. rewrite E. unfold surfaced, result_of, state_of, trace_of. cbn [fst snd].
  split; [|split].
  - intros Hnone. destruct (Q (or_introl Hnone)) as [Hms Hsil].
    repeat split; try assumption.
    destruct K as [K|K]; rewrite K; auto.
  - intros Hsome. destruct (Q (or_intror Hsome)) as [Hms Hsil].
    repeat split; try assumption.
    destruct K as [K|K]; rewrite K; auto.
  - intros Hex Hnext.
    destruct (monitor_cycle_quiet next_chats s' c p Hnext) as (ms2 & s2 & tr2 & E2 & _ & Q2 & _).
    rewrite E2. cbn [fst snd]. apply Q2. right. exact (X Hex).
Qed.

Lemma unchanged_preview_not_surfaced_witness :
  Exists (from_chat "Chen")
    (surfaced (monitor_cycle (Ok [chat_chen "Hey there"]) service_after_baseline))
  /\ Forall (fun m => ~ from_chat "Chen" m)
       (surfaced (monitor_cycle (Ok [chat_chen "Hey there"])
          (state_of (monitor_cycle (Ok [chat_chen "Hey there"]) service_after_baseline)))).
Proof.
  assert (Hshow : shows "Chen" "Hey there" [chat_chen "Hey there"]).
  { constructor; [|constructor]. intros _. vm_compute. reflexivity. }
  assert (Hex : Exists (from_chat "Chen")
            (surfaced (monitor_cycle (Ok [chat_chen "Hey there"]) service_after_baseline)))
    by (vm_compute; left; reflexivity).
  split; [exact Hex|].
  exact (proj1 (proj2 (proj2
    (unchanged_preview_not_surfaced [chat_chen "Hey there"] [chat_chen "Hey there"]
       service_after_baseline "Chen" "Hey there" Hshow)) Hex Hshow)).
Defined.

(** ** C1: order of the fingerprint write and the Chat Store write *)

Lemma monitor_cycle_split (page : Result (list ChatElem)) (s : t) :
  exists ms s' scan,
    monitor_cycle page s = (Ok ms, s', scan ++ deliver_events ms)
    /\ Forall incoming_not_self ms
    /\ Forall (fun e => is_db_save e = false) scan
    /\ Forall (fun m => exists p, In (EvPreviewWrite (chat_name m) p) scan) ms.
Proof.
  destruct page as [chats|exn].
  - destruct (check_chats_spec (take 20 chats) s) as (ms & s1 & tr & E & _ & _ & I & N & W).
    destruct (monitor_cycle_chats chats s ms s1 tr E) as (s2 & tr0 & Em & _ & Htr).
    exists ms, s2, tr0. split; [exact Em|]. split; [exact I|].
    destruct Htr as [->|(_ & -> & ->)]; [split; assumption|].
    split; [repeat constructor|].
    eapply Forall_impl; [exact W|]. intros m [p []].
  - eexists [], s, _. split; [reflexivity|]. repeat split; repeat constructor.
Qed.

Lemma _check_for_new_messages_db (page : Result (list ChatElem)) (s : t) :
  db (state_of (_check_for_new_messages page s)) = db s.
Proof.
  destruct page as [[|chat chats]|exn]; try reflexivity.
  destruct (check_chats_spec (take 20 (chat :: chats)) s) as (ms & s1 & tr & E & D & _).
  unfold _check_for_new_messages, try_except, bind, call, state_of.
  cbn [length Nat.ltb Nat.leb]. rewrite E. cbn [fst snd]. exact D.
Qed.

Lemma deliver_events_no_preview_write (ms : list WhatsAppMessage) :
  Forall (fun e => is_preview_write e = false) (deliver_events ms).
Proof.
  induction ms as [|m ms IH]; simpl; repeat constructor. exact IH.
Qed.

Lemma check_chat_changed (chat : ChatElem) (c q : string) (s : t) :
  preview_changed chat c q s ->
  let p := message_preview_of chat in
  let opened := open_and_read chat c (with_fingerprint c p s) in
  check_chat chat s
  = (Ok (surfaced opened), state_of opened,
     EvPreviewWrite c p :: EvClick c :: trace_of opened).
Proof.
  intros (Hun & Ht & Hc & Hp & Hq & Hne) p opened. subst opened p.
  unfold check_chat. rewrite Hun, Ht. cbn [negb].
  assert (Hc0 : (String.length c =? 0)%nat = false).
  { destruct c; [exfalso; apply Hc; reflexivity|reflexivity]. }
  assert (Hc1 : (String.length (PyStr.strip c) =? 0)%nat = false).
  { destruct (PyStr.strip c); [exfalso; apply Hc; reflexivity|reflexivity]. }
  assert (Hp0 : (String.length (message_preview_of chat) =? 0)%nat = false).
  { destruct (message_preview_of chat); [exfalso; apply Hp; reflexivity|reflexivity]. }
  rewrite Hc0, Hc1, Hp0. cbn [orb].
  unfold open_and_read, with_fingerprint, try_except, bind, gets, emit, modify, call.
  cbn [fst snd]. rewrite Hq.
  destruct (String.eqb_spec q (message_preview_of chat)) as [Heq|_]; [contradiction|].
  destruct (ce_click chat) as [[]|exn]; [|reflexivity].
  destruct (_read_current_chat_messages_spec c (ce_messages chat)
              (set_last_message_previews
                 (<[c := message_preview_of chat]> (last_message_previews s)) s))
    as (ms & s' & tr & E & _).
  rewrite E. reflexivity.
Qed.

Lemma check_chats_app (chats1 chats2 : list ChatElem) (s : t) :
  let r1 := check_chats chats1 s in
  let r2 := check_chats chats2 (state_of r1) in
  check_chats (chats1 ++ chats2) s
  = (Ok (surfaced r1 ++ surfaced r2), state_of r2, trace_of r1 ++ trace_of r2).
Proof.
  revert s. induction chats1 as [|chat chats1 IH]; intros s.
  - cbn. destruct (check_chats_spec chats2 s) as (ms & s' & tr & E & _).
    rewrite E. reflexivity.
  - cbn zeta in IH |- *.
    destruct (check_chats_spec [chat] s) as (ms1 & s1 & tr1 & E1 & _).
    assert (Ec : check_chat chat s = (Ok ms1, s1, tr1)).
    { cbn [check_chats] in E1. unfold bind, ret in E1.
      destruct (check_chat chat s) as [[[ms|exn] s0] tr0]; [|discriminate E1].
      rewrite !app_nil_r in E1. exact E1. }
    destruct (check_chats_spec chats1 s1) as (msa & sa & tra & Ea & _).
    destruct (check_chats_spec chats2 sa) as (msb & sb & trb & Eb & _).
    specialize (IH s1). rewrite Ea in IH.
    unfold surfaced, result_of, state_of, trace_of in IH. cbn [fst snd] in IH.
    rewrite Eb in IH. cbn [fst snd] in IH.
    change ((chat :: chats1) ++ chats2) with (chat :: (chats1 ++ chats2)).
    cbn [check_chats]. unfold bind, ret. rewrite Ec, IH, Ea.
    unfold surfaced, result_of, state_of, trace_of. cbn [fst snd].
    rewrite Eb. cbn [fst snd]. rewrite !app_nil_r, !app_assoc. reflexivity.
Qed.

Lemma open_and_read_trace (chat : ChatElem) (c : string) (s : t) :
  Forall (fun e => is_db_save e = false) (trace_of (open_and_read chat c s))
  /\ Forall (fun e => is_preview_write e = false) (trace_of (open_and_read chat c s)).
Proof.
  unfold open_and_read, bind, call.
  destruct (ce_click chat) as [[]|exn]; [|split; constructor].
  destruct (_read_current_chat_messages_spec c (ce_messages chat) s)
    as (ms & s' & tr & E & _ & _ & L).
  rewrite E. unfold trace_of. cbn [fst snd app].
  split; (eapply Forall_impl; [exact L|]); intros e [msg ->]; reflexivity.
Qed.

(** The scan of a page at a conversation whose preview changed: what was
    done for the entries before it, the fingerprint write, the click, the
    read from the state with the new fingerprint, and then the rest. *)
Lemma check_chats_at_change (before after : list ChatElem) (chat : ChatElem)
    (c q : string) (s : t) :
  let s1 := state_of (check_chats before s) in
  preview_changed chat c q s1 ->
  let p := message_preview_of chat in
  let opened := open_and_read chat c (with_fingerprint c p s1) in
  exists later_ms s' later_scan,
    check_chats (before ++ chat :: after) s
    = (Ok (surfaced (check_chats before s) ++ surfaced opened ++ later_ms), s',
       trace_of (check_chats before s)
       ++ EvPreviewWrite c p :: EvClick c :: trace_of opened ++ later_scan)
    /\ Forall (fun e => is_db_save e = false) later_scan.
Proof.
  intros s1 Hchanged p opened.
  pose proof (check_chat_changed chat c q s1 Hchanged) as Ec. cbn zeta in Ec.
  fold p in Ec. fold opened in Ec.
  destruct (check_chats_spec after (state_of opened))
    as (msl & sl & trl & El & _ & _ & _ & Nl & _).
  exists msl, sl, trl. split; [|exact Nl].
  assert (Etail : check_chats (chat :: after) s1
                  = (Ok (surfaced opened ++ msl), sl,
                     (EvPreviewWrite c p :: EvClick c :: trace_of opened) ++ trl)).
  { cbn [check_chats]. unfold bind, ret. rewrite Ec, El. rewrite !app_nil_r. reflexivity. }
  pose proof (check_chats_app before (chat :: after) s) as Ea. cbn zeta in Ea.
  fold s1 in Ea. rewrite Ea, Etail.
  unfold surfaced, result_of, state_of, trace_of. cbn [fst snd].
  rewrite <- !app_comm_cons. reflexivity.
Qed.

(** C1, as the code has it.  In every poll cycle the fingerprint writes all
    happen during the scan, and the scan stores nothing: when
    [_check_for_new_messages] returns, the Chat Store is as it was.  The
    newly read messages are stored afterwards, by the monitor loop, so each
    stored message is preceded in the cycle by the write of its
    conversation's fingerprint, and no fingerprint is written once storing
    has begun.  For every conversation whose preview changed, at whatever
    place among the 20 scanned entries, the cycle runs in this order: the
    entries before it, the write of the conversation's fingerprint, the
    click that opens the conversation, the read of the opened panel (made
    from the state that already holds the new fingerprint), the remaining
    entries, and only then the storing of what was read. *)
Theorem fingerprint_written_before_store (page : Result (list ChatElem)) (s : t) :
  let r := monitor_cycle page s in
  db (state_of (_check_for_new_messages page s)) = db s
  /\ (exists scan,
       trace_of r = scan ++ deliver_events (surfaced r)
       /\ Forall (fun e => is_db_save e = false) scan
       /\ Forall (fun e => is_preview_write e = false) (deliver_events (surfaced r))
       /\ Forall (fun m => exists p, In (EvPreviewWrite (chat_name m) p) scan) (surfaced r))
  /\ (forall before chat after c q,
        page = Ok (before ++ chat :: after) ->
        (length before < 20)%nat ->
        let s1 := state_of (check_chats before s) in
        preview_changed chat c q s1 ->
        let p := message_preview_of chat in
        let opened := open_and_read chat c (with_fingerprint c p s1) in
        exists later_ms later_scan,
          trace_of r
          = trace_of (check_chats before s)
            ++ EvPreviewWrite c p :: EvClick c :: trace_of opened
            ++ later_scan ++ deliver_events (surfaced r)
          /\ surfaced r
             = surfaced (check_chats before s) ++ surfaced opened ++ later_ms
          /\ Forall (fun e => is_db_save e = false)
               (trace_of (check_chats before s)
                ++ EvPreviewWrite c p :: EvClick c :: trace_of opened ++ later_scan)
          /\ Forall (fun e => is_preview_write e = false)
               (trace_of opened ++ deliver_events (surfaced r))).
Proof.
  intros r. split; [apply _check_for_new_messages_db|]. split.
  - destruct (monitor_cycle_split page s) as (ms & s' & scan & E & _ & N & W).
    subst r. rewrite E. unfold surfaced, result_of, trace_of. cbn [fst snd].
    exists scan. repeat split; try assumption.
    apply deliver_events_no_preview_write.
  - intros before chat after c q -> Hlen s1 Hchanged p opened.
    assert (Htake : take 20 (before ++ chat :: after)
                    = before ++ chat :: take (20 - S (length before)) after).
    { rewrite take_app. rewrite take_ge by lia.
      replace (20 - length before)%nat with (S (20 - S (length before))) by lia.
      reflexivity. }
    destruct (check_chats_at_change before (take (20 - S (length before)) after)
                chat c q s Hchanged)
      as (later_ms & s' & later_scan & E & Nl).
    fold s1 in E. fold p in E. fold opened in E.
    rewrite <- Htake in E.
    destruct (monitor_cycle_chats _ s _ _ _ E) as (s2 & tr0 & Em & _ & Htr).
    destruct Htr as [->|(Hnil & _)]; [|destruct before; discriminate Hnil].
    destruct (open_and_read_trace chat c (with_fingerprint c p s1)) as [No Po].
    fold opened in No, Po.
    destruct (check_chats_spec before s) as (msb & sb & trb & Eb & _ & _ & _ & Nb & _).
    exists later_ms, later_scan.
    assert (Hr : r = (Ok (surfaced (check_chats before s) ++ surfaced opened ++ later_ms),
                      s2,
                      (trace_of (check_chats before s)
                       ++ EvPreviewWrite c p :: EvClick c :: trace_of opened ++ later_scan)
                      ++ deliver_events
                           (surfaced (check_chats before s) ++ surfaced opened ++ later_ms)))
      by exact Em.
    assert (Hs : surfaced r
                 = surfaced (check_chats before s) ++ surfaced opened ++ later_ms)
      by (rewrite Hr; reflexivity).
    split.
    { rewrite Hs. rewrite Hr. unfold trace_of at 1. cbn [snd].
      rewrite <- !app_assoc, <- !app_comm_cons, <- !app_assoc. reflexivity. }
    split; [exact Hs|]. split.
    + apply Forall_app. split.
      * rewrite Eb. exact Nb.
      * constructor; [reflexivity|]. constructor; [reflexivity|].
        apply Forall_app. split; [exact No|exact Nl].
    + apply Forall_app. split; [exact Po|]. apply deliver_events_no_preview_write.
Qed.

Lemma fingerprint_written_before_store_witness :
  exists rest,
    trace_of (monitor_cycle (Ok [chat_chen "Hey there"]) service_after_baseline)
    = EvPreviewWrite "Chen" "Hey there" :: EvClick "Chen" :: rest
    /\ Exists (fun e => is_db_save e = true) rest.
Proof.
  destruct (proj2 (proj2 (fingerprint_written_before_store
              (Ok [chat_chen "Hey there"]) service_after_baseline))
            [] (chat_chen "Hey there") [] "Chen" "see you" eq_refl ltac:(cbn; lia))
    as (later_ms & later_scan & Htrace & _).
  - vm_compute. repeat split; discriminate.
  - eexists. split; [rewrite Htrace; reflexivity|].
    apply Exists_app. right. apply Exists_app. right.
    vm_compute. left. reflexivity.
Defined.

(** C1, as the specification words it, fails: with Chen's fingerprint "see you"
    stored and the preview now "Hey there", the cycle writes the fingerprint
    first and stores the message it then reads afterwards. *)
Lemma store_then_fingerprint_fails :
  ~ (forall page s, store_then_fingerprint (trace_of (monitor_cycle page s)) = true).
Proof.
  intros H.
  specialize (H (Ok [chat_chen "Hey there"]) service_after_baseline).
  vm_compute in H. discriminate H.
Qed.

(** ** C6 on the Selenium path *)

Lemma selenium_surfaces_only_incoming (page : Result (list ChatElem)) (s : t) :
  Forall incoming_not_self (surfaced (monitor_cycle page s)).
Proof.
  destruct (monitor_cycle_split page s) as (ms & s' & scan & E & I & _).
  rewrite E. exact I.
Qed.
End ChangeDetector.

(** ** C2: the pending reply slot *)


Lemma count_events_app (f : Event -> bool) (tr1 tr2 : list Event) :
  count_events f (tr1 ++ tr2) = (count_events f tr1 + count_events f tr2)%nat.
Proof. induction tr1 as [|e tr1 IH]; simpl; [reflexivity|]. rewrite IH. lia. Qed.

Lemma send_targets_app (tr1 tr2 : list Event) :
  send_targets (tr1 ++ tr2) = send_targets tr1 ++ send_targets tr2.
Proof.
  induction tr1 as [|e tr1 IH]; simpl; [reflexivity|].
  destruct e; simpl; rewrite ?IH; reflexivity.
Qed.





(** ** C3: malformed decision responses *)

Lemma decision_short_response (env : Env) (n : WhatsAppNotification) (a : FridayApp)
    (system_prompt response : string) :
  prompt_txt env = Some system_prompt ->
  (forall messages, chat_completion env messages = Ok response) ->
  (length (parse_lines response) < 3)%nat ->
  exists messages msg,
    _process_whatsapp_with_ai env n a = (Ok tt, a, [EvCompletion messages; EvLogError msg]).
Proof.
  intros Hprompt Hresp Hshort.
  unfold _process_whatsapp_with_ai, try_except, bind, gets, emit, call.
  rewrite Hprompt. cbn [fst snd]. rewrite Hresp. cbn [fst snd].
  apply Nat.ltb_lt in Hshort. rewrite Hshort.
  eexists _, _. reflexivity.
Qed.

Lemma decision_not_yes_sets_slot (env : Env) (n : WhatsAppNotification) (a : FridayApp)
    (system_prompt response : string) :
  prompt_txt env = Some system_prompt ->
  (forall messages, chat_completion env messages = Ok response) ->
  (3 <= length (parse_lines response))%nat ->
  is_yes (line_at 1 (parse_lines response)) = false ->
  let r := _process_whatsapp_with_ai env n a in
  waiting_for_whatsapp_reply (state_of r) = true
  /\ pending_whatsapp_message (state_of r) = Some (pending_of n)
  /\ count_events is_send (trace_of r) = 0%nat.
Proof.
  intros Hprompt Hresp Hlong Hno r. subst r.
  unfold _process_whatsapp_with_ai, try_except, bind, gets, emit, call, modify, tts_speak, ret.
  rewrite Hprompt. cbn [fst snd]. rewrite Hresp. cbn [fst snd].
  destruct (Nat.ltb_spec (length (parse_lines response)) 3) as [Hlt|_]; [lia|].
  rewrite Hno.
  destruct (is_yes (line_at 0 (parse_lines response))); cbn [fst snd].
  - destruct (speak env _) as [[]|exn]; cbn; repeat split; reflexivity.
  - cbn. repeat split; reflexivity.
Qed.

Lemma decision_short_auto_reply (env : Env) (n : WhatsAppNotification) (a : FridayApp)
    (system_prompt response : string) :
  prompt_txt env = Some system_prompt ->
  (forall messages, chat_completion env messages = Ok response) ->
  (3 <= length (parse_lines response) < 5)%nat ->
  is_yes (line_at 1 (parse_lines response)) = true ->
  exists messages msg,
    _process_whatsapp_with_ai env n a = (Ok tt, a, [EvCompletion messages; EvLogError msg]).
Proof.
  intros Hprompt Hresp [Hlo Hhi] Hyes.
  unfold _process_whatsapp_with_ai, try_except, bind, gets, emit, call.
  rewrite Hprompt. cbn [fst snd]. rewrite Hresp. cbn [fst snd].
  destruct (Nat.ltb_spec (length (parse_lines response)) 3) as [Hlt|_]; [lia|].
  rewrite Hyes.
  destruct (Nat.ltb_spec (length (parse_lines response)) 5) as [_|Hge]; [|lia].
  eexists _, _. reflexivity.
Qed.

Lemma hard_failure_of_abort (a : FridayApp) (r : Result unit * FridayApp * list Event)
    (messages : list (string * string)) (msg : string) :
  r = (Ok tt, a, [EvCompletion messages; EvLogError msg]) -> hard_failure a r.
Proof. intros ->. repeat split. Qed.

(** C3, as the code has it.  A decision response with fewer than 3
    non-empty lines makes the engine log an error and stop: there is no
    partial action and no Pending Reply Slot (the application state is
    untouched), nothing is sent, and the completion service was asked once
    and is not asked again.  Lines 1 and 2 are never rejected: a line that
    is not YES (trimmed, in any letter case) is read as NO, so a response
    with at least 3 lines whose line 2 is not YES sets the Pending Reply
    Slot for the notification and sends nothing. *)
Theorem decision_format_handling (env : Env) (n : WhatsAppNotification) (a : FridayApp)
    (system_prompt response : string) :
  prompt_txt env = Some system_prompt ->
  (forall messages, chat_completion env messages = Ok response) ->
  let lines := parse_lines response in
  let r := _process_whatsapp_with_ai env n a in
  ((length lines < 3)%nat ->
     hard_failure a r /\ exists msg, In (EvLogError msg) (trace_of r))
  /\ ((3 <= length lines)%nat -> is_yes (line_at 1 lines) = false ->
     waiting_for_whatsapp_reply (state_of r) = true
     /\ pending_whatsapp_message (state_of r) = Some (pending_of n)
     /\ count_events is_send (trace_of r) = 0%nat).
Proof.
  intros Hprompt Hresp lines r. split.
  - intros Hshort.
    destruct (decision_short_response env n a _ _ Hprompt Hresp Hshort) as (ms & msg & E).
    split; [eapply hard_failure_of_abort; exact E|].
    exists msg. subst r. rewrite E. right. left. reflexivity.
  - intros Hlong Hno.
    exact (decision_not_yes_sets_slot env n a _ _ Hprompt Hresp Hlong Hno).
Qed.

Lemma decision_format_handling_witness :
  (length (parse_lines two_line_response) < 3)%nat
  /\ hard_failure init_app
       (_process_whatsapp_with_ai (env_with two_line_response true)
          notification_chen init_app).
Proof.
  assert (Hshort : (length (parse_lines two_line_response) < 3)%nat)
    by (vm_compute; lia).
  split; [exact Hshort|].
  exact (proj1 (proj1
    (decision_format_handling (env_with two_line_response true) notification_chen
       init_app "You are Jarvis." two_line_response eq_refl (fun _ => eq_refl)) Hshort)).
Defined.

(** C3, as the specification words it, fails twice.  The response
    MAYBE / PERHAPS / summary has three non-empty lines whose first two read
    neither YES nor NO, and the engine sets the Pending Reply Slot instead
    of failing.  And the message is not left unread: the connector the
    application runs builds every message it reports with [is_read=True],
    so after the hard failure on a two-line response the message of the
    notification is marked read. *)
Lemma unparseable_lines_are_not_a_failure :
  ~ (forall env n a system_prompt response,
       prompt_txt env = Some system_prompt ->
       (forall messages, chat_completion env messages = Ok response) ->
       (length (parse_lines response) < 3)%nat
       \/ parses_yes_no (line_at 0 (parse_lines response)) = false
       \/ parses_yes_no (line_at 1 (parse_lines response)) = false ->
       hard_failure a (_process_whatsapp_with_ai env n a))
  /\ ~ (forall env now msg_data a system_prompt response,
          prompt_txt env = Some system_prompt ->
          (forall messages, chat_completion env messages = Ok response) ->
          (length (parse_lines response) < 3)%nat ->
          let m := WhatsAppWebJSService.to_message now msg_data in
          hard_failure a (_process_whatsapp_with_ai env
                            (WhatsAppWebJSService.make_notification m) a)
          /\ unread m).
Proof.
  split.
  - intros H.
    specialize (H (env_with (lines3 "MAYBE" "PERHAPS" "Chen asks about 3pm") true)
                  notification_chen init_app "You are Jarvis."
                  (lines3 "MAYBE" "PERHAPS" "Chen asks about 3pm")
                  eq_refl (fun _ => eq_refl)).
    destruct H as [Hstate _].
    + right. left. vm_compute. reflexivity.
    + apply (f_equal waiting_for_whatsapp_reply) in Hstate.
      vm_compute in Hstate. discriminate Hstate.
  - intros H.
    specialize (H (env_with two_line_response true) 1762164000%Z chen_message_data
                  init_app "You are Jarvis." two_line_response
                  eq_refl (fun _ => eq_refl)).
    destruct H as [_ Hunread]; [vm_compute; lia|].
    vm_compute in Hunread. discriminate Hunread.
Qed.

(** ** C5: failed sends *)

Lemma rewrite_failure_is_surfaced (env : Env) (txt : string) (a : FridayApp)
    (p : PendingMessage) (answer : string) :
  pending_whatsapp_message a = Some p ->
  (forall messages, chat_completion env messages = Ok answer) ->
  (forall c m, send_message env c m = false) ->
  In (EvGui (icon_cross +:+ " Failed to send message to " +:+ sender p))
     (trace_of (_rewrite_and_send_whatsapp_reply env txt a)).
Proof.
  intros Hp Hans Hfail.
  unfold _rewrite_and_send_whatsapp_reply, try_except, bind, gets, emit, call,
    whatsapp_send, modify, ret.
  rewrite Hp. cbn [fst snd]. rewrite Hans. cbn [fst snd]. rewrite Hfail.
  cbn. auto 10.
Qed.

Lemma direct_send_failure_is_surfaced (env : Env) (c m : string) (a : FridayApp) :
  send_message env c m = false ->
  _send_whatsapp_message env c m a =
  (Ok tt, a, [EvSend c m; EvGui (icon_cross +:+ " Failed to send WhatsApp message to " +:+ c)]).
Proof.
  intros Hfail.
  unfold _send_whatsapp_message, try_except, bind, whatsapp_send, emit, ret.
  cbn [fst snd]. rewrite Hfail. reflexivity.
Qed.

(** C5 at the failing input: the decision YES / YES / Chen / On my way /
    summary with a dispatcher that fails.  The auto-reply path asks the
    dispatcher once and ends on an error log line; nothing is shown or
    spoken and the application state is unchanged. *)
Theorem auto_reply_failure_only_logged :
  let r := _process_whatsapp_with_ai
             (env_with (lines5 "YES" "YES" "Chen" "On my way"
                               "Told Chen you are on your way") false)
             notification_chen init_app in
  send_targets (trace_of r) = ["Chen"]
  /\ count_events is_user_visible (trace_of r) = 0%nat
  /\ last (trace_of r) = Some (EvLogError (icon_ballot +:+ " Failed to send auto-reply"))
  /\ state_of r = init_app.
Proof. vm_compute. repeat split. Qed.

(** ** C10: the 100-character preview *)

Lemma slice_to_length (n : nat) (s : string) :
  (n <= String.length s)%nat -> String.length (PyStr.slice_to n s) = n.
Proof.
  unfold PyStr.slice_to. revert s. induction n as [|n IH]; intros s Hn.
  - destruct s; reflexivity.
  - destruct s as [|c s]; simpl in *; [lia|]. rewrite IH by lia. reflexivity.
Qed.

Lemma slice_to_prefix (n : nat) (s : string) :
  String.prefix (PyStr.slice_to n s) s = true.
Proof.
  unfold PyStr.slice_to. revert s. induction n as [|n IH]; intros s.
  - destruct s; reflexivity.
  - destruct s as [|c s]; simpl; [reflexivity|].
    destruct (ascii_dec c c) as [_|Hne]; [apply IH|congruence].
Qed.

Lemma decision_slot_outcomes (env : Env) (n : WhatsAppNotification) (a : FridayApp) :
  let r := _process_whatsapp_with_ai env n a in
  pending_whatsapp_message (state_of r) = pending_whatsapp_message a
  \/ pending_whatsapp_message (state_of r) = Some (pending_of n).
Proof.
  unfold _process_whatsapp_with_ai, try_except, bind, gets, emit, call, modify,
    tts_speak, whatsapp_send, ret, _add_to_conversation_history.
  destruct (prompt_txt env) as [system_prompt|]; cbn [fst snd]; [|left; reflexivity].
  destruct (chat_completion env _) as [response|exn]; cbn [fst snd]; [|left; reflexivity].
  destruct (length (parse_lines response) <? 3)%nat; cbn [fst snd]; [left; reflexivity|].
  destruct (is_yes (line_at 1 (parse_lines response))).
  - destruct (length (parse_lines response) <? 5)%nat; cbn [fst snd]; [left; reflexivity|].
    destruct (send_message env _ _); cbn [fst snd]; [|left; reflexivity].
    destruct (is_yes (line_at 0 (parse_lines response))); cbn [fst snd];
      [|left; reflexivity].
    destruct (speak env _) as [[]|exn]; left; reflexivity.
  - destruct (is_yes (line_at 0 (parse_lines response))); cbn [fst snd];
      [|right; reflexivity].
    destruct (speak env _) as [[]|exn]; right; reflexivity.
Qed.

Lemma decision_prompt_of_notification (env : Env) (n : WhatsAppNotification) (a : FridayApp)
    (messages : list (string * string)) :
  In (EvCompletion messages) (trace_of (_process_whatsapp_with_ai env n a)) ->
  exists system_prompt history user_ctx,
    messages = [("system", system_prompt);
                ("user", decision_user_message (time_context env) history user_ctx n)].
Proof.
  unfold _process_whatsapp_with_ai, try_except, bind, gets, emit, call, modify,
    tts_speak, whatsapp_send, ret, _add_to_conversation_history.
  destruct (prompt_txt env) as [system_prompt|]; cbn [fst snd];
    [|intros [H|[]]; discriminate H].
  destruct (chat_completion env _) as [response|exn]; cbn [fst snd].
  - destruct (length (parse_lines response) <? 3)%nat; cbn [fst snd].
    { intros [H|[H|[]]]; [|discriminate H]. injection H as <-. eauto. }
    destruct (is_yes (line_at 1 (parse_lines response))).
    + destruct (length (parse_lines response) <? 5)%nat; cbn [fst snd].
      { intros [H|[H|[]]]; [|discriminate H]. injection H as <-. eauto. }
      destruct (send_message env _ _); cbn [fst snd].
      * destruct (is_yes (line_at 0 (parse_lines response))); cbn [fst snd].
        -- destruct (speak env _) as [[]|exn]; cbn;
             intros H; repeat (destruct H as [H|H]; [try discriminate H|]);
             try contradiction; injection H as <-; eauto.
        -- cbn. intros H; repeat (destruct H as [H|H]; [try discriminate H|]);
             try contradiction; injection H as <-; eauto.
      * cbn. intros H; repeat (destruct H as [H|H]; [try discriminate H|]);
          try contradiction; injection H as <-; eauto.
    + destruct (is_yes (line_at 0 (parse_lines response))); cbn [fst snd].
      * destruct (speak env _) as [[]|exn]; cbn;
          intros H; repeat (destruct H as [H|H]; [try discriminate H|]);
          try contradiction; injection H as <-; eauto.
      * cbn. intros H; repeat (destruct H as [H|H]; [try discriminate H|]);
          try contradiction; injection H as <-; eauto.
  - cbn. intros H; repeat (destruct H as [H|H]; [try discriminate H|]);
      try contradiction; injection H as <-; eauto.
Qed.

(** C10. For a message whose content is longer than 100 characters, both
    connectors build the same notification, whose preview is the first 100
    characters of the content and not the content.  The decision engine
    works from that notification: every request it sends to the completion
    service carries the line "Message: " followed by this prefix, and when
    it sets the Pending Reply Slot the stored original message is this
    prefix. *)
Theorem long_message_truncated (env : Env) (a : FridayApp) (m : WhatsAppMessage) :
  (100 < String.length (content m))%nat ->
  let n := WhatsAppWebJSService.make_notification m in
  let shown := PyStr.slice_to 100 (content m) in
  WhatsAppService.make_notification m = n
  /\ message_preview n = shown
  /\ String.length shown = 100%nat
  /\ String.prefix shown (content m) = true
  /\ shown <> content m
  /\ (forall messages,
        In (EvCompletion messages) (trace_of (_process_whatsapp_with_ai env n a)) ->
        exists system_prompt before after,
          messages = [("system", system_prompt);
                      ("user", before +:+ "Message: " +:+ shown +:+ after)])
  /\ (pending_whatsapp_message (state_of (_process_whatsapp_with_ai env n a))
        = pending_whatsapp_message a
      \/ pending_whatsapp_message (state_of (_process_whatsapp_with_ai env n a))
        = Some {| contact := chat_name m; sender := sender_name m;
                  original_message := shown |}).
Proof.
  intros Hlong n shown.
  assert (Hlen : String.length shown = 100%nat) by (apply slice_to_length; lia).
  split; [reflexivity|]. split; [reflexivity|]. split; [exact Hlen|].
  split; [apply slice_to_prefix|]. split.
  - intros Heq. rewrite Heq in Hlen. lia.
  - split.
    + intros messages Hin.
      destruct (decision_prompt_of_notification env n a messages Hin)
        as (system_prompt & history & user_ctx & ->).
      exists system_prompt,
        (decision_header (time_context env) history user_ctx n),
        decision_instructions.
      reflexivity.
    + exact (decision_slot_outcomes env n a).
Qed.

Lemma long_message_truncated_witness :
  (100 < String.length (content long_message))%nat
  /\ message_preview (WhatsAppWebJSService.make_notification long_message)
     = PyStr.slice_to 100 (content long_message).
Proof.
  assert (Hlong : (100 < String.length (content long_message))%nat)
    by (vm_compute; lia).
  split; [exact Hlong|].
  exact (proj1 (proj2
    (long_message_truncated (env_with EmptyString true) init_app long_message Hlong))).
Defined.

(** ** C4 and C6 on the HTTP bridge connector *)

(** C6 at the failing input: the bridge reports one message with
    [isFromMe] true.  The monitor hands it on, flagged incoming and
    self-authored at once, and announces it to the callbacks; the
    application's callback starts a decision for it. *)
Theorem webjs_surfaces_self_authored :
  let r := WhatsAppWebJSService.monitor_cycle 1762164000 (Ok (200%nat, [own_message_data]))
             WhatsAppWebJSService.init in
  exists m,
    surfaced r = [m]
    /\ is_from_me m = true /\ direction m = INCOMING
    /\ trace_of r = [EvHttpGet "/messages/new";
                     EvNotification (WhatsAppWebJSService.make_notification m)]
    /\ In (EvSpawnDecision (WhatsAppWebJSService.make_notification m))
          (trace_of (_on_whatsapp_notification
                       (WhatsAppWebJSService.make_notification m) init_app)).
Proof. eexists. vm_compute. repeat split. left. reflexivity. Qed.

(** C4 at the failing input: the bridge finds the contact and answers 200
    to the send.  [send_message] returns true having made two HTTP requests
    and nothing else: no message record is built or stored. *)
Theorem webjs_send_persists_nothing :
  WhatsAppWebJSService.send_message
    (Ok (200%nat, [("4915112345678@c.us", "Chen")])) (Ok (200%nat, EmptyString))
    "Chen" "On my way" WhatsAppWebJSService.init
  = (Ok true, WhatsAppWebJSService.init,
     [EvHttpPost "/contacts/search" [("query", "Chen")];
      EvHttpPost "/messages/send" [("chatId", "4915112345678@c.us"); ("message", "On my way")]]).
Proof. vm_compute. reflexivity. Qed.

(** ** C4 on the Selenium connector *)

Section Dispatcher.
Import WhatsAppService.

Lemma attempt_body_cases (c msg : string) (a : SendAttempt) (s : t) :
  (exists tr,
     attempt_body c msg a s =
       (Ok true, set_db (<[sa_sent_uuid a := sent_message c msg a]> (db s)) s,
        tr ++ [EvDbSave (sent_message c msg a)]))
  \/ (exists tr, attempt_body c msg a s = (Ok false, s, tr))
  \/ (exists e tr, attempt_body c msg a s = (Raise e, s, tr)).
Proof.
  unfold attempt_body, save_message, bind, emit, call, modify, ret, raise.
  destruct (sa_search_box a) as [[]|e]; cbn [fst snd]; [|right; right; eauto].
  destruct (sa_contact a) as [| |e]; cbn [fst snd];
    [|right; left; eauto|right; right; eauto].
  destruct (sa_contact_click a) as [| |e]; cbn [fst snd];
    [|right; left; eauto|right; right; eauto].
  destruct (sa_message_box a) as [[]|e]; cbn [fst snd]; [|right; right; eauto].
  destruct (sa_type_and_enter a) as [[]|e]; cbn [fst snd]; [|right; right; eauto].
  left. eexists [_; _; _]. reflexivity.
Qed.

Lemma recover_spec (retries attempt : nat) (a : SendAttempt) (e : string) (s : t) :
  exists tr, recover retries attempt a e s = (Ok tt, s, tr).
Proof.
  unfold recover, bind, emit, ret, try_except, call. cbn [fst snd].
  destruct (attempt <? retries - 1)%nat; cbn [fst snd]; [|eauto].
  destruct (sa_refresh a) as [[]|e']; cbn [fst snd]; eauto.
Qed.

Lemma attempt_once_cases (c msg : string) (retries attempt : nat) (a : SendAttempt) (s : t) :
  (exists tr,
     attempt_once c msg retries attempt a s =
       (Ok (Some true), set_db (<[sa_sent_uuid a := sent_message c msg a]> (db s)) s,
        tr ++ [EvDbSave (sent_message c msg a)]))
  \/ (exists tr, attempt_once c msg retries attempt a s = (Ok (Some false), s, tr))
  \/ (exists tr, attempt_once c msg retries attempt a s = (Ok None, s, tr)).
Proof.
  unfold attempt_once.
  destruct (attempt_body_cases c msg a s) as [(tr & E) | [(tr & E) | (e & tr & E)]].
  - left. exists tr. apply try_except_ok.
    rewrite (bind_ok _ _ _ _ _ _ _ _ _ E eq_refl). rewrite app_nil_r. reflexivity.
  - right; left. eexists. apply try_except_ok.
    exact (bind_ok _ _ _ _ _ _ _ _ _ E eq_refl).
  - right; right. destruct (recover_spec retries attempt a e s) as (tr' & Er).
    eexists. eapply try_except_raise.
    + exact (bind_raise _ _ _ _ _ _ E).
    + exact (bind_ok _ _ _ _ _ _ _ _ _ Er eq_refl).
Qed.

Lemma send_loop_persists (c msg : string) (retries : nat) (attempts : list SendAttempt)
    (attempt : nat) (s : t) :
  result_of (send_loop c msg retries attempt attempts s) = Ok true ->
  exists a,
    In a attempts
    /\ db (state_of (send_loop c msg retries attempt attempts s)) !! sa_sent_uuid a
       = Some (sent_message c msg a)
    /\ last (trace_of (send_loop c msg retries attempt attempts s))
       = Some (EvDbSave (sent_message c msg a)).
Proof.
  revert attempt s. induction attempts as [|a attempts IH]; intros attempt s.
  - cbn. discriminate.
  - cbn [send_loop]. unfold bind.
    destruct (attempt_once_cases c msg retries attempt a s)
      as [(tr & E) | [(tr & E) | (tr & E)]]; rewrite E.
    + intros _. exists a. split; [left; reflexivity|].
      unfold ret, state_of, trace_of. cbn [fst snd]. rewrite app_nil_r.
      split; [apply lookup_insert_eq|]. apply last_snoc.
    + cbn. discriminate.
    + destruct (send_loop c msg retries (S attempt) attempts s) as [[r s'] tr''] eqn:El.
      specialize (IH (S attempt) s). rewrite El in IH.
      unfold result_of, state_of, trace_of in *. cbn [fst snd] in *.
      intros Hr. destruct (IH Hr) as (a' & Hin & Hdb & Hlast).
      exists a'. split; [right; exact Hin|]. split; [exact Hdb|].
      destruct tr'' as [|e0 tr'']; [discriminate Hlast|].
      rewrite last_app, Hlast. reflexivity.
Qed.

(** The Selenium dispatcher does what the HTTP bridge dispatcher omits: a
    call that returns true has stored the outgoing record, and storing it
    was its last effect. *)
Lemma selenium_send_persists (browser : nat -> SendAttempt) (c msg : string)
    (retries : nat) (s : t) :
  result_of (send_message browser c msg retries s) = Ok true ->
  exists m,
    In m (map snd (map_to_list (db (state_of (send_message browser c msg retries s)))))
    /\ direction m = OUTGOING /\ is_from_me m = true /\ content m = msg
    /\ chat_name m = c
    /\ last (trace_of (send_message browser c msg retries s)) = Some (EvDbSave m).
Proof.
  unfold send_message. intros Hr.
  destruct (send_loop_persists c msg retries _ 0 s Hr) as (a & _ & Hdb & Hlast).
  exists (sent_message c msg a). split.
  - apply in_map_iff. exists (sa_sent_uuid a, sent_message c msg a).
    split; [reflexivity|]. apply list_elem_of_In, elem_of_map_to_list. exact Hdb.
  - repeat split; try reflexivity. exact Hlast.
Qed.

End Dispatcher.

(** ** C2: from the SHOULD_SEND=NO outcome to the next utterance *)



(** * Properties of the further code *)

(** ** The Selenium dispatcher *)

Section DispatcherMore.
Import WhatsAppService.

Lemma selenium_send_persists_witness :
  result_of (send_message browser_flaky "Chen" "On my way" 3 init) = Ok true
  /\ exists m,
       last (trace_of (send_message browser_flaky "Chen" "On my way" 3 init))
         = Some (EvDbSave m)
       /\ content m = "On my way".
Proof.
  assert (Hr : result_of (send_message browser_flaky "Chen" "On my way" 3 init) = Ok true)
    by (vm_compute; reflexivity).
  split; [exact Hr|].
  destruct (selenium_send_persists browser_flaky "Chen" "On my way" 3 init Hr)
    as (m & _ & _ & _ & Hc & _ & Hlast).
  exists m. split; assumption.
Defined.

(** When the contact is not found in the first attempt, [send_message]
    returns False at once: no retry, no page refresh, nothing stored, even
    though attempts are left. *)
Theorem send_gives_up_on_unknown_contact
    (browser : nat -> SendAttempt) (c msg : string) (retries : nat) (s : t) :
  (0 < retries)%nat ->
  sa_search_box (browser 0%nat) = Ok tt ->
  sa_contact (browser 0%nat) = ContactTimeout ->
  send_message browser c msg retries s =
  (Ok false, s, [EvBrowser "search"; EvLogError ("Contact '" +:+ c +:+ "' not found")]).
Proof.
  intros Hpos Hbox Hto. unfold send_message.
  destruct retries as [|n]; [lia|]. cbn [seq map send_loop].
  assert (E : attempt_once c msg (S n) 0 (browser 0%nat) s =
              (Ok (Some false), s,
               [EvBrowser "search"; EvLogError ("Contact '" +:+ c +:+ "' not found")])).
  { unfold attempt_once. apply try_except_ok.
    unfold attempt_body, bind, emit, call, ret. rewrite Hbox, Hto. reflexivity. }
  unfold bind. rewrite E. reflexivity.
Qed.

Lemma send_gives_up_on_unknown_contact_witness :
  send_message (fun _ => attempt_unknown) "Nobody" "hello" 3 init =
  (Ok false, init, [EvBrowser "search"; EvLogError "Contact 'Nobody' not found"]).
Proof.
  apply (send_gives_up_on_unknown_contact (fun _ => attempt_unknown) "Nobody" "hello" 3 init).
  - lia.
  - reflexivity.
  - reflexivity.
Defined.

Lemma attempt_body_raises (c msg : string) (a : SendAttempt) (s : t) (e : string) :
  result_of (attempt_body c msg a s) = Raise e ->
  exists tr,
    attempt_body c msg a s = (Raise e, s, tr)
    /\ count_events is_refresh tr = 0%nat
    /\ count_events is_db_save tr = 0%nat.
Proof.
  unfold attempt_body, save_message, bind, emit, call, modify, ret, raise, result_of.
  destruct (sa_search_box a) as [[]|e0]; cbn [fst snd];
    [|intros [= ->]; eexists; repeat split].
  destruct (sa_contact a) as [| |e0]; cbn [fst snd];
    [|discriminate|intros [= ->]; eexists; repeat split].
  destruct (sa_contact_click a) as [| |e0]; cbn [fst snd];
    [|discriminate|intros [= ->]; eexists; repeat split].
  destruct (sa_message_box a) as [[]|e0]; cbn [fst snd];
    [|intros [= ->]; eexists; repeat split].
  destruct (sa_type_and_enter a) as [[]|e0]; cbn [fst snd];
    [discriminate|intros [= ->]; eexists; repeat split].
Qed.

Lemma send_loop_all_raise (browser : nat -> SendAttempt) (c msg : string)
    (retries n k : nat) (s : t) :
  (k + n = retries)%nat ->
  (forall i, (i < retries)%nat ->
     exists e, result_of (attempt_body c msg (browser i) s) = Raise e) ->
  exists tr,
    send_loop c msg retries k (map browser (seq k n)) s = (Ok false, s, tr)
    /\ count_events is_refresh tr = pred n
    /\ count_events is_db_save tr = 0%nat.
Proof.
  intros Hkn Hraise. revert k Hkn. induction n as [|n IH]; intros k Hkn.
  - cbn. eexists. split; [reflexivity|]. repeat split.
  - cbn [seq map send_loop].
    destruct (Hraise k ltac:(lia)) as (e & He).
    destruct (attempt_body_raises c msg (browser k) s e He) as (trb & Hbody & Cbr & Cbd).
    destruct (IH (S k) ltac:(lia)) as (tr' & El & Cr & Cd).
    assert (Hrec : exists trr,
               recover retries k (browser k) e s = (Ok tt, s, trr)
               /\ count_events is_refresh trr = (if (k <? retries - 1)%nat then 1 else 0)%nat
               /\ count_events is_db_save trr = 0%nat).
    { unfold recover, bind, emit, ret, try_except, call. cbn [fst snd].
      destruct (k <? retries - 1)%nat; cbn [fst snd].
      - destruct (sa_refresh (browser k)) as [[]|e']; cbn [fst snd];
          eexists; (split; [reflexivity|]); repeat split.
      - eexists; (split; [reflexivity|]); repeat split. }
    destruct Hrec as (trr & Er & Crr & Cdr).
    assert (Honce : attempt_once c msg retries k (browser k) s =
                    (Ok None, s, trb ++ (trr ++ []))).
    { unfold attempt_once. eapply try_except_raise.
      - exact (bind_raise _ _ _ _ _ _ Hbody).
      - exact (bind_ok _ _ _ _ _ _ _ _ _ Er eq_refl). }
    exists ((trb ++ (trr ++ [])) ++ tr').
    split; [exact (bind_ok _ _ _ _ _ _ _ _ _ Honce El)|].
    assert (Hlt : (if (k <? retries - 1)%nat then 1 else 0)%nat
                  = (match n with O => 0 | S _ => 1 end)%nat).
    { destruct n as [|n'].
      - replace (k <? retries - 1)%nat with false; [reflexivity|].
        symmetry. apply Nat.ltb_ge. lia.
      - replace (k <? retries - 1)%nat with true; [reflexivity|].
        symmetry. apply Nat.ltb_lt. lia. }
    rewrite Hlt in Crr.
    rewrite app_nil_r, !count_events_app, Cbr, Cbd, Crr, Cr, Cdr, Cd.
    split; destruct n; reflexivity.
Qed.

(** When every attempt raises, wherever it does (at the search box, at the
    contact lookup or the click with an exception other than a timeout, at
    the message box or while typing), [send_message] returns False after
    [retries] attempts, having refreshed the page between attempts but not
    after the last one ([retries - 1] times), and having stored nothing;
    the service is as it was. *)
Theorem send_exhausts_retries
    (browser : nat -> SendAttempt) (c msg : string) (retries : nat) (s : t) :
  (forall i, (i < retries)%nat ->
     exists e, result_of (attempt_body c msg (browser i) s) = Raise e) ->
  let r := send_message browser c msg retries s in
  result_of r = Ok false
  /\ state_of r = s
  /\ count_events is_refresh (trace_of r) = pred retries
  /\ count_events is_db_save (trace_of r) = 0%nat.
Proof.
  intros Hraise r. subst r. unfold send_message.
  destruct (send_loop_all_raise browser c msg retries retries 0 s eq_refl Hraise)
    as (tr & E & Cr & Cd).
  rewrite E. repeat split; assumption.
Qed.

Lemma send_exhausts_retries_witness :
  result_of (send_message browser_failing "Chen" "On my way" 3 init) = Ok false
  /\ count_events is_refresh
       (trace_of (send_message browser_failing "Chen" "On my way" 3 init)) = 2%nat.
Proof.
  assert (H : forall i, (i < 3)%nat ->
            exists e, result_of (attempt_body "Chen" "On my way" (browser_failing i) init)
                      = Raise e).
  { intros [|[|[|i]]] Hi; [eexists; reflexivity ..|lia]. }
  pose proof (send_exhausts_retries browser_failing "Chen" "On my way" 3 init H) as R.
  cbv zeta in R. destruct R as (R1 & _ & R3 & _). split; assumption.
Defined.

End DispatcherMore.

(** ** The Selenium reader and monitor *)

Section ReaderMore.
Import WhatsAppService.

Lemma read_message_same_text (c txt : string) (e : MsgElem) (s : t) :
  last_seen_messages s !! c = Some txt ->
  elem_text e = txt ->
  read_message c e s = (Ok [], s, []).
Proof.
  intros Hseen Htxt. unfold read_message, try_except, bind, call, gets, modify, ret.
  destruct (me_class e) as [cls|exn]; cbn [fst snd]; [|reflexivity].
  unfold elem_text in Htxt. rewrite Hseen.
  destruct (me_text e) as [t0|]; subst txt;
    (rewrite decide_True by reflexivity); reflexivity.
Qed.

(** Message-level dedup: when the last text seen in a conversation is
    [txt] and every message element of the open panel shows [txt], reading
    the panel surfaces nothing and changes nothing. *)
Theorem reader_skips_last_seen_text (c txt : string) (es : list MsgElem) (s : t) :
  last_seen_messages s !! c = Some txt ->
  Forall (fun e => elem_text e = txt) es ->
  _read_current_chat_messages c (Ok es) s = (Ok [], s, []).
Proof.
  intros Hseen Hall.
  assert (Hrec : forall l, Forall (fun e => elem_text e = txt) l ->
                           read_messages c l s = (Ok [], s, [])).
  { induction 1 as [|e l He _ IH]; [reflexivity|].
    cbn [read_messages]. unfold bind, ret.
    rewrite (read_message_same_text c txt e s Hseen He), IH. reflexivity. }
  unfold _read_current_chat_messages. apply try_except_ok.
  unfold bind, call. cbn [fst snd]. rewrite Hrec; [reflexivity|].
  destruct (slice_last 10 es) eqn:E; [constructor|]. rewrite <- E.
  unfold slice_last. apply Forall_drop. exact Hall.
Qed.

Lemma reader_skips_last_seen_text_witness :
  _read_current_chat_messages "Chen" (Ok [elem_hey; elem_hey])
    (state_of (monitor_cycle (Ok [chat_chen "Hey there"]) service_after_baseline))
  = (Ok [], state_of (monitor_cycle (Ok [chat_chen "Hey there"]) service_after_baseline), []).
Proof.
  apply (reader_skips_last_seen_text "Chen" "Hey there").
  - vm_compute. reflexivity.
  - repeat constructor.
Defined.

Lemma read_message_fresh (c : string) (e : MsgElem) (s : t) :
  elem_incoming e ->
  last_seen_messages s !! c <> Some (elem_text e) ->
  exists m s',
    read_message c e s = (Ok [m], s', [])
    /\ content m = elem_text e /\ chat_name m = c
    /\ last_seen_messages s' !! c = Some (elem_text e).
Proof.
  intros (cls & Hcls & Hin) Hne.
  unfold read_message, try_except, bind, call, gets, modify, ret.
  rewrite Hcls. cbn [fst snd]. fold (elem_text e).
  rewrite decide_False by exact Hne. rewrite Hin. cbn.
  eexists _, _. split; [reflexivity|]. cbn. repeat split.
  apply lookup_insert_eq.
Qed.

Lemma read_messages_chain (c : string) (es : list MsgElem) (s : t) :
  Forall elem_incoming es ->
  chain_distinct (last_seen_messages s !! c) (map elem_text es) ->
  exists ms s',
    read_messages c es s = (Ok ms, s', [])
    /\ map content ms = map elem_text es
    /\ last_seen_messages s' !! c =
       match last (map elem_text es) with
       | Some txt => Some txt
       | None => last_seen_messages s !! c
       end.
Proof.
  intros Hin. revert s. induction Hin as [|e es He _ IH]; intros s Hchain.
  - exists [], s. repeat split.
  - cbn in Hchain. destruct Hchain as [Hne Hrest].
    destruct (read_message_fresh c e s He Hne) as (m & s1 & E1 & Hc & _ & Hs1).
    rewrite <- Hs1 in Hrest.
    destruct (IH s1 Hrest) as (ms & s2 & E2 & Hcs & Hs2).
    exists (m :: ms), s2. split.
    + cbn [read_messages]. unfold bind, ret. rewrite E1, E2. reflexivity.
    + split; [cbn; rewrite Hc, Hcs; reflexivity|].
      rewrite Hs2, Hs1. cbn [map].
      destruct (map elem_text es) as [|t0 ts] eqn:Em; [reflexivity|].
      change (last (elem_text e :: t0 :: ts)) with (last (t0 :: ts)).
      destruct (last (t0 :: ts)) eqn:El; [reflexivity|].
      apply last_None in El. discriminate El.
Qed.

(** The dedup looks at the preceding text only.  Take a window of at most
    10 incoming messages in which each text differs from the one before it
    and the last differs from the first (so at least two texts).  Reading
    this same window twice in a row surfaces every message of it the second
    time again. *)
Theorem reader_resurfaces_window (c : string) (es : list MsgElem) (s : t) :
  (length es <= 10)%nat ->
  Forall elem_incoming es ->
  chain_distinct (last_seen_messages s !! c) (map elem_text es) ->
  chain_distinct (last (map elem_text es)) (map elem_text es) ->
  let first_read := _read_current_chat_messages c (Ok es) s in
  let second_read := _read_current_chat_messages c (Ok es) (state_of first_read) in
  map content (surfaced first_read) = map elem_text es
  /\ map content (surfaced second_read) = map elem_text es.
Proof.
  intros Hlen Hin Hchain Hcycle first_read second_read.
  assert (Hread : forall s0, chain_distinct (last_seen_messages s0 !! c) (map elem_text es) ->
            exists ms s',
              _read_current_chat_messages c (Ok es) s0 = (Ok ms, s', [])
              /\ map content ms = map elem_text es
              /\ last_seen_messages s' !! c =
                 match last (map elem_text es) with
                 | Some txt => Some txt
                 | None => last_seen_messages s0 !! c
                 end).
  { intros s0 H0. destruct (read_messages_chain c es s0 Hin H0) as (ms & s' & E & Hc & Hl).
    exists ms, s'. split; [|split; assumption].
    unfold _read_current_chat_messages. apply try_except_ok.
    unfold bind, call. cbn [fst snd]. rewrite slice_last_short by exact Hlen.
    rewrite E. rewrite app_nil_l. reflexivity. }
  destruct (Hread s Hchain) as (ms1 & s1 & E1 & Hc1 & Hl1).
  subst first_read second_read. rewrite E1.
  unfold surfaced, result_of, state_of. cbn [fst snd].
  split; [exact Hc1|].
  assert (Hchain1 : chain_distinct (last_seen_messages s1 !! c) (map elem_text es)).
  { rewrite Hl1. destruct (map elem_text es) as [|t0 ts] eqn:Em; [exact I|].
    destruct (last (t0 :: ts)) eqn:El; [exact Hcycle|].
    apply last_None in El. discriminate El. }
  destruct (Hread s1 Hchain1) as (ms2 & s2 & E2 & Hc2 & _).
  rewrite E2. exact Hc2.
Qed.

Lemma reader_resurfaces_window_witness :
  map content
    (surfaced (_read_current_chat_messages "Chen" (Ok [elem_hey; elem_free])
       (state_of (_read_current_chat_messages "Chen" (Ok [elem_hey; elem_free]) init))))
  = ["Hey there"; "Are you free at 3pm?"].
Proof.
  refine (proj2 (reader_resurfaces_window "Chen" [elem_hey; elem_free] init _ _ _ _)).
  - cbn. lia.
  - repeat constructor; eexists; split; reflexivity.
  - cbn. repeat split; discriminate.
  - cbn. repeat split; discriminate.
Defined.

Lemma drain_spec (queue messages : list WhatsAppMessage) :
  WhatsAppServiceQueries.drain queue messages = messages ++ queue.
Proof.
  revert messages. induction queue as [|m queue IH]; intros messages; cbn.
  - rewrite app_nil_r. reflexivity.
  - rewrite IH, <- app_assoc. reflexivity.
Qed.

Lemma surface_effects (ms : list WhatsAppMessage) (s : t) :
  exists s',
    surface ms s = (Ok tt, s', deliver_events ms)
    /\ message_queue s' = message_queue s ++ ms
    /\ last_message_previews s' = last_message_previews s
    /\ last_seen_messages s' = last_seen_messages s
    /\ Forall (fun m => is_Some (db s' !! id m)) ms
    /\ (forall k, is_Some (db s !! k) -> is_Some (db s' !! k)).
Proof.
  revert s. induction ms as [|m ms IH]; intros s.
  - exists s. rewrite app_nil_r. repeat split; [constructor|auto].
  - cbn [surface]. unfold save_message, _trigger_notification, bind, emit, modify.
    cbn [fst snd].
    match goal with
    | |- context [surface ms ?s0] =>
        destruct (IH s0) as (s' & E & Q & P & L & D & K); rewrite E
    end.
    exists s'. split; [reflexivity|]. cbn in Q, P, L, K.
    split; [rewrite Q, <- app_assoc; reflexivity|].
    split; [exact P|]. split; [exact L|]. split.
    + constructor; [|exact D]. apply K. rewrite lookup_insert_eq. eauto.
    + intros k Hk. apply K. cbn.
      destruct (decide (id m = k)) as [->|Hne];
        [rewrite lookup_insert_eq; eauto|rewrite lookup_insert_ne by exact Hne; exact Hk].
Qed.

Lemma _check_for_new_messages_frame (page : Result (list ChatElem)) (s : t) :
  exists ms s1 tr,
    _check_for_new_messages page s = (Ok ms, s1, tr)
    /\ db s1 = db s /\ message_queue s1 = message_queue s.
Proof.
  destruct page as [[|chat chats]|exn].
  - eexists [], s, _. split; [reflexivity|]. split; reflexivity.
  - destruct (check_chats_spec (take 20 (chat :: chats)) s) as (ms & s1 & tr & E & D & Q & _).
    exists ms, s1, tr. split; [|split; assumption].
    unfold _check_for_new_messages. apply try_except_ok.
    unfold bind, call. cbn [fst snd length Nat.ltb Nat.leb]. rewrite E.
    rewrite app_nil_l. reflexivity.
  - eexists [], s, _. split; [reflexivity|]. split; reflexivity.
Qed.

(** After a poll cycle the service's queue is the old queue followed by the
    surfaced messages in order, every surfaced message's id is in the store
    and nothing that was stored is lost.  A call of [get_unread_messages]
    after the cycle returns exactly that queue, oldest first, and leaves the
    queue empty without touching store or fingerprints. *)
Theorem monitor_cycle_fills_queue_and_store (page : Result (list ChatElem)) (s : t) :
  let r := monitor_cycle page s in
  let q := WhatsAppServiceQueries.get_unread_messages (state_of r) in
  message_queue (state_of r) = message_queue s ++ surfaced r
  /\ Forall (fun m => is_Some (db (state_of r) !! id m)) (surfaced r)
  /\ (forall k, is_Some (db s !! k) -> is_Some (db (state_of r) !! k))
  /\ result_of q = Ok (message_queue s ++ surfaced r)
  /\ message_queue (state_of q) = []
  /\ db (state_of q) = db (state_of r)
  /\ last_message_previews (state_of q) = last_message_previews (state_of r).
Proof.
  intros r q.
  destruct (_check_for_new_messages_frame page s) as (ms & s1 & tr & E & D & Q).
  destruct (surface_effects ms s1) as (s2 & Es & Q2 & _ & _ & D2 & K2).
  assert (Er : r = (Ok ms, s2, tr ++ deliver_events ms ++ [])).
  { subst r. unfold monitor_cycle. apply try_except_ok.
    unfold bind. rewrite E, Es. reflexivity. }
  subst q. rewrite Er.
  unfold surfaced, result_of, state_of, WhatsAppServiceQueries.get_unread_messages,
    bind, gets, modify, ret. cbn [fst snd].
  rewrite drain_spec, Q2, Q. cbn.
  repeat split; try assumption.
  intros k Hk. apply K2. rewrite D. exact Hk.
Qed.

(** Only the first 20 entries of the chat list are scanned: entries after
    the twentieth change neither the result, nor the state, nor the effects
    of a poll cycle. *)
Theorem monitor_cycle_scans_first_twenty (chats more : list ChatElem) (s : t) :
  (20 <= length chats)%nat ->
  monitor_cycle (Ok (chats ++ more)) s = monitor_cycle (Ok chats) s.
Proof.
  intros Hlen. unfold monitor_cycle, _check_for_new_messages.
  assert (Htake : take 20 (chats ++ more) = take 20 chats) by (apply take_app_le; exact Hlen).
  assert (H1 : (0 <? length (chats ++ more))%nat = true)
    by (apply Nat.ltb_lt; rewrite length_app; lia).
  assert (H2 : (0 <? length chats)%nat = true) by (apply Nat.ltb_lt; lia).
  unfold try_except, bind, call. cbn [fst snd]. rewrite H1, H2, Htake. reflexivity.
Qed.

Lemma monitor_cycle_scans_first_twenty_witness :
  monitor_cycle (Ok (replicate 20 (chat_chen "see you") ++ [chat_chen "Hey there"])) init
  = monitor_cycle (Ok (replicate 20 (chat_chen "see you"))) init.
Proof.
  apply (monitor_cycle_scans_first_twenty (replicate 20 (chat_chen "see you"))
           [chat_chen "Hey there"] init).
  rewrite length_replicate. lia.
Defined.

(** A change that cannot be opened is lost.  When the preview of a
    conversation differs from its stored fingerprint but [chat.click()]
    raises, the cycle surfaces nothing from it and has already recorded the
    new preview; the next cycle, seeing the same preview, surfaces nothing
    from it either. *)
Theorem failed_open_loses_change (chat : ChatElem) (next_chats : list ChatElem)
    (s : t) (c q exn : string) :
  has_unread chat = true ->
  ce_title chat = Some c ->
  PyStr.strip c <> EmptyString ->
  message_preview_of chat <> EmptyString ->
  last_message_previews s !! c = Some q ->
  q <> message_preview_of chat ->
  ce_click chat = Raise exn ->
  shows c (message_preview_of chat) next_chats ->
  let r := monitor_cycle (Ok [chat]) s in
  let r2 := monitor_cycle (Ok next_chats) (state_of r) in
  surfaced r = []
  /\ last_message_previews (state_of r) !! c = Some (message_preview_of chat)
  /\ Forall (fun m => ~ from_chat c m) (surfaced r2)
  /\ silent_for c (trace_of r2).
Proof.
  intros Hun Ht Hc Hp Hq Hne Hclick Hnext r r2.
  assert (Hcheck : check_chat chat s =
            (Ok [], set_last_message_previews
                      (<[c := message_preview_of chat]> (last_message_previews s)) s,
             [EvPreviewWrite c (message_preview_of chat); EvClick c])).
  { unfold check_chat. rewrite Hun, Ht. cbn [negb].
    assert (Hc0 : (String.length c =? 0)%nat = false).
    { destruct c; [exfalso; apply Hc; reflexivity|reflexivity]. }
    assert (Hc1 : (String.length (PyStr.strip c) =? 0)%nat = false).
    { destruct (PyStr.strip c); [exfalso; apply Hc; reflexivity|reflexivity]. }
    assert (Hp0 : (String.length (message_preview_of chat) =? 0)%nat = false).
    { destruct (message_preview_of chat); [exfalso; apply Hp; reflexivity|reflexivity]. }
    rewrite Hc0, Hc1, Hp0. cbn [orb].
    unfold try_except, bind, gets, emit, modify, call. cbn [fst snd]. rewrite Hq.
    destruct (String.eqb_spec q (message_preview_of chat)) as [Heq|_]; [contradiction|].
    rewrite Hclick. reflexivity. }
  assert (Er : r = (Ok [], set_last_message_previews
                            (<[c := message_preview_of chat]> (last_message_previews s)) s,
                    [EvPreviewWrite c (message_preview_of chat); EvClick c])).
  { subst r. unfold monitor_cycle, _check_for_new_messages, try_except, bind, call, ret.
    cbn [fst snd length Nat.ltb Nat.leb take check_chats]. unfold bind, ret.
    rewrite Hcheck. reflexivity. }
  subst r2. rewrite Er. unfold surfaced, result_of, state_of, trace_of. cbn [fst snd].
  split; [reflexivity|]. split; [apply lookup_insert_eq|].
  destruct (monitor_cycle_quiet next_chats
              (set_last_message_previews
                 (<[c := message_preview_of chat]> (last_message_previews s)) s)
              c (message_preview_of chat) Hnext) as (ms & s' & tr & E & _ & Q & _).
  rewrite E. cbn [fst snd]. apply Q. right. apply lookup_insert_eq.
Qed.

Lemma failed_open_loses_change_witness :
  surfaced (monitor_cycle (Ok [chat_chen_unclickable "Hey there"]) service_after_baseline) = []
  /\ Forall (fun m => ~ from_chat "Chen" m)
       (surfaced (monitor_cycle (Ok [chat_chen "Hey there"])
          (state_of (monitor_cycle (Ok [chat_chen_unclickable "Hey there"])
                       service_after_baseline)))).
Proof.
  assert (Hshow : shows "Chen" "Hey there" [chat_chen "Hey there"]).
  { constructor; [|constructor]. intros _. vm_compute. reflexivity. }
  pose proof (failed_open_loses_change (chat_chen_unclickable "Hey there")
                [chat_chen "Hey there"] service_after_baseline "Chen" "see you"
                "element click intercepted") as H.
  assert (Hprev : message_preview_of (chat_chen_unclickable "Hey there") = "Hey there")
    by (vm_compute; reflexivity).
  rewrite Hprev in H.
  specialize (H eq_refl eq_refl ltac:(vm_compute; discriminate) ltac:(discriminate)
                ltac:(vm_compute; reflexivity) ltac:(discriminate) eq_refl Hshow).
  destruct H as (H1 & _ & H3 & _). split; assumption.
Defined.

(** [check_health] never raises and never changes the service, and its
    three flags are fixed by what the browser answers.  [browser_running]
    holds exactly when reading the current URL succeeds; [logged_in]
    exactly when it does and the chat list is found; [phone_connected]
    exactly when it does and the "Phone not connected" text is not found.
    So when reading the current URL raises all three flags are False (and
    the error is logged), whatever the other two lookups would give. *)
Theorem health_flags_need_browser (current_url : Result string)
    (chat_list banner : Result unit) (s : t) :
  let r := WhatsAppServiceQueries.check_health current_url chat_list banner s in
  exists h,
    result_of r = Ok h /\ state_of r = s
    /\ (WhatsAppServiceQueries.browser_running h = true <-> exists u, current_url = Ok u)
    /\ (WhatsAppServiceQueries.logged_in h = true <->
        (exists u, current_url = Ok u) /\ exists x, chat_list = Ok x)
    /\ (WhatsAppServiceQueries.phone_connected h = true <->
        (exists u, current_url = Ok u) /\ exists e, banner = Raise e)
    /\ (forall e, current_url = Raise e ->
        h = {| WhatsAppServiceQueries.browser_running := false;
               WhatsAppServiceQueries.logged_in := false;
               WhatsAppServiceQueries.phone_connected := false |}
        /\ trace_of r = [EvLogError ("Health check error: " +:+ e)]).
Proof.
  intros r. subst r. unfold WhatsAppServiceQueries.check_health.
  destruct current_url as [url|e]; cbn.
  - eexists. split; [reflexivity|]. split; [reflexivity|]. cbn.
    split; [split; eauto|].
    split; [|split].
    + split.
      * destruct chat_list; [eauto|discriminate].
      * intros [_ [x Hx]]. rewrite Hx. reflexivity.
    + split.
      * destruct banner; [discriminate|eauto].
      * intros [_ [e He]]. rewrite He. reflexivity.
    + intros e. discriminate.
  - eexists. split; [reflexivity|]. split; [reflexivity|]. cbn.
    split; [split; [discriminate|intros [u Hu]; discriminate Hu]|].
    split; [split; [discriminate|intros [[u Hu] _]; discriminate Hu]|].
    split; [split; [discriminate|intros [[u Hu] _]; discriminate Hu]|].
    intros e' [= ->]. split; reflexivity.
Qed.

End ReaderMore.

(** ** The HTTP bridge connector *)

(** [WhatsAppWebJSService.send_message] never raises and never changes the
    service.  It returns True exactly when the contact search answered 200
    with at least one result and the send request answered 200; the send
    request, when made, goes to the first search result and carries the
    given text. *)
Theorem webjs_send_outcomes
    (search : Result (nat * list (string * string))) (send : Result (nat * string))
    (c msg : string) (s : WhatsAppWebJSService.t) :
  let r := WhatsAppWebJSService.send_message search send c msg s in
  (exists b, result_of r = Ok b)
  /\ state_of r = s
  /\ (result_of r = Ok true <->
      exists chat_id name others err,
        search = Ok (200%nat, (chat_id, name) :: others) /\ send = Ok (200%nat, err))
  /\ (forall body, In (EvHttpPost "/messages/send" body) (trace_of r) ->
      exists chat_id name others,
        search = Ok (200%nat, (chat_id, name) :: others)
        /\ body = [("chatId", chat_id); ("message", msg)]).
Proof.
  intros r. subst r.
  unfold WhatsAppWebJSService.send_message, try_except, bind, emit, call, ret.
  destruct search as [[status results]|e]; cbn [fst snd].
  - destruct (Nat.eqb_spec status 200) as [->|Hst]; cbn [negb fst snd].
    + destruct results as [|[chat_id name] others]; cbn [fst snd].
      * split; [eauto|]. split; [reflexivity|]. split.
        -- split; [discriminate|]. intros (? & ? & ? & ? & H & _). discriminate H.
        -- cbn. intros body [H|[H|[]]]; discriminate H.
      * destruct send as [[st err]|e]; cbn [fst snd].
        -- destruct (Nat.eqb_spec st 200) as [->|Hs]; cbn [fst snd].
           ++ split; [eauto|]. split; [reflexivity|]. split.
              ** split; [intros _; eauto 10|reflexivity].
              ** cbn. intros body [H|[H|[]]]; [discriminate H|].
                 injection H as <-. eauto.
           ++ split; [eauto|]. split; [reflexivity|]. split.
              ** split; [discriminate|].
                 intros (? & ? & ? & ? & _ & H). injection H as H _. contradiction.
              ** cbn. intros body [H|[H|[H|[]]]]; try discriminate H.
                 injection H as <-. eauto.
        -- split; [eauto|]. split; [reflexivity|]. split.
           ++ split; [discriminate|]. intros (? & ? & ? & ? & _ & H). discriminate H.
           ++ cbn. intros body [H|[H|[H|[]]]]; try discriminate H.
              injection H as <-. eauto.
    + split; [eauto|]. split; [reflexivity|]. split.
      * split; [discriminate|].
        intros (? & ? & ? & ? & H & _). injection H as H _. contradiction.
      * cbn. intros body [H|[H|[]]]; discriminate H.
  - split; [eauto|]. split; [reflexivity|]. split.
    + split; [discriminate|]. intros (? & ? & ? & ? & H & _). discriminate H.
    + cbn. intros body [H|[H|[]]]; discriminate H.
Qed.

Lemma webjs_surface_spec (now : Z) (msgs : list WhatsAppWebJSService.MsgData)
    (s : WhatsAppWebJSService.t) :
  WhatsAppWebJSService.surface now msgs s =
  (Ok (map (WhatsAppWebJSService.to_message now) msgs),
   match last msgs with
   | Some md => {| WhatsAppWebJSService._last_chat_from :=
                     Some (WhatsAppWebJSService.md_from md) |}
   | None => s
   end,
   map (fun md => EvNotification
                    (WhatsAppWebJSService.make_notification
                       (WhatsAppWebJSService.to_message now md))) msgs).
Proof.
  revert s. induction msgs as [|md msgs IH]; intros s; [reflexivity|].
  cbn [WhatsAppWebJSService.surface].
  unfold WhatsAppWebJSService._trigger_notification, bind, modify, emit, ret.
  cbn [fst snd]. rewrite IH. cbn [map].
  destruct msgs as [|md' msgs']; [reflexivity|].
  change (last (md :: md' :: msgs')) with (last (md' :: msgs')).
  destruct (last (md' :: msgs')) eqn:El; [rewrite app_nil_r; reflexivity|].
  apply last_None in El. discriminate El.
Qed.

(** One poll of the bridge.  When the bridge answers 200, every reported
    message is announced exactly once and in the reported order, a message
    without a usable timestamp gets the current time, and the service
    remembers the sender id of the last message.  When the bridge answers
    with another status or the request fails, nothing is announced and the
    service is unchanged. *)
Theorem webjs_poll_announces_each_once (now : Z)
    (response : Result (nat * list WhatsAppWebJSService.MsgData))
    (s : WhatsAppWebJSService.t) :
  let r := WhatsAppWebJSService.monitor_cycle now response s in
  (forall msgs, response = Ok (200%nat, msgs) ->
     surfaced r = map (WhatsAppWebJSService.to_message now) msgs
     /\ trace_of r =
        EvHttpGet "/messages/new"
        :: map (fun md => EvNotification
                            (WhatsAppWebJSService.make_notification
                               (WhatsAppWebJSService.to_message now md))) msgs
     /\ Forall2 (fun md m =>
                   timestamp m = match WhatsAppWebJSService.md_timestamp md with
                                 | Some ts => ts
                                 | None => now
                                 end) msgs (surfaced r)
     /\ WhatsAppWebJSService._last_chat_from (state_of r) =
        match last msgs with
        | Some md => Some (WhatsAppWebJSService.md_from md)
        | None => WhatsAppWebJSService._last_chat_from s
        end)
  /\ ((forall msgs, response <> Ok (200%nat, msgs)) ->
      surfaced r = [] /\ state_of r = s
      /\ count_events (fun e => match e with EvNotification _ => true | _ => false end)
           (trace_of r) = 0%nat).
Proof.
  intros r. subst r. unfold WhatsAppWebJSService.monitor_cycle, try_except, bind, emit, call, ret.
  split.
  - intros msgs ->. cbn [fst snd Nat.eqb]. rewrite webjs_surface_spec.
    unfold surfaced, result_of, state_of, trace_of. cbn [fst snd].
    split; [reflexivity|]. split; [reflexivity|]. split.
    + clear. induction msgs as [|md msgs IH]; constructor; [reflexivity|exact IH].
    + destruct (last msgs); reflexivity.
  - intros Hnot. destruct response as [[status msgs]|e]; cbn [fst snd].
    + destruct (Nat.eqb_spec status 200) as [->|Hst]; [exfalso; exact (Hnot msgs eq_refl)|].
      repeat split.
    + repeat split.
Qed.

Lemma webjs_poll_announces_each_once_witness :
  map content
    (surfaced (WhatsAppWebJSService.monitor_cycle 1762164099
                 (Ok (200%nat, report_two_messages)) WhatsAppWebJSService.init))
  = ["Hey there"; "Lunch?"].
Proof.
  rewrite (proj1 (proj1 (webjs_poll_announces_each_once 1762164099
                           (Ok (200%nat, report_two_messages)) WhatsAppWebJSService.init)
                   report_two_messages eq_refl)).
  reflexivity.
Defined.

(** ** The decision engine and the reply paths of main.py *)

Lemma push_last {A : Type} (n : nat) (l : list A) (x : A) :
  (0 < n)%nat -> last (push n l x) = Some x.
Proof.
  intros Hn. rewrite push_slice_last. destruct n as [|n]; [lia|].
  unfold slice_last. rewrite length_app. cbn [length].
  rewrite drop_app_le by lia. apply last_snoc.
Qed.

(** The notification callback records the incoming message before the
    decision starts: after [_on_whatsapp_notification] the window of the
    notification's conversation ends with the line "[THEM] sender: preview",
    so the history text given to the decision engine is never the
    no-history sentinel; the decision is started exactly once. *)
Theorem notification_is_recorded_before_decision (n : WhatsAppNotification) (a : FridayApp) :
  let r := _on_whatsapp_notification n a in
  let line := "[THEM] " +:+ n_sender_name n +:+ ": " +:+ message_preview n in
  last (window (state_of r) (n_chat_name n)) = Some line
  /\ (exists lines,
        _get_conversation_history_text (n_chat_name n) (state_of r)
        = "RECENT CONVERSATION HISTORY:" +:+ PyStr.nl +:+ PyStr.join PyStr.nl lines
        /\ last lines = Some line)
  /\ trace_of r = [EvSpawnDecision n]
  /\ pending_whatsapp_message (state_of r) = pending_whatsapp_message a.
Proof.
  intros r line.
  assert (Hs : state_of r =
               state_of (_add_to_conversation_history (n_chat_name n)
                           (n_sender_name n +:+ ": " +:+ message_preview n) false a))
    by reflexivity.
  assert (Hlast : last (window (state_of r) (n_chat_name n)) = Some line).
  { rewrite Hs, window_add_history. rewrite decide_True by reflexivity.
    apply push_last. unfold max_history_per_contact. lia. }
  split; [exact Hlast|]. split; [|split; reflexivity].
  unfold window in Hlast. unfold _get_conversation_history_text.
  destruct (whatsapp_conversations (state_of r) !! n_chat_name n) as [[|l0 ls]|];
    cbn in Hlast; try discriminate Hlast.
  exists (l0 :: ls). split; [reflexivity|exact Hlast].
Qed.

(** A successful auto-reply.  When the decision has at least 5 lines, line
    2 reads YES and the dispatcher succeeds, the engine sends line 4 to the
    recipient named on line 3 once, appends "[YOU] You (via Jarvis): ..."
    to the window of that recipient (not of the notification's
    conversation, should the two names differ), leaves the Pending Reply
    Slot alone, and speaks the summary exactly when line 1 reads YES. *)
Theorem auto_reply_success (env : Env) (n : WhatsAppNotification) (a : FridayApp)
    (system_prompt response : string) :
  prompt_txt env = Some system_prompt ->
  (forall messages, chat_completion env messages = Ok response) ->
  (5 <= length (parse_lines response))%nat ->
  is_yes (line_at 1 (parse_lines response)) = true ->
  (forall c m, send_message env c m = true) ->
  let lines := parse_lines response in
  let send_to := PyStr.strip (line_at 2 lines) in
  let reply := PyStr.strip (line_at 3 lines) in
  let r := _process_whatsapp_with_ai env n a in
  filter (fun e => is_send e) (trace_of r) = [EvSend send_to reply]
  /\ last (window (state_of r) send_to) = Some ("[YOU] You (via Jarvis): " +:+ reply)
  /\ (n_chat_name n <> send_to ->
      window (state_of r) (n_chat_name n) = window a (n_chat_name n))
  /\ pending_whatsapp_message (state_of r) = pending_whatsapp_message a
  /\ waiting_for_whatsapp_reply (state_of r) = waiting_for_whatsapp_reply a
  /\ count_events (fun e => match e with EvSpeak _ => true | _ => false end) (trace_of r)
     = (if is_yes (line_at 0 lines) then 1 else 0)%nat.
Proof.
  intros Hprompt Hresp Hlen Hyes Hsend lines send_to reply r. subst r.
  unfold _process_whatsapp_with_ai, try_except, bind, gets, emit, call, modify,
    tts_speak, whatsapp_send, ret.
  rewrite Hprompt. cbn [fst snd]. rewrite Hresp. cbn [fst snd].
  fold lines. change (parse_lines response) with lines in Hlen, Hyes.
  destruct (Nat.ltb_spec (length lines) 3) as [Hlt|_]; [lia|].
  rewrite Hyes.
  destruct (Nat.ltb_spec (length lines) 5) as [Hlt|_]; [lia|].
  fold send_to reply. rewrite Hsend. cbn [fst snd].
  set (a1 := snd (fst (_add_to_conversation_history send_to
                         ("You (via Jarvis): " +:+ reply) true a))).
  assert (Hw : forall c, window a1 c =
                 if decide (send_to = c)
                 then push max_history_per_contact (window a send_to)
                        (history_line ("You (via Jarvis): " +:+ reply) true)
                 else window a c)
    by (intros c; apply window_add_history).
  assert (Hlast : last (window a1 send_to) = Some ("[YOU] You (via Jarvis): " +:+ reply)).
  { rewrite Hw, decide_True by reflexivity. apply push_last.
    unfold max_history_per_contact. lia. }
  assert (Hother : n_chat_name n <> send_to ->
                   window a1 (n_chat_name n) = window a (n_chat_name n)).
  { intros Hne. rewrite Hw, decide_False by congruence. reflexivity. }
  change (_add_to_conversation_history send_to ("You (via Jarvis): " +:+ reply) true a)
    with (Ok tt, a1, @nil Event).
  cbn [fst snd].
  destruct (is_yes (line_at 0 lines)); cbn [fst snd].
  - destruct (speak env _) as [[]|exn]; cbn; repeat split; assumption.
  - cbn. repeat split; assumption.
Qed.

Lemma auto_reply_success_witness :
  last (window
          (state_of (_process_whatsapp_with_ai
                       (env_with (lines5 "NO" "YES" "Chen" "On my way"
                                         "Told Chen you are on your way") true)
                       notification_chen init_app)) "Chen")
  = Some "[YOU] You (via Jarvis): On my way".
Proof.
  exact (proj1 (proj2
    (auto_reply_success
       (env_with (lines5 "NO" "YES" "Chen" "On my way" "Told Chen you are on your way") true)
       notification_chen init_app "You are Jarvis."
       (lines5 "NO" "YES" "Chen" "On my way" "Told Chen you are on your way")
       eq_refl (fun _ => eq_refl)
       ltac:(vm_compute; lia) ltac:(vm_compute; reflexivity) (fun _ _ => eq_refl)))).
Defined.

(** How a decision fails.  Without prompt.txt the engine logs and stops
    before asking the completion service.  When the completion service
    raises, the engine shows an explicit error notice naming the sender and
    the error.  In both cases nothing is sent and the application state is
    unchanged. *)
Theorem decision_failure_modes (env : Env) (n : WhatsAppNotification) (a : FridayApp) :
  let r := _process_whatsapp_with_ai env n a in
  (prompt_txt env = None ->
     r = (Ok tt, a, [EvLogError "prompt.txt not found!"]))
  /\ (forall system_prompt e,
        prompt_txt env = Some system_prompt ->
        (forall messages, chat_completion env messages = Raise e) ->
        state_of r = a
        /\ count_events is_send (trace_of r) = 0%nat
        /\ count_events is_completion (trace_of r) = 1%nat
        /\ last (trace_of r) =
           Some (EvGui (icon_phone +:+ " Received message from " +:+ n_sender_name n
                        +:+ PyStr.nl
                        +:+ icon_cross +:+ " Error processing with AI: " +:+ e))).
Proof.
  intros r. subst r. split.
  - intros Hnone. unfold _process_whatsapp_with_ai, try_except. rewrite Hnone. reflexivity.
  - intros system_prompt e Hprompt Hraise.
    unfold _process_whatsapp_with_ai, try_except, bind, gets, emit, call.
    rewrite Hprompt. cbn [fst snd]. rewrite Hraise. cbn. repeat split.
Qed.

Lemma decision_failure_modes_witness :
  _process_whatsapp_with_ai env_no_prompt notification_chen init_app
  = (Ok tt, init_app, [EvLogError "prompt.txt not found!"]).
Proof.
  exact (proj1 (decision_failure_modes env_no_prompt notification_chen init_app) eq_refl).
Defined.

(** A direct send always tells the user how it went: [_send_whatsapp_message]
    asks the dispatcher once and adds exactly one line to the conversation
    view, the confirmation when the dispatcher returned True and the
    failure notice otherwise; the application state is unchanged. *)
Theorem direct_send_reports_outcome (env : Env) (c m : string) (a : FridayApp) :
  _send_whatsapp_message env c m a =
  (Ok tt, a,
   [EvSend c m;
    EvGui (if send_message env c m
           then icon_ok +:+ " WhatsApp message sent to " +:+ c
           else icon_cross +:+ " Failed to send WhatsApp message to " +:+ c)]).
Proof.
  unfold _send_whatsapp_message, try_except, bind, whatsapp_send, emit, ret.
  cbn [fst snd]. destruct (send_message env c m); reflexivity.
Qed.

(** ** Quick reply *)

Lemma _handle_whatsapp_intent_no_contact (patterns : string -> M FridayApp bool)
    (txt : string) (a : FridayApp) :
  last_whatsapp_contact a = None ->
  _handle_whatsapp_intent patterns txt a = patterns txt a.
Proof.
  intros Hnone. unfold _handle_whatsapp_intent, gets, bind.
  rewrite Hnone. destruct (patterns txt a) as [[r0 s0] t0]. reflexivity.
Qed.

Lemma quick_reply_fires (patterns : string -> M FridayApp bool)
    (txt c : string) (a : FridayApp) :
  last_whatsapp_contact a = Some c ->
  c <> EmptyString ->
  (word_count txt <= 15)%nat ->
  has_command_keyword txt = false ->
  _handle_whatsapp_intent patterns txt a
  = (Ok true, set_last_whatsapp_contact None a,
     [EvSpawnSend c ("I am the assistant Jarvis, " +:+ txt)]).
Proof.
  intros Hlast Hc Hwords Hkw. apply Nat.leb_le in Hwords.
  assert (Hc0 : String.eqb c EmptyString = false) by (apply String.eqb_neq; exact Hc).
  assert (Hcl : (String.length c =? 0)%nat = false).
  { destruct c; [contradiction|reflexivity]. }
  unfold _handle_whatsapp_intent, gets, bind, _handle_whatsapp_send, emit, modify, ret.
  rewrite Hlast, Hc0, Hwords, Hkw, Hcl. reflexivity.
Qed.

(** The quick-reply block.  With a last contact set (and not empty), an
    utterance of at most 15 words that contains none of the command
    keywords is handed to the send path for that contact, prefixed with
    "I am the assistant Jarvis, ", and the last contact is cleared, so the
    next utterance is no quick reply.  An utterance of more than 15 words
    or containing a command keyword is never sent as a quick reply. *)
Theorem quick_reply_once (patterns : string -> M FridayApp bool)
    (txt next_txt c : string) (a : FridayApp) :
  last_whatsapp_contact a = Some c ->
  c <> EmptyString ->
  let r := _handle_whatsapp_intent patterns txt a in
  ((word_count txt <= 15)%nat -> has_command_keyword txt = false ->
     result_of r = Ok true
     /\ trace_of r = [EvSpawnSend c ("I am the assistant Jarvis, " +:+ txt)]
     /\ last_whatsapp_contact (state_of r) = None
     /\ _handle_whatsapp_intent patterns next_txt (state_of r)
        = patterns next_txt (state_of r))
  /\ ((15 < word_count txt)%nat \/ has_command_keyword txt = true ->
      r = patterns txt a).
Proof.
  intros Hlast Hc r. subst r.
  assert (Hc0 : String.eqb c EmptyString = false) by (apply String.eqb_neq; exact Hc).
  split.
  - intros Hwords Hkw.
    rewrite (quick_reply_fires patterns txt c a Hlast Hc Hwords Hkw). unfold result_of, state_of, trace_of. cbn [fst snd].
    split; [reflexivity|]. split; [reflexivity|]. split; [reflexivity|].
    apply _handle_whatsapp_intent_no_contact. reflexivity.
  - intros Hno. unfold _handle_whatsapp_intent, gets, bind. rewrite Hlast, Hc0.
    cbn [negb andb].
    assert (Hcond : ((word_count txt <=? 15)%nat && negb (has_command_keyword txt)) = false).
    { destruct Hno as [Hwords | Hkw].
      - apply Nat.leb_gt in Hwords. rewrite Hwords. reflexivity.
      - rewrite Hkw. apply andb_false_r. }
    rewrite Hcond. destruct (patterns txt a) as [[r0 s0] t0]. reflexivity.
Qed.

Lemma quick_reply_once_witness :
  trace_of (_handle_whatsapp_intent (fun _ => ret false) "sounds good" app_awaiting_chen)
  = [EvSpawnSend "Chen" "I am the assistant Jarvis, sounds good"].
Proof.
  exact (proj1 (proj2 (proj1
    (quick_reply_once (fun _ => ret false) "sounds good" "thanks" "Chen" app_awaiting_chen
       ltac:(vm_compute; reflexivity) ltac:(discriminate))
    ltac:(vm_compute; lia) ltac:(vm_compute; reflexivity)))).
Defined.

Lemma rewrite_and_send_frame (env : Env) (txt : string) (a : FridayApp) (p : PendingMessage) :
  pending_whatsapp_message a = Some p ->
  exists s' tr,
    _rewrite_and_send_whatsapp_reply env txt a = (Ok tt, s', tr)
    /\ last_whatsapp_contact s' = last_whatsapp_contact a
    /\ waiting_for_whatsapp_reply s' = false
    /\ pending_whatsapp_message s' = None
    /\ Forall (fun c => c = contact p) (send_targets tr).
Proof.
  intros Hp.
  unfold _rewrite_and_send_whatsapp_reply, try_except, bind, gets, emit, call,
    whatsapp_send, modify, ret, raise, _add_to_conversation_history.
  rewrite Hp. cbn [fst snd].
  destruct (chat_completion env _) as [answer|exn]; cbn [fst snd].
  - destruct (send_message env _ _); cbn;
      eexists _, _; (split; [reflexivity|]); cbn; repeat split; auto.
  - eexists _, _. split; [reflexivity|]. cbn. repeat split; auto.
Qed.

Lemma process_reply_frame (env : Env) (txt : string) (a : FridayApp) (p : PendingMessage) :
  waiting_for_whatsapp_reply a = true ->
  pending_whatsapp_message a = Some p ->
  re_search_tell env (PyStr.lower txt) = None ->
  let r := _process_user_message env txt a in
  last_whatsapp_contact (state_of r) = last_whatsapp_contact a
  /\ pending_whatsapp_message (state_of r) = None.
Proof.
  intros Hw Hp Htell r. subst r.
  destruct (rewrite_and_send_frame env txt (set_is_processing true a) p Hp)
    as (s' & tr & E & L & _ & P & _).
  assert (Er : route_utterance env txt (set_is_processing true a) =
               (Ok tt, set_is_processing false s', [] ++ (tr ++ [] ++ [EvStatus "Idle"]))).
  { unfold route_utterance. eapply bind_ok.
    - unfold tell_directive, bind, gets. cbn [fst snd]. rewrite Htell. reflexivity.
    - unfold pending_reply_check, bind, gets, modify, emit. cbn [fst snd].
      change (waiting_for_whatsapp_reply (set_is_processing true a))
        with (waiting_for_whatsapp_reply a).
      change (pending_whatsapp_message (set_is_processing true a))
        with (pending_whatsapp_message a).
      rewrite Hw, Hp, bool_decide_true by eauto. cbn [andb]. rewrite E. reflexivity. }
  unfold _process_user_message, try_finally, try_except, bind, emit, modify.
  cbn [fst snd]. rewrite Er. cbn [fst snd state_of]. split; assumption.
Qed.

Lemma decision_no_sets_last_contact (env : Env) (n : WhatsAppNotification) (a : FridayApp)
    (system_prompt response : string) :
  prompt_txt env = Some system_prompt ->
  (forall messages, chat_completion env messages = Ok response) ->
  (3 <= length (parse_lines response))%nat ->
  is_yes (line_at 1 (parse_lines response)) = false ->
  last_whatsapp_contact (state_of (_process_whatsapp_with_ai env n a)) = Some (n_chat_name n).
Proof.
  intros Hprompt Hresp Hlong Hno.
  unfold _process_whatsapp_with_ai, try_except, bind, gets, emit, call, modify, tts_speak, ret.
  rewrite Hprompt. cbn [fst snd]. rewrite Hresp. cbn [fst snd].
  destruct (Nat.ltb_spec (length (parse_lines response)) 3) as [Hlt|_]; [lia|].
  rewrite Hno.
  destruct (is_yes (line_at 0 (parse_lines response))); cbn [fst snd].
  - destruct (speak env _) as [[]|exn]; reflexivity.
  - reflexivity.
Qed.

(** The last-contact pointer outlives the Pending Reply Slot.  After a
    SHOULD_SEND=NO decision for a notification and after the user's next
    utterance (not a "tell" directive) has been consumed as the reply, the
    slot is empty but the last contact still names the notification's
    conversation: the following short utterance without command keywords
    that reaches [_handle_whatsapp_intent] is sent to that conversation as
    a quick reply. *)
Theorem last_contact_outlives_pending_reply
    (decision_env env : Env) (n : WhatsAppNotification) (a : FridayApp)
    (system_prompt response txt next_txt : string)
    (patterns : string -> M FridayApp bool) :
  prompt_txt decision_env = Some system_prompt ->
  (forall messages, chat_completion decision_env messages = Ok response) ->
  (3 <= length (parse_lines response))%nat ->
  is_yes (line_at 1 (parse_lines response)) = false ->
  re_search_tell env (PyStr.lower txt) = None ->
  n_chat_name n <> EmptyString ->
  (word_count next_txt <= 15)%nat ->
  has_command_keyword next_txt = false ->
  let awaiting := state_of (_process_whatsapp_with_ai decision_env n a) in
  let replied := state_of (_process_user_message env txt awaiting) in
  pending_whatsapp_message replied = None
  /\ last_whatsapp_contact replied = Some (n_chat_name n)
  /\ trace_of (_handle_whatsapp_intent patterns next_txt replied)
     = [EvSpawnSend (n_chat_name n) ("I am the assistant Jarvis, " +:+ next_txt)].
Proof.
  intros Hprompt Hresp Hlong Hno Htell Hname Hwords Hkw awaiting replied.
  destruct (decision_not_yes_sets_slot decision_env n a _ _ Hprompt Hresp Hlong Hno)
    as (Hw & Hp & _).
  pose proof (decision_no_sets_last_contact decision_env n a _ _ Hprompt Hresp Hlong Hno)
    as Hlast.
  destruct (process_reply_frame env txt awaiting (pending_of n) Hw Hp Htell) as (Hl & Hpn).
  fold replied in Hl, Hpn. fold awaiting in Hlast. rewrite Hlast in Hl.
  split; [exact Hpn|]. split; [exact Hl|].
  rewrite (quick_reply_fires patterns next_txt (n_chat_name n) replied Hl Hname Hwords Hkw).
  reflexivity.
Qed.

Lemma last_contact_outlives_pending_reply_witness :
  trace_of (_handle_whatsapp_intent (fun _ => ret false) "see you then"
              (state_of (_process_user_message (env_with "Sure, 3pm works for me!" true)
                           "sure works for me" app_awaiting_chen)))
  = [EvSpawnSend "Chen" "I am the assistant Jarvis, see you then"].
Proof.
  exact (proj2 (proj2
    (last_contact_outlives_pending_reply
       (env_with (lines3 "NO" "NO" "Chen wants to meet at 3pm") true)
       (env_with "Sure, 3pm works for me!" true)
       notification_chen init_app "You are Jarvis."
       (lines3 "NO" "NO" "Chen wants to meet at 3pm") "sure works for me" "see you then"
       (fun _ => ret false)
       eq_refl (fun _ => eq_refl) ltac:(vm_compute; lia) ltac:(vm_compute; reflexivity)
       eq_refl ltac:(discriminate) ltac:(vm_compute; lia) ltac:(vm_compute; reflexivity)))).
Defined.

(** A "tell" directive displaces a pending reply.  With WhatsApp enabled
    and the slot awaiting, an utterance the "tell" pattern matches with a
    name outside the excluded words is rewritten and sent to that name
    only; the slot is overwritten and then cleared, so the conversation
    that was pending receives nothing. *)
Theorem tell_directive_displaces_pending
    (env : Env) (a : FridayApp) (p : PendingMessage) (txt group1 group2 : string) :
  whatsapp_enabled a = true ->
  pending_whatsapp_message a = Some p ->
  re_search_tell env (PyStr.lower txt) = Some (group1, group2) ->
  existsb (String.eqb (PyStr.strip group1)) excluded_tell_words = false ->
  contact p <> PyStr.strip group1 ->
  let r := _process_user_message env txt a in
  pending_whatsapp_message (state_of r) = None
  /\ waiting_for_whatsapp_reply (state_of r) = false
  /\ Forall (fun c => c = PyStr.strip group1) (send_targets (trace_of r))
  /\ ~ In (contact p) (send_targets (trace_of r)).
Proof.
  intros Hen Hp Htell Hex Hne r. subst r.
  set (tellp := {| contact := PyStr.strip group1; sender := PyStr.strip group1;
                   original_message := "(Direct message via 'Tell' command)" |}).
  set (msg := PyStr.strip (slice_from_Z (find group2 (PyStr.lower txt)) txt)).
  destruct (rewrite_and_send_frame env msg
              (set_pending_whatsapp_message (Some tellp) (set_is_processing true a))
              tellp eq_refl) as (s' & tr & E & _ & W & P & T).
  assert (Et : tell_directive env txt (set_is_processing true a) =
               (Ok true, set_is_processing false s',
                [] ++ (tr ++ [] ++ [EvStatus "Idle"] ++ []))).
  { unfold tell_directive, bind at 1, gets at 1. cbn [fst snd].
    rewrite Htell.
    change (whatsapp_enabled (set_is_processing true a)) with (whatsapp_enabled a).
    rewrite Hen, Hex. cbn [negb].
    unfold bind, modify, emit, ret. cbn [fst snd]. fold tellp msg. rewrite E. reflexivity. }
  assert (Er : route_utterance env txt (set_is_processing true a) =
               (Ok tt, set_is_processing false s',
                ([] ++ (tr ++ [] ++ [EvStatus "Idle"] ++ [])) ++ [])).
  { unfold route_utterance. eapply bind_ok; [exact Et|reflexivity]. }
  unfold _process_user_message, try_finally, try_except, bind, emit, modify.
  cbn [fst snd]. rewrite Er. cbn [fst snd state_of trace_of].
  assert (Hst : forall tr0, send_targets (tr0 ++ []) = send_targets tr0)
    by (intros tr0; rewrite app_nil_r; reflexivity).
  cbn [app send_targets].
  rewrite ?Hst, ?send_targets_app. cbn [send_targets]. rewrite ?app_nil_r.
  split; [exact P|]. split; [exact W|]. split; [exact T|].
  intros Hin. rewrite Forall_forall in T. apply Hne. apply T.
  apply list_elem_of_In. exact Hin.
Qed.

Lemma tell_directive_displaces_pending_witness :
  send_targets (trace_of (_process_user_message
                            (env_tell "dana" "i am running late" "Running late, sorry!" true)
                            "Tell Dana I am running late" app_awaiting_chen_enabled))
  = ["dana"].
Proof.
  pose proof (tell_directive_displaces_pending
                (env_tell "dana" "i am running late" "Running late, sorry!" true)
                app_awaiting_chen_enabled (pending_of notification_chen)
                "Tell Dana I am running late" "dana" "i am running late"
                eq_refl ltac:(vm_compute; reflexivity) eq_refl
                ltac:(vm_compute; reflexivity) ltac:(vm_compute; discriminate)) as H.
  destruct H as (_ & _ & T & _).
  vm_compute in T |- *. reflexivity.
Defined.

(** ** Parsing the decision response *)

Section Strip.
Variable p : ascii -> bool.

Lemma rstrip_with_idem (s : string) :
  PyStr.rstrip_with p (PyStr.rstrip_with p s) = PyStr.rstrip_with p s.
Proof.
  induction s as [|c s IH]; [reflexivity|].
  cbn [PyStr.rstrip_with].
  destruct (PyStr.rstrip_with p s) as [|c' s'] eqn:E.
  - destruct (p c) eqn:Ep; [reflexivity|]. cbn. rewrite Ep. reflexivity.
  - change (PyStr.rstrip_with p (String c (String c' s')))
      with (match PyStr.rstrip_with p (String c' s') with
            | EmptyString => if p c then EmptyString else String c EmptyString
            | String a b => String c (String a b)
            end).
    rewrite IH. reflexivity.
Qed.

Lemma lstrip_with_head (s : string) :
  match PyStr.lstrip_with p s with
  | EmptyString => True
  | String c _ => p c = false
  end.
Proof.
  induction s as [|c s IH]; [exact I|].
  cbn [PyStr.lstrip_with]. destruct (p c) eqn:Ep; [exact IH|exact Ep].
Qed.

Lemma rstrip_with_keeps_head (c : ascii) (s : string) :
  p c = false ->
  exists s', PyStr.rstrip_with p (String c s) = String c s'.
Proof.
  intros Hc. cbn [PyStr.rstrip_with].
  destruct (PyStr.rstrip_with p s); [rewrite Hc|]; eauto.
Qed.

Lemma strip_with_idem (s : string) :
  PyStr.strip_with p (PyStr.strip_with p s) = PyStr.strip_with p s.
Proof.
  unfold PyStr.strip_with.
  pose proof (lstrip_with_head s) as Hhead.
  destruct (PyStr.lstrip_with p s) as [|c t] eqn:E; [reflexivity|].
  destruct (rstrip_with_keeps_head c t Hhead) as (s' & Es).
  rewrite Es. cbn [PyStr.lstrip_with]. rewrite Hhead, <- Es.
  apply rstrip_with_idem.
Qed.

End Strip.

(** The lines the decision engine works with are clean: every element of
    [parse_lines response] is non-empty and has no leading or trailing
    whitespace, whatever the completion service returned. *)
Theorem parse_lines_are_stripped (response : string) :
  Forall (fun line => line <> EmptyString /\ PyStr.strip line = line) (parse_lines response).
Proof.
  unfold parse_lines.
  match goal with
  | |- Forall _ (map PyStr.strip (filter _ ?l)) => generalize l
  end.
  intros l. induction l as [|x l IH]; [constructor|].
  rewrite filter_cons. case_decide as Hx; [|exact IH].
  cbn [map]. constructor; [|exact IH]. split.
  - intros Hempty. rewrite Hempty in Hx. cbn in Hx. exact Hx.
  - apply strip_with_idem.
Qed.

Lemma append_cons (c : ascii) (s t : string) : String c s +:+ t = String c (s +:+ t).
Proof. reflexivity. Qed.

Lemma append_nil_l (t : string) : EmptyString +:+ t = t.
Proof. reflexivity. Qed.

Lemma string_append_assoc (s1 s2 s3 : string) : (s1 +:+ s2) +:+ s3 = s1 +:+ (s2 +:+ s3).
Proof.
  induction s1 as [|c s1 IH]; [reflexivity|].
  rewrite !append_cons, IH. reflexivity.
Qed.

Lemma string_length_append (s t : string) :
  String.length (s +:+ t) = (String.length s + String.length t)%nat.
Proof.
  induction s as [|c s IH]; [reflexivity|].
  rewrite append_cons. cbn [String.length]. rewrite IH. reflexivity.
Qed.

Lemma rstrip_with_app_fixed (p : ascii -> bool) (s t : string) :
  t <> EmptyString -> PyStr.rstrip_with p t = t ->
  PyStr.rstrip_with p (s +:+ t) = s +:+ t.
Proof.
  intros Hne Hfix. induction s as [|c s IH]; [exact Hfix|].
  rewrite append_cons. cbn [PyStr.rstrip_with]. rewrite IH.
  destruct (s +:+ t) eqn:E; [|reflexivity].
  destruct s; [|discriminate E]. rewrite append_nil_l in E. contradiction.
Qed.

Lemma contains_char_app_sep (c : ascii) (s t : string) :
  PyStr.contains_char c (s +:+ String c t) = true.
Proof.
  induction s as [|a s IH].
  - rewrite append_nil_l. cbn. rewrite Ascii.eqb_refl. reflexivity.
  - rewrite append_cons. cbn [PyStr.contains_char]. rewrite IH. apply orb_true_r.
Qed.

Lemma after_first_app (c : ascii) (s t : string) :
  PyStr.contains_char c s = false ->
  PyStr.after_first c (s +:+ String c t) = t.
Proof.
  induction s as [|a s IH]; intros Hs.
  - rewrite append_nil_l. cbn. rewrite Ascii.eqb_refl. reflexivity.
  - cbn [PyStr.contains_char] in Hs. apply orb_false_iff in Hs. destruct Hs as [Ha Hs].
    rewrite append_cons. cbn [PyStr.after_first]. rewrite Ha. exact (IH Hs).
Qed.

Lemma before_last_app (c : ascii) (s t : string) :
  PyStr.contains_char c t = false ->
  PyStr.before_last c (s +:+ String c t) = s.
Proof.
  intros Ht. induction s as [|a s IH].
  - rewrite append_nil_l. cbn [PyStr.before_last]. rewrite Ht. reflexivity.
  - rewrite append_cons. cbn [PyStr.before_last].
    rewrite contains_char_app_sep, IH. reflexivity.
Qed.

Lemma substring_all (s : string) : substring 0 (String.length s) s = s.
Proof. induction s as [|c s IH]; [reflexivity|]. cbn. rewrite IH. reflexivity. Qed.

Lemma substring_app_tail (s t : string) :
  substring (String.length s) (String.length t) (s +:+ t) = t.
Proof.
  induction s as [|c s IH].
  - rewrite append_nil_l. apply substring_all.
  - rewrite append_cons. cbn [String.length substring]. exact IH.
Qed.

Lemma endswith_app (s t : string) : PyStr.endswith t (s +:+ t) = true.
Proof.
  unfold PyStr.endswith. rewrite string_length_append.
  replace (String.length s + String.length t - String.length t)%nat
    with (String.length s) by lia.
  rewrite substring_app_tail, String.eqb_refl.
  rewrite andb_true_r. apply Nat.leb_le. lia.
Qed.

(** Code fences are tolerated.  A decision response wrapped in a fenced
    block (an opening fence line, possibly with a language tag, and a
    closing fence line) parses to the same lines as the text inside the
    block, provided that text does not itself begin or end with a fence. *)
Theorem parse_lines_ignores_code_fence (lang body : string) :
  PyStr.contains_char PyStr.newline lang = false ->
  PyStr.startswith code_fence (PyStr.strip body) = false ->
  PyStr.endswith code_fence (PyStr.strip body) = false ->
  parse_lines (code_fence +:+ lang +:+ PyStr.nl +:+ body +:+ PyStr.nl +:+ code_fence)
  = parse_lines body.
Proof.
  intros Hlang Hstart Hend.
  set (response := code_fence +:+ lang +:+ PyStr.nl +:+ body +:+ PyStr.nl +:+ code_fence).
  assert (Hstrip : PyStr.strip response = response).
  { unfold PyStr.strip, PyStr.strip_with.
    assert (Hl : PyStr.lstrip_with PyStr.isspace response = response) by reflexivity.
    rewrite Hl. unfold response.
    rewrite <- !string_append_assoc.
    apply rstrip_with_app_fixed; [discriminate|reflexivity]. }
  assert (Hsw : PyStr.startswith code_fence response = true).
  { unfold response, PyStr.startswith, code_fence.
    rewrite !append_cons, append_nil_l. cbn.
    destruct (lang +:+ _); reflexivity. }
  assert (Hshape : response = (code_fence +:+ lang) +:+ String PyStr.newline
                                (body +:+ PyStr.nl +:+ code_fence)).
  { unfold response. rewrite string_append_assoc. reflexivity. }
  assert (Hnl : PyStr.contains_char PyStr.newline response = true)
    by (rewrite Hshape; apply contains_char_app_sep).
  assert (Hafter : PyStr.after_first PyStr.newline response
                   = body +:+ PyStr.nl +:+ code_fence).
  { rewrite Hshape. apply after_first_app.
    unfold code_fence. rewrite !append_cons, append_nil_l.
    cbn [PyStr.contains_char]. rewrite Hlang. reflexivity. }
  assert (Hew : PyStr.endswith code_fence (body +:+ PyStr.nl +:+ code_fence) = true).
  { rewrite <- string_append_assoc. apply endswith_app. }
  assert (Hnl2 : PyStr.contains_char PyStr.newline (body +:+ PyStr.nl +:+ code_fence) = true)
    by (apply contains_char_app_sep).
  assert (Hbefore : PyStr.before_last PyStr.newline (body +:+ PyStr.nl +:+ code_fence) = body)
    by (apply before_last_app; reflexivity).
  unfold parse_lines. fold response.
  rewrite Hstrip, Hsw, Hnl, Hafter, Hew, Hnl2, Hbefore, Hstart, Hend.
  assert (Hidem : PyStr.strip (PyStr.strip body) = PyStr.strip body)
    by apply strip_with_idem.
  rewrite Hidem. reflexivity.
Qed.

Lemma parse_lines_ignores_code_fence_witness :
  parse_lines (code_fence +:+ "text" +:+ PyStr.nl +:+ lines3 "NO" "NO" "Chen wants to meet at 3pm"
               +:+ PyStr.nl +:+ code_fence)
  = ["NO"; "NO"; "Chen wants to meet at 3pm"].
Proof.
  rewrite (parse_lines_ignores_code_fence "text" (lines3 "NO" "NO" "Chen wants to meet at 3pm")
             ltac:(vm_compute; reflexivity) ltac:(vm_compute; reflexivity)
             ltac:(vm_compute; reflexivity)).
  vm_compute. reflexivity.
Defined.

(** ** The interactive conversation *)

Section ConversationWindow.
Import Conversation.

Lemma add_messages (c : t) (turn : Turn) :
  messages (add c turn)
  = (if (max_messages c <? Z.of_nat (length (messages c ++ [message_of turn])))%Z
     then slice_last_Z (max_messages c) (messages c ++ [message_of turn])
     else messages c ++ [message_of turn])
  /\ max_messages (add c turn) = max_messages c.
Proof.
  destruct turn; cbn [add message_of];
    unfold add_user_message, add_assistant_message, _trim_history;
    cbn [messages max_messages set_messages];
    match goal with |- context [(?a <? ?b)%Z] => destruct (a <? b)%Z end;
    split; reflexivity.
Qed.

Lemma add_messages_push (c : t) (turn : Turn) :
  (0 <= max_messages c)%Z ->
  messages (add c turn)
  = push (Z.to_nat (max_messages c)) (messages c) (message_of turn).
Proof.
  intros Hmax. destruct (add_messages c turn) as [-> _].
  unfold push, slice_last_Z.
  set (l1 := messages c ++ [message_of turn]).
  destruct (Z.ltb_spec (max_messages c) (Z.of_nat (length l1))) as [Hlt|Hge];
    destruct (Nat.ltb_spec (Z.to_nat (max_messages c)) (length l1)) as [Hlt'|Hge'];
    try lia; [|reflexivity].
  destruct (Z.ltb_spec 0 (max_messages c)) as [Hpos|Hzero]; [reflexivity|].
  replace (max_messages c) with 0%Z by lia. reflexivity.
Qed.

Lemma run_max_messages (turns : list Turn) (c : t) :
  max_messages (run turns c) = max_messages c.
Proof.
  revert c. induction turns as [|turn turns IH]; intros c; [reflexivity|].
  cbn [run foldl]. fold (run turns (add c turn)). rewrite IH.
  apply add_messages.
Qed.

Lemma run_messages_push (turns : list Turn) (c : t) :
  (0 <= max_messages c)%Z ->
  messages (run turns c)
  = foldl (push (Z.to_nat (max_messages c))) (messages c) (map message_of turns).
Proof.
  revert c. induction turns as [|turn turns IH]; intros c Hmax; [reflexivity|].
  cbn [run foldl map]. fold (run turns (add c turn)).
  destruct (add_messages c turn) as [_ Hsame].
  rewrite IH by (rewrite Hsame; exact Hmax).
  rewrite Hsame, add_messages_push by exact Hmax. reflexivity.
Qed.

Lemma foldl_push_zero {A : Type} (xs l : list A) : foldl (push 0) l xs = l ++ xs.
Proof.
  revert l. induction xs as [|x xs IH]; intros l; [rewrite app_nil_r; reflexivity|].
  cbn [foldl]. rewrite IH. unfold push.
  destruct (0 <? length (l ++ [x]))%nat; cbn [slice_last]; rewrite <- app_assoc; reflexivity.
Qed.

Lemma last_drop_lt {A : Type} (k : nat) (l : list A) :
  l = [] \/ (k < length l)%nat -> last (drop k l) = last l.
Proof.
  intros [->|Hk]; [destruct k; reflexivity|].
  rewrite <- (take_drop k l) at 2. rewrite last_app.
  destruct (last (drop k l)) eqn:E; [reflexivity|].
  apply last_None in E. apply (f_equal length) in E.
  rewrite length_drop in E. cbn in E. lia.
Qed.

(** The conversation keeps the newest [max_messages] messages.  Starting
    from an empty conversation with a limit of at least one, after any
    sequence of user and assistant turns the history is exactly the last
    [max_messages] messages that were added, oldest first, so it never
    holds more than the limit and its last message is the latest turn. *)
Theorem conversation_keeps_newest (limit : Z) (turns : list Turn) :
  (1 <= limit)%Z ->
  let c := run turns (init limit) in
  messages c = slice_last (Z.to_nat limit) (map message_of turns)
  /\ (Z.of_nat (get_message_count c) <= limit)%Z
  /\ get_last_message c = last (map message_of turns).
Proof.
  intros Hlimit c.
  assert (Hms : messages c = slice_last (Z.to_nat limit) (map message_of turns)).
  { unfold c. rewrite run_messages_push by (cbn; lia).
    cbn [init messages max_messages].
    apply foldl_push_nil. lia. }
  split; [exact Hms|]. split.
  - unfold get_message_count. rewrite Hms, slice_last_length by lia. lia.
  - unfold get_last_message. rewrite Hms.
    destruct (Z.to_nat limit) as [|n] eqn:En; [lia|].
    unfold slice_last. apply last_drop_lt.
    destruct (map message_of turns) as [|m ms]; [left; reflexivity|right; cbn; lia].
Qed.

Lemma conversation_keeps_newest_witness :
  (Z.of_nat (get_message_count (run long_session (init 100))) <= 100)%Z
  /\ get_last_message (run long_session (init 100))
     = Some (user_message 51 "one more" None).
Proof.
  pose proof (conversation_keeps_newest 100 long_session ltac:(lia)) as H.
  cbv zeta in H. destruct H as (_ & Hcount & Hlast).
  split; [exact Hcount|]. rewrite Hlast. vm_compute. reflexivity.
Defined.

Lemma run_negative_limit (turns : list Turn) (c : t) :
  (max_messages c < 0)%Z -> messages c = [] -> messages (run turns c) = [].
Proof.
  revert c. induction turns as [|turn turns IH]; intros c Hneg Hnil; [exact Hnil|].
  cbn [run foldl]. fold (run turns (add c turn)).
  destruct (add_messages c turn) as [Hms Hsame].
  apply IH; [rewrite Hsame; exact Hneg|].
  rewrite Hms, Hnil. cbn [app length].
  destruct (Z.ltb_spec (max_messages c) (Z.of_nat 1)) as [_|Hge]; [|lia].
  unfold slice_last_Z.
  destruct (Z.ltb_spec 0 (max_messages c)) as [Hpos|_]; [lia|].
  destruct (Z.to_nat (- max_messages c)) as [|k] eqn:Ek; [lia|].
  cbn [drop]. apply drop_nil.
Qed.

(** A limit of zero does not mean an empty history.  With
    [max_messages = 0] the trimming slice is [messages[-0:]], which is the
    whole list, so nothing is ever dropped and the history grows without
    bound; only a negative limit empties the history, after every turn. *)
Theorem conversation_nonpositive_limit (limit : Z) (turns : list Turn) :
  (limit <= 0)%Z ->
  messages (run turns (init limit))
  = if (limit =? 0)%Z then map message_of turns else [].
Proof.
  intros Hlimit. destruct (Z.eqb_spec limit 0) as [->|Hne].
  - rewrite run_messages_push by (cbn; lia).
    cbn [init messages max_messages]. change (Z.to_nat 0) with 0%nat.
    rewrite foldl_push_zero. reflexivity.
  - apply run_negative_limit; [cbn; lia|reflexivity].
Qed.

Lemma conversation_nonpositive_limit_witness :
  get_message_count (run long_session (init 0)) = 103%nat.
Proof.
  unfold get_message_count.
  rewrite (conversation_nonpositive_limit 0 long_session ltac:(lia)).
  vm_compute. reflexivity.
Defined.

End ConversationWindow.

(** ** The reply that is sent and reported as failed *)

(** A pending reply that is rewritten and sent successfully is reported to
    the user as an error.  After the dispatcher returned True and the sent
    text was appended to the conversation window, the confirmation reads
    the name [smart_detected], which is bound nowhere; the [NameError] is
    caught by the method's own handler.  So the message is sent once, the
    window records it, the slot is cleared, and the only thing shown to the
    user is the notice "Error rewriting message" with the NameError text;
    no confirmation is shown or spoken. *)
Theorem sent_reply_is_reported_as_error (env : Env) (txt answer : string)
    (a : FridayApp) (p : PendingMessage) :
  pending_whatsapp_message a = Some p ->
  (forall messages, chat_completion env messages = Ok answer) ->
  (forall c m, send_message env c m = true) ->
  let rewritten :=
    PyStr.strip_char squote_char (PyStr.strip_char dquote_char (PyStr.strip answer)) in
  let r := _rewrite_and_send_whatsapp_reply env txt a in
  filter (fun e => is_send e) (trace_of r) = [EvSend (contact p) rewritten]
  /\ filter (fun e => is_user_visible e) (trace_of r)
     = [EvGui (icon_cross +:+ " Error rewriting message: " +:+ smart_detected_NameError)]
  /\ last (window (state_of r) (contact p))
     = Some ("[YOU] You (via Jarvis): " +:+ rewritten)
  /\ pending_whatsapp_message (state_of r) = None
  /\ waiting_for_whatsapp_reply (state_of r) = false.
Proof.
  intros Hp Hanswer Hsend rewritten r. subst r.
  unfold _rewrite_and_send_whatsapp_reply, try_except, bind, gets, emit, call,
    whatsapp_send, modify, ret, raise.
  rewrite Hp. cbn [fst snd]. rewrite Hanswer. cbn [fst snd].
  fold rewritten. rewrite Hsend. cbn [fst snd].
  set (a1 := snd (fst (_add_to_conversation_history (contact p)
                         ("You (via Jarvis): " +:+ rewritten) true a))).
  assert (Hlast : last (window a1 (contact p))
                  = Some ("[YOU] You (via Jarvis): " +:+ rewritten)).
  { assert (Hw : window a1 (contact p)
                 = push max_history_per_contact (window a (contact p))
                     (history_line ("You (via Jarvis): " +:+ rewritten) true)).
    { unfold a1.
      rewrite <- (decide_True (P := contact p = contact p)
                    (push max_history_per_contact (window a (contact p))
                       (history_line ("You (via Jarvis): " +:+ rewritten) true))
                    (window a (contact p)) eq_refl).
      apply (window_add_history a (contact p)). }
    rewrite Hw.
    apply push_last. unfold max_history_per_contact. lia. }
  change (_add_to_conversation_history (contact p)
            ("You (via Jarvis): " +:+ rewritten) true a)
    with (Ok tt, a1, @nil Event).
  cbn. repeat split; assumption.
Qed.

Lemma sent_reply_is_reported_as_error_witness :
  filter (fun e => is_user_visible e)
    (trace_of (_rewrite_and_send_whatsapp_reply (env_with "Sure, 3pm works for me!" true)
                 "sure works for me" app_awaiting_chen))
  = [EvGui (icon_cross +:+ " Error rewriting message: name 'smart_detected' is not defined")].
Proof.
  exact (proj1 (proj2
    (sent_reply_is_reported_as_error (env_with "Sure, 3pm works for me!" true)
       "sure works for me" "Sure, 3pm works for me!" app_awaiting_chen
       (pending_of notification_chen) eq_refl (fun _ => eq_refl) (fun _ _ => eq_refl)))).
Defined.

(** ** History search *)

(** History search cannot succeed in the application as it is wired.
    [FridayApp] holds a [WhatsAppWebJSService], which has neither
    [read_chat_history] nor [search_messages]; so every call of
    [_search_whatsapp_history], whatever the query, the chat name and the
    application state, ends in the method's own handler: one error log
    line and the notice "Error searching messages: ... has no attribute
    ...", never a result list and never "No messages found". *)
Theorem history_search_always_fails (strftime : Z -> string) (query : string)
    (chat_name : option string) (a : FridayApp) :
  exists attr,
    (attr = "read_chat_history" \/ attr = "search_messages")
    /\ _search_whatsapp_history webjs_connector strftime query chat_name a
       = (Ok tt, a,
          [EvLogError ("Error searching WhatsApp history: "
                       +:+ AttributeError "WhatsAppWebJSService" attr);
           EvGui ("Error searching messages: "
                  +:+ AttributeError "WhatsAppWebJSService" attr)]).
Proof.
  destruct chat_name as [[|c0 rest]|].
  - exists "search_messages". split; [right; reflexivity|reflexivity].
  - exists "read_chat_history". split; [left; reflexivity|reflexivity].
  - exists "search_messages". split; [right; reflexivity|reflexivity].
Qed.

Lemma prefix_occurs (sub s : string) :
  String.prefix sub s = true <-> exists after, s = sub +:+ after.
Proof.
  revert s. induction sub as [|a sub IH]; intros s.
  - split; [intros _; exists s; reflexivity|]. intros _. destruct s; reflexivity.
  - destruct s as [|b s].
    + split; [discriminate|]. intros [after H]. discriminate H.
    + cbn [String.prefix]. destruct (ascii_dec a b) as [<-|Hne].
      * rewrite IH. split; intros [after H]; exists after.
        -- rewrite H. reflexivity.
        -- rewrite append_cons in H. injection H as H. exact H.
      * split; [discriminate|]. intros [after H].
        rewrite append_cons in H. injection H as H _. congruence.
Qed.

Lemma str_in_cons (sub : string) (b : ascii) (s : string) :
  str_in sub (String b s) = String.prefix sub (String b s) || str_in sub s.
Proof.
  unfold str_in. cbn [String.index].
  destruct (String.prefix sub (String b s)); [reflexivity|].
  destruct (String.index 0 sub s); reflexivity.
Qed.

(** [str_in] is the substring test. *)
Lemma str_in_occurs (sub s : string) : str_in sub s = true <-> occurs_in sub s.
Proof.
  unfold occurs_in. induction s as [|b s IH].
  - unfold str_in. cbn [String.index]. destruct sub as [|a sub].
    + split; [intros _; exists EmptyString, EmptyString; reflexivity|reflexivity].
    + split; [discriminate|]. intros (before & after & H).
      destruct before; discriminate H.
  - rewrite str_in_cons, orb_true_iff, prefix_occurs, IH. split.
    + intros [[after H] | (before & after & H)].
      * exists EmptyString, after. exact H.
      * exists (String b before), after. rewrite H. reflexivity.
    + intros (before & after & H). destruct before as [|b' before].
      * left. exists after. exact H.
      * right. rewrite append_cons in H. injection H as _ H.
        exists before, after. exact H.
Qed.

(** A search inside a conversation filters by the content.  With a
    connector that has [read_chat_history], a search with a chat name lists
    exactly the stored messages of the conversation whose lower-cased
    content contains the lower-cased query text: it shows "No messages
    found" when no message does, however many messages the conversation
    holds, and otherwise the result text of those messages, in the order
    of the store's answer. *)
Theorem chat_search_filters_by_content (svc : Connector) (strftime : Z -> string)
    (read : string -> nat -> Result (list WhatsAppMessage))
    (query c : string) (messages : list WhatsAppMessage) (a : FridayApp) :
  read_chat_history svc = Some read ->
  c <> EmptyString ->
  read c 100%nat = Ok messages ->
  let mentions m := occurs_in (PyStr.lower query) (PyStr.lower (content m)) in
  let r := _search_whatsapp_history svc strftime query (Some c) a in
  (Forall (fun m => ~ mentions m) messages ->
     r = (Ok tt, a, [EvGui ("No messages found matching '" +:+ query +:+ "'")]))
  /\ (Exists mentions messages ->
      exists results,
        r = (Ok tt, a, [EvGui (result_text strftime query results)])
        /\ results <> []
        /\ sublist results messages
        /\ forall m, In m results <-> In m messages /\ mentions m).
Proof.
  intros Hread Hc Hmsgs mentions r.
  destruct c as [|c0 rest]; [contradiction|].
  assert (Hrun : r = (Ok tt, a,
                      [EvGui (match List.filter (matches_query query) messages with
                              | [] => "No messages found matching '" +:+ query +:+ "'"
                              | _ :: _ => result_text strftime query
                                            (List.filter (matches_query query) messages)
                              end)])).
  { subst r. unfold _search_whatsapp_history, try_except, bind, getattr, call, ret, emit.
    rewrite Hread. cbn [fst snd]. rewrite Hmsgs. cbn [fst snd app].
    destruct (List.filter (matches_query query) messages); reflexivity. }
  assert (Hmq : forall m, matches_query query m = true <-> mentions m)
    by (intros m; apply str_in_occurs).
  split.
  - intros Hnone.
    assert (Hfilter : List.filter (matches_query query) messages = []).
    { clear Hrun Hmsgs. induction Hnone as [|m ms Hm _ IH]; [reflexivity|].
      cbn [List.filter]. destruct (matches_query query m) eqn:E; [|exact IH].
      exfalso. apply Hm, Hmq. exact E. }
    rewrite Hrun, Hfilter. reflexivity.
  - intros Hsome. exists (List.filter (matches_query query) messages).
    assert (Hin : forall m, In m (List.filter (matches_query query) messages)
                            <-> In m messages /\ mentions m).
    { intros m. rewrite List.filter_In, Hmq. reflexivity. }
    assert (Hne : List.filter (matches_query query) messages <> []).
    { apply Exists_exists in Hsome. destruct Hsome as (m & Hm & Hmen).
      apply list_elem_of_In in Hm.
      intros Hnil. assert (Hm' : In m (List.filter (matches_query query) messages))
        by (apply Hin; split; assumption).
      rewrite Hnil in Hm'. exact Hm'. }
    split; [|split; [exact Hne|split; [|exact Hin]]].
    + rewrite Hrun. destruct (List.filter (matches_query query) messages); [contradiction|].
      reflexivity.
    + clear. induction messages as [|m ms IH]; [constructor|].
      cbn [List.filter]. destruct (matches_query query m).
      * apply sublist_skip. exact IH.
      * apply sublist_cons. exact IH.
Qed.

Lemma chat_search_filters_by_content_witness :
  _search_whatsapp_history
    (selenium_connector (fun _ _ => Ok [stored_hey]) (fun _ _ => Ok []))
    (fun _ => "2026-11-03 10:00") "Chen" (Some "Chen") init_app
  = (Ok tt, init_app, [EvGui "No messages found matching 'Chen'"]).
Proof.
  apply (proj1 (chat_search_filters_by_content
           (selenium_connector (fun _ _ => Ok [stored_hey]) (fun _ _ => Ok []))
           (fun _ => "2026-11-03 10:00") (fun _ _ => Ok [stored_hey])
           "Chen" "Chen" [stored_hey] init_app eq_refl ltac:(discriminate) eq_refl)).
  constructor; [|constructor].
  intros H. apply str_in_occurs in H. vm_compute in H. discriminate H.
Defined.
